(** * Buster-mkt: API routes and subgraph mappings

    A shallow embedding of
      - src/app/api/admin-auto-discover/route.ts
      - src/app/api/auto-preview-batch-distribution/route.ts
      - src/app/api/market/analytics/route.ts, and the current-price
        route that follows it in the same file
      - policast/src/policast-market-v-3.ts
    followed by the properties the specification states about them.

    Conventions.  A [bigint] is a [Z].  Strings are [string]; the only
    strings the routes transform are addresses and questions, and the
    case mapping is the ASCII one.  Contract reads and log queries are
    answered by an oracle (the deployed contract at one block); every
    read is appended to a trace, so that "no read was made" is a
    statement about the trace.  A thrown exception is a value of [exn].
    [console.*] output is not part of any response and is left out. *)

From Stdlib Require Import ZArith QArith Qround Qabs Lqa Floats String Ascii.
From Stdlib Require Import List Bool Lia.
From Stdlib Require Import DecimalString Strings.Byte.
From Stdlib Require Import Sorted Permutation.
Import ListNotations.

Local Open Scope string_scope.
Local Open Scope list_scope.
Local Open Scope Z_scope.

(* ================================================================= *)
(** ** The JavaScript values the routes handle *)

Module JS.

(** [String.prototype.toLowerCase], on ASCII text. *)
Definition lower_ascii (c : ascii) : ascii :=
  let n := nat_of_ascii c in
  if ((65 <=? n) && (n <=? 90))%nat then ascii_of_nat (n + 32) else c.

Fixpoint toLowerCase (s : string) : string :=
  match s with
  | EmptyString => EmptyString
  | String c s' => String (lower_ascii c) (toLowerCase s')
  end.

(** [s.slice(0, n)]. *)
Definition slice0 (n : nat) (s : string) : string := substring 0 n s.

(** [bigint.prototype.toString()]: decimal digits, a leading minus sign. *)
Definition bigint_toString (z : Z) : string :=
  NilZero.string_of_int (Z.to_int z).

(** The double quote character, for the description templates. *)
Definition dquote : string := String (ascii_of_nat 34) EmptyString.

(** A thrown value: an [Error] with its message, or something else. *)
Inductive exn : Type :=
| JsError (message : string)
| NotAnError.

(** [error instanceof Error ? error.message : "Unknown error"]. *)
Definition errorMessage (e : exn) : string :=
  match e with
  | JsError m => m
  | NotAnError => "Unknown error"
  end.

(** The engine's own errors; their message text is engine specific. *)
Definition TypeError : exn := JsError "TypeError".
Definition SyntaxError : exn := JsError "SyntaxError".

Inductive res (A : Type) : Type :=
| Ok (a : A)
| Throw (e : exn).
Arguments Ok {A} a.
Arguments Throw {A} e.

(** Values decoded from a contract read or parsed from a JSON body.
    [JNumber] carries an integral Number; [JTuple] is an array;
    [JObject] an object with its own enumerable properties. *)
Unset Elimination Schemes.
Inductive jsval : Type :=
| JUndefined
| JNull
| JBool (b : bool)
| JBigInt (z : Z)
| JNumber (n : Z)
| JString (s : string)
| JTuple (items : list jsval)
| JObject (fields : list (string * jsval)).
Set Elimination Schemes.

(** [Boolean(v)], also the test of [if (v)] and [!v]. *)
Definition truthy (v : jsval) : bool :=
  match v with
  | JUndefined | JNull => false
  | JBool b => b
  | JBigInt z => negb (z =? 0)
  | JNumber n => negb (n =? 0)
  | JString s => negb (String.eqb s EmptyString)
  | JTuple _ | JObject _ => true
  end.

(** [a ?? b]. *)
Definition nullish (a b : jsval) : jsval :=
  match a with
  | JUndefined | JNull => b
  | _ => a
  end.

Fixpoint assoc (k : string) (l : list (string * jsval)) : jsval :=
  match l with
  | [] => JUndefined
  | (k', v) :: l' => if String.eqb k k' then v else assoc k l'
  end.

(** [v[i]] for a value that passed a truthiness guard (on [undefined]
    and [null] JavaScript throws; every use below is behind a guard). *)
Definition index (v : jsval) (i : nat) : jsval :=
  match v with
  | JTuple items => nth i items JUndefined
  | JString s =>
      match String.get i s with
      | Some c => JString (String c EmptyString)
      | None => JUndefined
      end
  | JObject fields => assoc (bigint_toString (Z.of_nat i)) fields
  | _ => JUndefined
  end.

(** [const { name } = v]: a [TypeError] on [undefined] and [null]. *)
Definition prop (v : jsval) (name : string) : res jsval :=
  match v with
  | JUndefined | JNull => Throw TypeError
  | JObject fields => Ok (assoc name fields)
  | _ => Ok JUndefined
  end.

Definition join (sep : string) (l : list string) : string :=
  match l with
  | [] => EmptyString
  | x :: l' => fold_left (fun acc y => (acc ++ sep ++ y)%string) l' x
  end.

(** [String(v)]; inside an array [undefined] and [null] print empty. *)
Fixpoint toString (v : jsval) : string :=
  match v with
  | JUndefined => "undefined"
  | JNull => "null"
  | JBool true => "true"
  | JBool false => "false"
  | JBigInt z => bigint_toString z
  | JNumber n => bigint_toString n
  | JString s => s
  | JTuple items =>
      join ","
        (map (fun x => match x with
                       | JUndefined | JNull => EmptyString
                       | _ => toString x
                       end) items)
  | JObject _ => "[object Object]"
  end.

Section Coercions.

(** [StringToBigInt] of the language: [None] when the text is not an
    integer literal ([BigInt] then throws a [SyntaxError]). *)
Variable StringToBigInt : string -> option Z.

Definition parsed (s : string) : res Z :=
  match StringToBigInt s with
  | Some z => Ok z
  | None => Throw SyntaxError
  end.

(** [BigInt(v)]. *)
Definition BigInt (v : jsval) : res Z :=
  match v with
  | JUndefined | JNull => Throw TypeError
  | JBool b => Ok (if b then 1 else 0)
  | JBigInt z => Ok z
  | JNumber n => Ok n
  | JString s => parsed s
  | JTuple _ | JObject _ => parsed (toString v)
  end.

End Coercions.

(** [s.toLowerCase()] on a value that need not be a string. *)
Definition toLowerCase_of (v : jsval) : res string :=
  match v with
  | JString s => Ok (toLowerCase s)
  | _ => Throw TypeError
  end.

End JS.

(* ================================================================= *)
(** ** Computations that read a state and may throw *)

Module Eff.
Import JS.

Definition M (S A : Type) : Type := S -> res A * S.

Definition ret {S A} (a : A) : M S A := fun s => (Ok a, s).

Definition throw {S A} (e : exn) : M S A := fun s => (Throw e, s).

Definition bind {S A B} (m : M S A) (k : A -> M S B) : M S B :=
  fun s =>
    match m s with
    | (Ok a, s') => k a s'
    | (Throw e, s') => (Throw e, s')
    end.

(** [try { m } catch (e) { h e }]: what [m] did to the state stays. *)
Definition try_catch {S A} (m : M S A) (h : exn -> M S A) : M S A :=
  fun s =>
    match m s with
    | (Ok a, s') => (Ok a, s')
    | (Throw e, s') => h e s'
    end.

Definition lift {S A} (r : res A) : M S A := fun s => (r, s).

(** A [for] loop whose body contributes items to a result array. *)
Fixpoint forEach {S X W} (xs : list X) (body : X -> M S (list W))
  (acc : list W) : M S (list W) :=
  match xs with
  | [] => ret acc
  | x :: xs' => bind (body x) (fun ws => forEach xs' body (acc ++ ws))
  end.


(** [wp m P Q s]: run from [s], [m] returns a value and a state that
    satisfy [P], or throws an exception and leaves a state that
    satisfy [Q]. *)
Definition wp {S A} (m : M S A) (P : A -> S -> Prop) (Q : exn -> S -> Prop)
  (s : S) : Prop :=
  match m s with
  | (Ok a, s') => P a s'
  | (Throw e, s') => Q e s'
  end.

End Eff.

Declare Scope eff_scope.
Delimit Scope eff_scope with eff.
Notation "x <- m ;; k" := (Eff.bind m (fun x => k))
  (at level 61, m at next level, right associativity) : eff_scope.

(** [start, start+1, ..., stop-1]. *)
Definition zrange (start stop : Z) : list Z :=
  map (fun k => start + Z.of_nat k) (seq 0 (Z.to_nat (stop - start))).

(** [0, step, 2*step, ...] below [stop]: the values of a loop variable
    that starts at 0 and is advanced by [step] while it is below [stop]. *)
Definition zsteps (step stop : Z) : list Z :=
  map (fun k => step * Z.of_nat k)
      (seq 0 (Z.to_nat ((stop + step - 1) / step))).

(* ================================================================= *)
(** ** The contract client *)

Module Rpc.
Import JS Eff.

(** One request to the JSON-RPC endpoint. *)
Inductive call : Type :=
| MarketCount
| GetMarketInfo (marketId : Z)
| GetMarketFinancials (marketId : Z)
| GetFreeMarketInfo (marketId : Z)
| GetLPInfo (marketId : Z) (user : string)
| GetEligibleWinners (marketId : Z) (participants : list string)
| GetLogsTradeExecuted (marketId : Z)
| GetLogsFreeTokensClaimed (marketId : Z).

Definition trace : Type := list call.

(** A read appends itself to the trace, whatever its outcome. *)
Definition request {A} (c : call) (answer : res A) : M trace A :=
  fun tr => (answer, tr ++ [c]).

Definition is_per_market_read (c : call) : bool :=
  match c with
  | GetMarketInfo _ | GetMarketFinancials _
  | GetFreeMarketInfo _ | GetLPInfo _ _ => true
  | _ => false
  end.

Definition is_event_fetch (c : call) : bool :=
  match c with
  | GetLogsTradeExecuted _ | GetLogsFreeTokensClaimed _ => true
  | _ => false
  end.

Definition is_eligibility_check (c : call) : bool :=
  match c with
  | GetEligibleWinners _ _ => true
  | _ => false
  end.

End Rpc.

(* ================================================================= *)
(** ** src/app/api/admin-auto-discover/route.ts *)

Module AdminAutoDiscover.
Import JS Eff Rpc.
Local Open Scope eff_scope.

Inductive withdrawal_type : Type := adminLiquidity | prizePool | lpRewards.

Definition withdrawal_type_eqb (a b : withdrawal_type) : bool :=
  match a, b with
  | adminLiquidity, adminLiquidity
  | prizePool, prizePool
  | lpRewards, lpRewards => true
  | _, _ => false
  end.

Record AdminWithdrawal : Type := {
  marketId : Z;
  amount : Z;
  type : withdrawal_type;
  description : string
}.

(** A withdrawal as it is sent: [amount] turned into a string. *)
Record SerializedWithdrawal : Type := {
  s_marketId : Z;
  s_amount : string;
  s_type : withdrawal_type;
  s_description : string
}.

Record Grouped (A : Type) : Type := {
  g_adminLiquidity : A;
  g_prizePool : A;
  g_lpRewards : A
}.
Arguments g_adminLiquidity {A} _.
Arguments g_prizePool {A} _.
Arguments g_lpRewards {A} _.

Record Totals : Type := {
  t_adminLiquidity : string;
  t_prizePool : string;
  t_lpRewards : string;
  t_total : string
}.

Inductive payload : Type :=
| ErrorBody (error : string)
| Discovered (withdrawals : Grouped (list SerializedWithdrawal))
             (totals : Totals) (totalCount : nat).

Record response : Type := { status : Z; body : payload }.

(** The request: what [request.json()] resolves to, or its rejection. *)
Record request : Type := { json : res jsval }.

Section Route.

Variable StringToBigInt : string -> option Z.

(** The contract at the block that is read: [marketCount] is typed
    [bigint] by the route, the other reads are left [unknown]. *)
Variable marketCount : res Z.
Variable readContract : call -> res jsval.

Let BigInt := JS.BigInt StringToBigInt.

Definition read (c : call) : M trace jsval := Rpc.request c (readContract c).

(** Lines 319-334. *)
Definition checkIfFreeMarket (marketId : Z) : M trace bool :=
  try_catch
    (freeMarketInfo <- read (GetFreeMarketInfo marketId) ;;
     ret (truthy freeMarketInfo))
    (fun _ => ret false).

(** Lines 337-386. *)
Definition getUnusedPrizePool (marketId : Z) : M trace Z :=
  try_catch
    (freeMarketInfo <- read (GetFreeMarketInfo marketId) ;;
     if negb (truthy freeMarketInfo) then ret 0
     else
       let fm := freeMarketInfo in
       maxParticipants <- lift (BigInt (nullish (index fm 0) (JBigInt 0))) ;;
       tokensPerParticipant <- lift (BigInt (nullish (index fm 1) (JBigInt 0))) ;;
       currentParticipants <- lift (BigInt (nullish (index fm 2) (JBigInt 0))) ;;
       totalPrizePool <- lift (BigInt (nullish (index fm 3) (JBigInt 0))) ;;
       let prizePoolWithdrawn := truthy (index fm 4) in
       if prizePoolWithdrawn then ret 0
       else
         let maxPossiblePrizePool := maxParticipants * tokensPerParticipant in
         let actualPrizePool := currentParticipants * tokensPerParticipant in
         let unusedPrizePool := maxPossiblePrizePool - actualPrizePool in
         ret (if unusedPrizePool >? 0 then unusedPrizePool else 0))
    (fun _ => ret 0).

Definition describe (prefix question : string) : string :=
  (prefix ++ dquote ++ slice0 30 question ++ "..." ++ dquote)%string.

(** Lines 203-236: the admin-liquidity check of one market. *)
Definition checkAdminLiquidity (marketId : Z) (question : string)
  : M trace (list AdminWithdrawal) :=
  try_catch
    (marketFinancials <- read (GetMarketFinancials marketId) ;;
     if truthy marketFinancials then
       let mf := marketFinancials in
       adminInitialLiquidity <- lift (BigInt (nullish (index mf 0) (JBigInt 0))) ;;
       let adminLiquidityClaimed :=
         truthy (nullish (index mf 4) (nullish (index mf 3) (JBool false))) in
       if negb adminLiquidityClaimed && (adminInitialLiquidity >? 0) then
         ret [ {| marketId := marketId;
                  amount := adminInitialLiquidity;
                  type := adminLiquidity;
                  description := describe "Admin liquidity for market " question |} ]
       else ret []
     else ret [])
    (fun _ => ret []).

(** Lines 238-260: the unused prize pool of one market. *)
Definition checkPrizePool (marketId : Z) (question : string) (resolved : bool)
  : M trace (list AdminWithdrawal) :=
  isFreeMarket <- checkIfFreeMarket marketId ;;
  if isFreeMarket && resolved then
    try_catch
      (unusedPrizePool <- getUnusedPrizePool marketId ;;
       if unusedPrizePool >? 0 then
         ret [ {| marketId := marketId;
                  amount := unusedPrizePool;
                  type := prizePool;
                  description :=
                    describe "Unused prize pool for free market " question |} ]
       else ret [])
      (fun _ => ret [])
  else ret [].

(** Lines 263-293: the LP rewards of one market. *)
Definition checkLPRewards (marketId : Z) (userAddress question : string)
  : M trace (list AdminWithdrawal) :=
  try_catch
    (lpInfo <- read (GetLPInfo marketId userAddress) ;;
     if truthy lpInfo then
       let li := lpInfo in
       contribution <- lift (BigInt (nullish (index li 0) (JBigInt 0))) ;;
       let rewardsClaimed := truthy (index li 1) in
       estimatedRewards <-
         lift (BigInt (nullish (index li 2) (nullish (index li 3) (JBigInt 0)))) ;;
       if negb rewardsClaimed && (estimatedRewards >? 0) then
         ret [ {| marketId := marketId;
                  amount := estimatedRewards;
                  type := lpRewards;
                  description := describe "LP rewards for market " question |} ]
       else ret []
     else ret [])
    (fun _ => ret []).

(** Lines 171-312: the body of the loop over one batch.  The two
    [Number(...)] conversions and [String(...)] cannot throw on the
    values of [jsval]; the [BigInt(...)] conversions can, and then
    the market is skipped. *)
Definition checkMarket (userAddress : jsval) (marketId : Z)
  : M trace (list AdminWithdrawal) :=
  try_catch
    (marketInfo <- read (GetMarketInfo marketId) ;;
     if negb (truthy marketInfo) then ret []
     else
       let mi := marketInfo in
       let question := toString (nullish (index mi 0) (JString EmptyString)) in
       endTime <- lift (BigInt (nullish (index mi 2) (JBigInt 0))) ;;
       optionCount <- lift (BigInt (nullish (index mi 4) (JBigInt 0))) ;;
       let resolved := truthy (index mi 5) in
       winningOptionId <- lift (BigInt (nullish (index mi 9) (JBigInt 0))) ;;
       let creator := toString (nullish (index mi 10) (JString EmptyString)) in
       user <- lift (toLowerCase_of userAddress) ;;
       let isCreator := String.eqb (toLowerCase creator) user in
       forCreator <-
         (if isCreator then
            a <- checkAdminLiquidity marketId question ;;
            b <- checkPrizePool marketId question resolved ;;
            ret (a ++ b)
          else ret []) ;;
       forLP <-
         match userAddress with
         | JString u => checkLPRewards marketId u question
         | _ => throw TypeError
         end ;;
       ret (forCreator ++ forLP))
    (fun _ => ret []).

(** Lines 163-316. *)
Definition checkMarketBatchForAdmin (userAddress : jsval) (startId endId : Z)
  : M trace (list AdminWithdrawal) :=
  forEach (zrange startId endId) (checkMarket userAddress) [].

Definition batchSize : Z := 10.

(** Lines 105-160.  [Number(marketCount)] is the count itself; the
    50 ms pause between batches has no effect on the result. *)
Definition discoverAdminWithdrawals (userAddress : jsval)
  : M trace (list AdminWithdrawal) :=
  try_catch
    (count <- Rpc.request MarketCount marketCount ;;
     let maxMarketId := count in
     if maxMarketId =? 0 then ret []
     else
       forEach (zsteps batchSize maxMarketId)
         (fun startId =>
            let endId := Z.min (startId + batchSize) maxMarketId in
            try_catch (checkMarketBatchForAdmin userAddress startId endId)
              (fun _ => ret []))
         [])
    (fun _ => ret []).

Definition of_type (t : withdrawal_type) (ws : list AdminWithdrawal)
  : list AdminWithdrawal :=
  filter (fun w => withdrawal_type_eqb (type w) t) ws.

(** [ws.reduce((sum, w) => sum + w.amount, 0n)]. *)
Definition sum_amounts (ws : list AdminWithdrawal) : Z :=
  fold_left (fun sum w => sum + amount w) ws 0.

Definition serialize (w : AdminWithdrawal) : SerializedWithdrawal :=
  {| s_marketId := marketId w;
     s_amount := bigint_toString (amount w);
     s_type := type w;
     s_description := description w |}.

(** Lines 20-102. *)
Definition POST (req : request) : M trace response :=
  try_catch
    (body <- lift (json req) ;;
     userAddress <- lift (prop body "userAddress") ;;
     if negb (truthy userAddress) then
       ret {| status := 400; body := ErrorBody "User address is required" |}
     else
       adminWithdrawals <- discoverAdminWithdrawals userAddress ;;
       let groupedWithdrawals :=
         {| g_adminLiquidity := of_type adminLiquidity adminWithdrawals;
            g_prizePool := of_type prizePool adminWithdrawals;
            g_lpRewards := of_type lpRewards adminWithdrawals |} in
       let serializedWithdrawals :=
         {| g_adminLiquidity := map serialize (g_adminLiquidity groupedWithdrawals);
            g_prizePool := map serialize (g_prizePool groupedWithdrawals);
            g_lpRewards := map serialize (g_lpRewards groupedWithdrawals) |} in
       let serializedTotals :=
         {| t_adminLiquidity :=
              bigint_toString (sum_amounts (g_adminLiquidity groupedWithdrawals));
            t_prizePool :=
              bigint_toString (sum_amounts (g_prizePool groupedWithdrawals));
            t_lpRewards :=
              bigint_toString (sum_amounts (g_lpRewards groupedWithdrawals));
            t_total := bigint_toString (sum_amounts adminWithdrawals) |} in
       ret {| status := 200;
              body := Discovered serializedWithdrawals serializedTotals
                        (List.length adminWithdrawals) |})
    (fun error =>
       ret {| status := 500;
              body := ErrorBody ("Failed to auto-discover admin withdrawals: "
                                 ++ errorMessage error)%string |}).

End Route.


(** The answer that lists no withdrawal. *)
Definition noWithdrawals : payload :=
  Discovered
    {| g_adminLiquidity := []; g_prizePool := []; g_lpRewards := [] |}
    {| t_adminLiquidity := "0"; t_prizePool := "0"; t_lpRewards := "0";
       t_total := "0" |}
    0.

Section Reading.

Variable StringToBigInt : string -> option Z.
Variable readContract : call -> res jsval.

(** The fields of the two tuples, as the scanner reads them. *)
Definition creatorOf (mi : jsval) : string :=
  toString (nullish (index mi 10) (JString EmptyString)).

Definition resolvedOf (mi : jsval) : bool := truthy (index mi 5).

Definition numberAt (i : nat) (fm : jsval) : res Z :=
  JS.BigInt StringToBigInt (nullish (index fm i) (JBigInt 0)).

Definition prizePoolWithdrawnOf (fm : jsval) : bool := truthy (index fm 4).

(** What makes an unused prize pool of [amount] due to the caller
    on market [m]. *)
Definition prizePoolDue (userAddress : jsval) (m amount : Z) : Prop :=
  exists mi u fm maxParticipants tokensPerParticipant currentParticipants,
    readContract (GetMarketInfo m) = Ok mi /\
    userAddress = JString u /\
    toLowerCase (creatorOf mi) = toLowerCase u /\
    resolvedOf mi = true /\
    readContract (GetFreeMarketInfo m) = Ok fm /\
    truthy fm = true /\
    prizePoolWithdrawnOf fm = false /\
    numberAt 0 fm = Ok maxParticipants /\
    numberAt 1 fm = Ok tokensPerParticipant /\
    numberAt 2 fm = Ok currentParticipants /\
    amount = maxParticipants * tokensPerParticipant
             - currentParticipants * tokensPerParticipant /\
    0 < amount.

Definition prizePoolOnlyWhenDue (userAddress : jsval) (w : AdminWithdrawal)
  : Prop :=
  type w = prizePool -> prizePoolDue userAddress (marketId w) (amount w).

End Reading.

End AdminAutoDiscover.
(* ================================================================= *)
(** ** Numbers as the previewer prints them *)

Module Double.
Import JS.
Local Open Scope float_scope.

(** [Number(z)] for a bigint: the nearest binary64 value, ties to even. *)
Definition Number_of_bigint (z : Z) : float :=
  SF2Prim (binary_normalize prec emax z 0 false).

(** The integer a Number is, when it is one and is at most 2^53 in
    magnitude; such a Number prints as that integer. *)
Definition safe_integer (x : float) : option Z :=
  match Prim2SF x with
  | S754_zero _ => Some 0%Z
  | S754_finite sign m e =>
      let magnitude :=
        if (0 <=? e)%Z then Some (Z.pos m * 2 ^ e)%Z
        else if (Z.pos m mod 2 ^ (- e) =? 0)%Z then Some (Z.pos m / 2 ^ (- e))%Z
        else None in
      match magnitude with
      | Some v =>
          if (v <=? 2 ^ 53)%Z then Some (if sign then - v else v)%Z else None
      | None => None
      end
  | _ => None
  end.

Section Printing.

(** [Number.prototype.toString] where the Number is not an integer
    of magnitude at most 2^53: the shortest digits that read back
    as the same Number, as the language defines them. *)
Variable shortest_digits : float -> string.

Definition Number_toString (x : float) : string :=
  match safe_integer x with
  | Some z => bigint_toString z
  | None =>
      match Prim2SF x with
      | S754_nan => "NaN"
      | S754_infinity false => "Infinity"
      | S754_infinity true => "-Infinity"
      | _ => shortest_digits x
      end
  end.

(** [(Number(amount) / 1e18).toString()]. *)
Definition formatAmount (amount : Z) : string :=
  Number_toString (Number_of_bigint amount / 1e18).

End Printing.

End Double.

(* ================================================================= *)
(** ** src/app/api/auto-preview-batch-distribution/route.ts *)

Module PreviewBatchDistribution.
Import JS Eff Rpc.
Local Open Scope eff_scope.

(** The tuple [getMarketInfo] is decoded to (lines 45-57). *)
Record MarketInfo : Type := {
  question : string;
  description : string;
  endTime : Z;
  category : Z;
  optionCount : Z;
  resolved : bool;
  disputed : bool;
  marketType : Z;
  invalidated : bool;
  winningOptionId : Z;
  creator : string
}.

(** What the route reads of a [TradeExecuted] log: [args?.buyer] and
    [args?.seller], either of which may be [undefined]. *)
Record TradeExecuted : Type := {
  buyer : option string;
  seller : option string
}.

(** What the route reads of a [FreeTokensClaimed] log: [args?.user]. *)
Record FreeTokensClaimed : Type := {
  user : option string
}.

Inductive payload : Type :=
| ErrorBody (error : string)
| Preview (recipients : list string) (amounts : list string)
          (totalParticipants : nat) (eligibleCount : option nat)
          (message : option string).

Record response : Type := { status : Z; body : payload }.

Record request : Type := { json : res jsval }.

Definition zeroAddress : string := "0x0000000000000000000000000000000000000000".

(** [Set.prototype.add]: a new element goes last, a known one stays. *)
Definition set_add (x : string) (set : list string) : list string :=
  if existsb (String.eqb x) set then set else set ++ [x].

(** [if (a && a !== zeroAddress) participantSet.add(a.toLowerCase())]. *)
Definition add_participant (a : option string) (set : list string)
  : list string :=
  match a with
  | Some addr =>
      if negb (String.eqb addr EmptyString) && negb (String.eqb addr zeroAddress)
      then set_add (toLowerCase addr) set
      else set
  | None => set
  end.

(** Lines 133-158. *)
Definition collectParticipants (tradeEvents : list TradeExecuted)
  (freeTokenEvents : list FreeTokensClaimed) : list string :=
  let afterTrades :=
    fold_left
      (fun set event => add_participant (seller event)
                          (add_participant (buyer event) set))
      tradeEvents [] in
  fold_left (fun set event => add_participant (user event) set)
    freeTokenEvents afterTrades.

Definition empty_result (total : nat) (eligible : option nat) (msg : string)
  : response :=
  {| status := 200; body := Preview [] [] total eligible (Some msg) |}.

Section Route.

(** [parseInt] of the language on a string: [None] is [NaN]. *)
Variable parseInt : string -> option Z.
Variable shortest_digits : float -> string.

(** The contract and its event log at the block that is read. *)
Variable getMarketInfo : Z -> res MarketInfo.
Variable tradeExecutedLogs : Z -> res (list TradeExecuted).
Variable freeTokensClaimedLogs : Z -> res (list FreeTokensClaimed).
Variable getEligibleWinners : Z -> list string -> res (list string * list Z).

(** Lines 13-203. *)
Definition POST (req : request) : M trace response :=
  try_catch
    (body <- lift (json req) ;;
     marketId <- lift (prop body "marketId") ;;
     if negb (truthy marketId) then
       ret {| status := 400; body := ErrorBody "Market ID is required" |}
     else
       match parseInt (toString marketId) with
       | None => ret {| status := 400; body := ErrorBody "Invalid market ID" |}
       | Some marketIdNum =>
         if marketIdNum <? 0 then
           ret {| status := 400; body := ErrorBody "Invalid market ID" |}
         else
           marketInfo <- Rpc.request (GetMarketInfo marketIdNum)
                           (getMarketInfo marketIdNum) ;;
           if negb (resolved marketInfo) then
             ret (empty_result 0 (Some 0%nat)
                    "Market is not resolved yet. Cannot distribute winnings.")
           else if disputed marketInfo then
             ret (empty_result 0 (Some 0%nat)
                    "Market is disputed. Cannot distribute winnings.")
           else
             tradeEvents <- Rpc.request (GetLogsTradeExecuted marketIdNum)
                              (tradeExecutedLogs marketIdNum) ;;
             freeTokenEvents <- Rpc.request (GetLogsFreeTokensClaimed marketIdNum)
                                  (freeTokensClaimedLogs marketIdNum) ;;
             if (List.length tradeEvents =? 0)%nat
                && (List.length freeTokenEvents =? 0)%nat then
               ret (empty_result 0 (Some 0%nat)
                      "No trade or free token events found for this market. This could mean the market has no participants yet.")
             else
               let participants :=
                 collectParticipants tradeEvents freeTokenEvents in
               if (List.length participants =? 0)%nat then
                 ret (empty_result 0 None "No participants found for this market")
               else
                 result <- Rpc.request
                             (GetEligibleWinners marketIdNum participants)
                             (getEligibleWinners marketIdNum participants) ;;
                 let '(recipients, amounts) := result in
                 let formattedAmounts :=
                   map (Double.formatAmount shortest_digits) amounts in
                 ret {| status := 200;
                        body := Preview recipients formattedAmounts
                                  (List.length participants)
                                  (Some (List.length recipients)) None |}
       end)
    (fun error =>
       ret {| status := 500;
              body := ErrorBody ("Failed to auto-preview distribution: "
                                 ++ errorMessage error)%string |}).

End Route.


(** The addresses the events carry, in the order the route reads them. *)
Definition optional (a : option string) : list string :=
  match a with
  | Some addr => [addr]
  | None => []
  end.

Definition addressesOf (tradeEvents : list TradeExecuted)
  (freeTokenEvents : list FreeTokensClaimed) : list string :=
  flat_map (fun e => optional (buyer e) ++ optional (seller e)) tradeEvents
  ++ flat_map (fun e => optional (user e)) freeTokenEvents.

(** An address as the client decodes it: the text starts with 0x. *)
Definition decoded (addr : string) : Prop := prefix "0x" addr = true.

(** An address that counts as a participant. *)
Definition counted (addr : string) : Prop :=
  addr <> EmptyString /\ addr <> zeroAddress.

Fixpoint zeros (n : nat) : string :=
  match n with
  | O => EmptyString
  | S k => String "0" (zeros k)
  end.

(** The body of the request names market [n]. *)
Definition asksFor (parseInt : string -> option Z) (req : request) (n : Z)
  : Prop :=
  exists parsed marketId,
    json req = Ok parsed /\ prop parsed "marketId" = Ok marketId /\
    truthy marketId = true /\
    parseInt (toString marketId) = Some n /\ 0 <= n.

(** The answer of the [catch] block. *)
Definition failure (e : exn) : response :=
  {| status := 500;
     body := ErrorBody ("Failed to auto-preview distribution: "
                        ++ errorMessage e)%string |}.

End PreviewBatchDistribution.

(* ================================================================= *)
(** ** src/app/api/market/analytics/route.ts *)

(** Amounts, volumes and prices are Numbers.  This module computes with
    them as exact rationals: [Number(amount)] is the amount itself and
    the four operations are exact, so the rounding error of binary64
    arithmetic (relative error below 2^-52 per operation) is outside
    the model.  Timestamps and counts are integral Numbers.  It serves
    for the shape of the answers, for the fallback series and for the
    formulas of the changes; the price history of the events, where
    the rounding shows, is computed in binary64 in [Analytics64]. *)

Module Analytics.
Import JS Eff.
Local Open Scope eff_scope.
Local Open Scope Q_scope.

Inductive event_type : Type := SharesPurchased | MarketCreated | MarketResolved.

Record MarketEvent : Type := {
  blockNumber : Z;
  transactionHash : string;
  timestamp : Z;
  eventType : event_type;
  isOptionA : option bool;
  amount : option Q;
  buyer : option string
}.

Record PriceHistoryData : Type := {
  date : string;
  p_timestamp : Z;
  optionA : Q;
  optionB : Q;
  volume : Q;
  trades : Z
}.

Record VolumeHistoryData : Type := {
  v_date : string;
  v_timestamp : Z;
  v_volume : Q;
  v_trades : Z
}.

Record MarketAnalytics : Type := {
  priceHistory : list PriceHistoryData;
  volumeHistory : list VolumeHistoryData;
  totalVolume : Q;
  totalTrades : Z;
  priceChange24h : Q;
  volumeChange24h : Q;
  lastUpdated : string
}.

(** One day of [dailyData] (lines 92-101). *)
Record DayData : Type := {
  optionAVolume : Q;
  optionBVolume : Q;
  d_totalVolume : Q;
  d_trades : Z;
  d_timestamp : Z
}.

(** A [SharesPurchased] log as [getLogs] decodes it. *)
Record SharesPurchasedArgs : Type := {
  arg_buyer : string;
  arg_isOptionA : bool;
  arg_amount : N
}.

Record Log : Type := {
  log_blockNumber : Z;
  log_transactionHash : string;
  log_args : option SharesPurchasedArgs
}.

Record Block : Type := { block_timestamp : Z }.

(** [Math.round(x * 1000) / 1000]; [Math.round] takes ties upwards. *)
Definition Math_round (x : Q) : Z := Qfloor (x + (1 # 2)).
Definition round3 (x : Q) : Q := inject_Z (Math_round (x * 1000)) / 1000.

Definition Qlt_bool (a b : Q) : bool := negb (Qle_bool b a).

Definition Math_max (a b : Q) : Q := if Qle_bool a b then b else a.
Definition Math_min (a b : Q) : Q := if Qle_bool a b then a else b.

(** A [Map] with string keys, in insertion order. *)
Fixpoint map_get {V} (k : string) (m : list (string * V)) : option V :=
  match m with
  | [] => None
  | (k', v) :: m' => if String.eqb k k' then Some v else map_get k m'
  end.

Fixpoint map_set {V} (k : string) (v : V) (m : list (string * V))
  : list (string * V) :=
  match m with
  | [] => [(k, v)]
  | (k', v') :: m' =>
      if String.eqb k k' then (k, v) :: m' else (k', v') :: map_set k v m'
  end.

(** [xs.sort((a, b) => key(a) - key(b))]: ascending and stable. *)
Fixpoint insert_by {A} (key : A -> Z) (x : A) (l : list A) : list A :=
  match l with
  | [] => [x]
  | y :: l' => if (key x <=? key y)%Z then x :: l else y :: insert_by key x l'
  end.

Definition sort_by {A} (key : A -> Z) (l : list A) : list A :=
  fold_right (insert_by key) [] l.

(** [s.split("T")[0]]. *)
Fixpoint before_T (s : string) : string :=
  match s with
  | EmptyString => EmptyString
  | String c s' => if Ascii.eqb c "T" then EmptyString else String c (before_T s')
  end.

(** The largest magnitude of a time value, in ms. *)
Definition maxTime : Z := 8640000000000000.

Definition RangeError : exn := JsError "Invalid time value".

(** [calculatePriceChange], lines 184-191. *)
Definition calculatePriceChange (priceHistory : list PriceHistoryData) : Q :=
  match rev priceHistory with
  | latest :: previous :: _ => optionA latest - optionA previous
  | _ => 0
  end.

(** [calculateVolumeChange], lines 193-201. *)
Definition calculateVolumeChange (volumeHistory : list VolumeHistoryData) : Q :=
  match rev volumeHistory with
  | latest :: previous :: _ =>
      if Qeq_bool (v_volume previous) 0
      then (if Qlt_bool 0 (v_volume latest) then 1 else 0)
      else (v_volume latest - v_volume previous) / v_volume previous
  | _ => 0
  end.

(** Lines 137-155: the rows of the price history, the running volumes
    being carried from one day to the next. *)
Fixpoint priceRows (runningOptionAVolume runningOptionBVolume : Q)
  (days : list (string * DayData)) : list PriceHistoryData :=
  match days with
  | [] => []
  | (day, data) :: rest =>
      let runningOptionAVolume := runningOptionAVolume + optionAVolume data in
      let runningOptionBVolume := runningOptionBVolume + optionBVolume data in
      let totalVol := runningOptionAVolume + runningOptionBVolume in
      let a := if Qlt_bool 0 totalVol then runningOptionAVolume / totalVol
               else 1 # 2 in
      let b := if Qlt_bool 0 totalVol then runningOptionBVolume / totalVol
               else 1 # 2 in
      {| date := day;
         p_timestamp := d_timestamp data;
         optionA := round3 a;
         optionB := round3 b;
         volume := d_totalVolume data;
         trades := d_trades data |}
      :: priceRows runningOptionAVolume runningOptionBVolume rest
  end.

Definition volumeRow (entry : string * DayData) : VolumeHistoryData :=
  {| v_date := fst entry;
     v_timestamp := d_timestamp (snd entry);
     v_volume := d_totalVolume (snd entry);
     v_trades := d_trades (snd entry) |}.

(** [x || 0] on a Number. *)
Definition orZero (x : option Q) : Q :=
  match x with
  | Some a => a
  | None => 0
  end.

Definition isTrue (b : option bool) : bool :=
  match b with
  | Some true => true
  | _ => false
  end.

(** The state of the loop of lines 106-131. *)
Record Grouping : Type := {
  dailyData : list (string * DayData);
  g_totalVolume : Q;
  g_totalTrades : Z
}.

Section Route.

Variable StringToBigInt : string -> option Z.

(** The event log and the blocks of the chain that is read. *)
Variable getLogs : Z -> res (list Log).
Variable getBlock : Z -> res Block.

(** The clock and the random source: the value each consultation
    gives, numbered from the start of the process. *)
Variable Date_now : nat -> Z.
Variable Math_random : nat -> Q.

(** [new Date(t).toISOString()] for a time value in range, and the
    time value [d.setDate(d.getDate() - i)] leaves in [d]. *)
Variable toISOString : Z -> string.
Variable Date_daysAgo : Z -> Z -> Z.

(** The process: the module-level cache and how often the clock and
    the random source were consulted. *)
Record world : Type := {
  analyticsCache : list (string * (MarketAnalytics * Z));
  tick : nat
}.

Definition now : M world Z :=
  fun w => (Ok (Date_now (tick w)),
            {| analyticsCache := analyticsCache w; tick := S (tick w) |}).

Definition random : M world Q :=
  fun w => (Ok (Math_random (tick w)),
            {| analyticsCache := analyticsCache w; tick := S (tick w) |}).

Definition Date_toISOString (t : Z) : res string :=
  if (Z.abs t <=? maxTime)%Z then Ok (toISOString t) else Throw RangeError.

(** [new Date(t).toISOString().split("T")[0]]. *)
Definition Date_toISODate (t : Z) : res string :=
  match Date_toISOString t with
  | Ok s => Ok (before_T s)
  | Throw e => Throw e
  end.

(** Lines 54-73: the event made of one log. *)
Definition eventOfLog (log : Log) : M world (list MarketEvent) :=
  block <- lift (getBlock (log_blockNumber log)) ;;
  match log_args log with
  | Some args =>
      ret [ {| blockNumber := log_blockNumber log;
               transactionHash := log_transactionHash log;
               timestamp := (block_timestamp block * 1000)%Z;
               eventType := SharesPurchased;
               isOptionA := Some (arg_isOptionA args);
               amount := Some (inject_Z (Z.of_N (arg_amount args)));
               buyer := Some (arg_buyer args) |} ]
  | None => ret []
  end.

(** [getMarketEvents], lines 26-80. *)
Definition getMarketEvents (marketId : string) : M world (list MarketEvent) :=
  try_catch
    (id <- lift (parsed StringToBigInt marketId) ;;
     shareLogs <- lift (getLogs id) ;;
     events <- forEach shareLogs eventOfLog [] ;;
     ret (sort_by timestamp events))
    (fun _ => ret []).

(** Lines 106-131: one turn of [events.forEach]. *)
Definition addEvent (g : Grouping) (event : MarketEvent) : res Grouping :=
  match eventType event with
  | SharesPurchased =>
      match Date_toISODate (timestamp event) with
      | Throw e => Throw e
      | Ok day =>
          let existing :=
            match map_get day (dailyData g) with
            | Some d => d
            | None => {| optionAVolume := 0; optionBVolume := 0;
                         d_totalVolume := 0; d_trades := 0;
                         d_timestamp := timestamp event |}
            end in
          let amount := orZero (amount event) in
          let existing :=
            if isTrue (isOptionA event)
            then {| optionAVolume := optionAVolume existing + amount;
                    optionBVolume := optionBVolume existing;
                    d_totalVolume := d_totalVolume existing + amount;
                    d_trades := (d_trades existing + 1)%Z;
                    d_timestamp := d_timestamp existing |}
            else {| optionAVolume := optionAVolume existing;
                    optionBVolume := optionBVolume existing + amount;
                    d_totalVolume := d_totalVolume existing + amount;
                    d_trades := (d_trades existing + 1)%Z;
                    d_timestamp := d_timestamp existing |} in
          Ok {| dailyData := map_set day existing (dailyData g);
                g_totalVolume := g_totalVolume g + amount;
                g_totalTrades := (g_totalTrades g + 1)%Z |}
      end
  | _ => Ok g
  end.

Fixpoint groupByDay (events : list MarketEvent) (g : Grouping) : res Grouping :=
  match events with
  | [] => Ok g
  | event :: rest =>
      match addEvent g event with
      | Ok g' => groupByDay rest g'
      | Throw e => Throw e
      end
  end.

Definition emptyGrouping : Grouping :=
  {| dailyData := []; g_totalVolume := 0; g_totalTrades := 0 |}.

Definition sortedDays (g : Grouping) : list (string * DayData) :=
  sort_by (fun entry => d_timestamp (snd entry)) (dailyData g).

(** Lines 91-181: the analytics of a list of events that is not empty. *)
Definition aggregate (events : list MarketEvent) : M world MarketAnalytics :=
  g <- lift (groupByDay events emptyGrouping) ;;
  let priceHistory := priceRows 0 0 (sortedDays g) in
  let volumeHistory := map volumeRow (sortedDays g) in
  _ <- now ;;
  let priceChange24h := calculatePriceChange priceHistory in
  let volumeChange24h := calculateVolumeChange volumeHistory in
  t <- now ;;
  lastUpdated <- lift (Date_toISOString t) ;;
  ret {| priceHistory := priceHistory;
         volumeHistory := volumeHistory;
         totalVolume := g_totalVolume g;
         totalTrades := g_totalTrades g;
         priceChange24h := priceChange24h;
         volumeChange24h := volumeChange24h;
         lastUpdated := lastUpdated |}.

(** The values [i] takes in [for (let i = n; i >= 0; i--)]. *)
Fixpoint countdown (n : nat) : list Z :=
  match n with
  | O => [0%Z]
  | S k => Z.of_nat n :: countdown k
  end.

(** Lines 210-236: one turn of the loop of the fallback. *)
Definition fallbackDay (i : Z) (currentPriceA : Q)
  : M world (Q * PriceHistoryData * VolumeHistoryData) :=
  t <- now ;;
  let d := Date_daysAgo t i in
  r <- random ;;
  let volatility := (r - (1 # 2)) * (1 # 10) in
  let currentPriceA :=
    Math_max (1 # 20) (Math_min (19 # 20) (currentPriceA + volatility)) in
  r <- random ;;
  let volume := inject_Z (Qfloor (r * 1000)) + 100 in
  r <- random ;;
  let trades := (Qfloor (r * 50) + 10)%Z in
  day <- lift (Date_toISODate d) ;;
  ret (currentPriceA,
       {| date := day;
          p_timestamp := d;
          optionA := round3 currentPriceA;
          optionB := round3 (1 - currentPriceA);
          volume := volume;
          trades := trades |},
       {| v_date := day;
          v_timestamp := d;
          v_volume := volume;
          v_trades := trades |}).

Fixpoint fallbackLoop (indices : list Z) (currentPriceA : Q)
  (priceHistory : list PriceHistoryData)
  (volumeHistory : list VolumeHistoryData)
  : M world (list PriceHistoryData * list VolumeHistoryData) :=
  match indices with
  | [] => ret (priceHistory, volumeHistory)
  | i :: rest =>
      step <- fallbackDay i currentPriceA ;;
      let '(currentPriceA, p, v) := step in
      fallbackLoop rest currentPriceA (priceHistory ++ [p]) (volumeHistory ++ [v])
  end.

(** [generateFallbackAnalytics], lines 203-247. *)
Definition generateFallbackAnalytics : M world MarketAnalytics :=
  histories <- fallbackLoop (countdown 7) (1 # 2) [] [] ;;
  let '(priceHistory, volumeHistory) := histories in
  let totalVolume := fold_left (fun sum p => sum + volume p) priceHistory 0 in
  let totalTrades :=
    fold_left (fun sum p => (sum + trades p)%Z) priceHistory 0%Z in
  r <- random ;;
  let priceChange24h := (r - (1 # 2)) * (1 # 5) in
  r <- random ;;
  let volumeChange24h := (r - (1 # 2)) * 2 in
  t <- now ;;
  lastUpdated <- lift (Date_toISOString t) ;;
  ret {| priceHistory := priceHistory;
         volumeHistory := volumeHistory;
         totalVolume := totalVolume;
         totalTrades := totalTrades;
         priceChange24h := priceChange24h;
         volumeChange24h := volumeChange24h;
         lastUpdated := lastUpdated |}.

(** [calculateMarketAnalytics], lines 82-182. *)
Definition calculateMarketAnalytics (marketId : string)
  : M world MarketAnalytics :=
  events <- getMarketEvents marketId ;;
  if (List.length events =? 0)%nat then generateFallbackAnalytics
  else aggregate events.

Inductive payload : Type :=
| ErrorBody (error : string)
| AnalyticsBody (analytics : MarketAnalytics)
| CacheCleared (message : string).

Record response : Type := { status : Z; body : payload }.

(** The query string of a GET: [searchParams.get] of the two names. *)
Record query : Type := {
  q_marketId : option string;
  q_timeRange : option string
}.

Definition CACHE_DURATION : Z := 5 * 60 * 1000.

Definition nonEmpty (s : option string) : option string :=
  match s with
  | Some x => if String.eqb x EmptyString then None else Some x
  | None => None
  end.

Definition cache_get (k : string) : M world (option (MarketAnalytics * Z)) :=
  fun w => (Ok (map_get k (analyticsCache w)), w).

Definition cache_update
  (f : list (string * (MarketAnalytics * Z)) ->
       list (string * (MarketAnalytics * Z))) : M world unit :=
  fun w => (Ok tt, {| analyticsCache := f (analyticsCache w); tick := tick w |}).

Definition cutoffOf (timeRange : string) (now : Z) : Z :=
  if String.eqb timeRange "24h" then (now - 24 * 60 * 60 * 1000)%Z
  else if String.eqb timeRange "7d" then (now - 7 * 24 * 60 * 60 * 1000)%Z
  else if String.eqb timeRange "30d" then (now - 30 * 24 * 60 * 60 * 1000)%Z
  else 0%Z.

(** Lines 270-307: compute, filter by the time range, cache. *)
Definition fresh (marketId timeRange cacheKey : string) : M world response :=
  analytics <- calculateMarketAnalytics marketId ;;
  t <- now ;;
  let cutoffTime := cutoffOf timeRange t in
  let filteredAnalytics :=
    {| priceHistory :=
         filter (fun p => (cutoffTime <=? p_timestamp p)%Z) (priceHistory analytics);
       volumeHistory :=
         filter (fun v => (cutoffTime <=? v_timestamp v)%Z) (volumeHistory analytics);
       totalVolume := totalVolume analytics;
       totalTrades := totalTrades analytics;
       priceChange24h := priceChange24h analytics;
       volumeChange24h := volumeChange24h analytics;
       lastUpdated := lastUpdated analytics |} in
  t <- now ;;
  _ <- cache_update (map_set cacheKey (filteredAnalytics, t)) ;;
  ret {| status := 200; body := AnalyticsBody filteredAnalytics |}.

(** [GET], lines 249-315. *)
Definition GET (q : query) : M world response :=
  try_catch
    (match nonEmpty (q_marketId q) with
     | None => ret {| status := 400; body := ErrorBody "Market ID is required" |}
     | Some marketId =>
         let timeRange :=
           match nonEmpty (q_timeRange q) with
           | Some r => r
           | None => "7d"%string
           end in
         let cacheKey := (marketId ++ "-" ++ timeRange)%string in
         cached <- cache_get cacheKey ;;
         match cached with
         | Some (data, cachedAt) =>
             t <- now ;;
             if (t - cachedAt <? CACHE_DURATION)%Z
             then ret {| status := 200; body := AnalyticsBody data |}
             else fresh marketId timeRange cacheKey
         | None => fresh marketId timeRange cacheKey
         end
     end)
    (fun _ =>
       fallbackAnalytics <- generateFallbackAnalytics ;;
       ret {| status := 200; body := AnalyticsBody fallbackAnalytics |}).

(** [POST], lines 317-342: every cache key that starts with the
    market id is deleted. *)
Definition POST (json : res jsval) : M world response :=
  try_catch
    (parsedBody <- lift json ;;
     marketId <- lift (prop parsedBody "marketId") ;;
     if negb (truthy marketId) then
       ret {| status := 400; body := ErrorBody "Market ID is required" |}
     else
       _ <- cache_update
              (filter (fun kv => negb (prefix (toString marketId) (fst kv)))) ;;
       ret {| status := 200; body := CacheCleared "Cache cleared" |})
    (fun _ =>
       ret {| status := 500; body := ErrorBody "Internal server error" |}).

End Route.


(** The prices of a bucket are prices and add up to 1 within 0.001. *)
Definition goodPrices (row : PriceHistoryData) : Prop :=
  0 <= optionA row <= 1 /\ 0 <= optionB row <= 1 /\
  Qabs (optionA row + optionB row - 1) <= 1 # 1000.

(** A time value a [Date] can hold. *)
Definition representable (t : Z) : Prop := (Z.abs t <= maxTime)%Z.

(** Each bucket of the volume history mirrors one of the price history. *)
Definition mirror (p : PriceHistoryData) : VolumeHistoryData :=
  {| v_date := date p; v_timestamp := p_timestamp p;
     v_volume := volume p; v_trades := trades p |}.

Definition fallbackStep (step : Q * PriceHistoryData * VolumeHistoryData)
  : Prop :=
  let '(p, row, bucket) := step in
  (1 # 20) <= p <= 19 # 20 /\ goodPrices row /\ bucket = mirror row.

Section Reading.

Variable getBlock : Z -> res Block.
Variable Date_now : nat -> Z.
Variable Date_daysAgo : Z -> Z -> Z.

(** The clock and the blocks show times a [Date] can hold. *)
Definition clockRepresentable : Prop :=
  forall k, representable (Date_now k).

Definition blocksRepresentable : Prop :=
  forall b block, getBlock b = Ok block ->
                  representable (block_timestamp block * 1000).

Definition recentDaysRepresentable : Prop :=
  forall k i, (0 <= i <= 7)%Z -> representable (Date_daysAgo (Date_now k) i).

End Reading.

End Analytics.

(* ================================================================= *)
(** ** Numbers in binary64 *)

(** The arithmetic of the language on Numbers, as the two price routes
    use it: the four operations and the comparisons are those of
    binary64, [Number(bigint)] rounds to the nearest value. *)

Module Binary64.
Import JS.
Local Open Scope float_scope.

(** The integer part, towards minus infinity, of the finite Number
    [m * 2^e] with [e < 0] and the given sign. *)
Definition floor_of (sign : bool) (m : positive) (e : Z) : Z :=
  ((if sign then Z.neg m else Z.pos m) / 2 ^ (- e))%Z.

(** [Math.floor]: a Number of exponent 0 or more is an integer. *)
Definition Math_floor (x : float) : float :=
  match Prim2SF x with
  | S754_finite sign m e =>
      if (0 <=? e)%Z then x else Double.Number_of_bigint (floor_of sign m e)
  | _ => x
  end.

(** The integer nearest to [m * 2^e] with [e < 0], a tie going up:
    the integer part of [m * 2^e + 1/2]. *)
Definition nearest_of (sign : bool) (m : positive) (e : Z) : Z :=
  ((2 * (if sign then Z.neg m else Z.pos m) + 2 ^ (- e)) / 2 ^ (1 - e))%Z.

(** [Math.round]; a negative Number that rounds to zero gives [-0]. *)
Definition Math_round (x : float) : float :=
  match Prim2SF x with
  | S754_finite sign m e =>
      if (0 <=? e)%Z then x
      else
        let z := nearest_of sign m e in
        if (z =? 0)%Z && sign then neg_zero else Double.Number_of_bigint z
  | _ => x
  end.

(** [Math.round(x * 1000) / 1000]. *)
Definition round3 (x : float) : float := Math_round (x * 1000) / 1000.

(** [x || 0] on a Number that may be missing: [0], [-0] and [NaN] are
    falsy. *)
Definition orZero (x : option float) : float :=
  match x with
  | Some a => if (a =? 0) || is_nan a then 0 else a
  | None => 0
  end.

(** The rational a finite Number is. *)
Definition exact (x : float) : Q :=
  match Prim2SF x with
  | S754_finite sign m e =>
      let v := if sign then Z.neg m else Z.pos m in
      if (0 <=? e)%Z then inject_Z (v * 2 ^ e)
      else Qmake v (Z.to_pos (2 ^ (- e)))
  | _ => 0%Q
  end.

Section Coercion.

(** [StringToNumber] of the language. *)
Variable StringToNumber : string -> float.

(** [Number(v)]. *)
Definition Number (v : jsval) : float :=
  match v with
  | JUndefined => nan
  | JNull => 0
  | JBool b => if b then 1 else 0
  | JBigInt z => Double.Number_of_bigint z
  | JNumber n => Double.Number_of_bigint n
  | JString s => StringToNumber s
  | JTuple _ | JObject _ => StringToNumber (toString v)
  end.

End Coercion.

End Binary64.

(* ================================================================= *)
(** ** src/app/api/market/analytics/route.ts, prices in binary64 *)

(** The computation of the price history from the events (lines 26-80
    and 91-181) with amounts, volumes and prices as the binary64
    Numbers they are: sums, quotients and [Math.round] round as the
    language does.  Time values are integers: [Number(t) * 1000] is
    exact for every time a [Date] can hold.  Counts stay below 2^53. *)

Module Analytics64.
Import JS Eff Binary64.
Local Open Scope eff_scope.
Local Open Scope float_scope.

Record MarketEvent : Type := {
  blockNumber : Z;
  transactionHash : string;
  timestamp : Z;
  eventType : Analytics.event_type;
  isOptionA : option bool;
  amount : option float;
  buyer : option string
}.

Record PriceHistoryData : Type := {
  date : string;
  p_timestamp : Z;
  optionA : float;
  optionB : float;
  volume : float;
  trades : Z
}.

Record VolumeHistoryData : Type := {
  v_date : string;
  v_timestamp : Z;
  v_volume : float;
  v_trades : Z
}.

Record MarketAnalytics : Type := {
  priceHistory : list PriceHistoryData;
  volumeHistory : list VolumeHistoryData;
  totalVolume : float;
  totalTrades : Z;
  priceChange24h : float;
  volumeChange24h : float;
  lastUpdated : string
}.

(** One day of [dailyData] (lines 92-101). *)
Record DayData : Type := {
  optionAVolume : float;
  optionBVolume : float;
  d_totalVolume : float;
  d_trades : Z;
  d_timestamp : Z
}.

(** The state of the loop of lines 106-131. *)
Record Grouping : Type := {
  dailyData : list (string * DayData);
  g_totalVolume : float;
  g_totalTrades : Z
}.

(** [calculatePriceChange], lines 184-191. *)
Definition calculatePriceChange (priceHistory : list PriceHistoryData) : float :=
  match rev priceHistory with
  | latest :: previous :: _ => optionA latest - optionA previous
  | _ => 0
  end.

(** [calculateVolumeChange], lines 193-201. *)
Definition calculateVolumeChange (volumeHistory : list VolumeHistoryData)
  : float :=
  match rev volumeHistory with
  | latest :: previous :: _ =>
      if v_volume previous =? 0
      then (if 0 <? v_volume latest then 1 else 0)
      else (v_volume latest - v_volume previous) / v_volume previous
  | _ => 0
  end.

(** [totalVol > 0 ? running / totalVol : 0.5]. *)
Definition share (running totalVol : float) : float :=
  if 0 <? totalVol then running / totalVol else 0.5.

(** Lines 137-155: the rows of the price history, the running volumes
    being carried from one day to the next. *)
Fixpoint priceRows (runningOptionAVolume runningOptionBVolume : float)
  (days : list (string * DayData)) : list PriceHistoryData :=
  match days with
  | [] => []
  | (day, data) :: rest =>
      let runningOptionAVolume := runningOptionAVolume + optionAVolume data in
      let runningOptionBVolume := runningOptionBVolume + optionBVolume data in
      let totalVol := runningOptionAVolume + runningOptionBVolume in
      let a := share runningOptionAVolume totalVol in
      let b := share runningOptionBVolume totalVol in
      {| date := day;
         p_timestamp := d_timestamp data;
         optionA := round3 a;
         optionB := round3 b;
         volume := d_totalVolume data;
         trades := d_trades data |}
      :: priceRows runningOptionAVolume runningOptionBVolume rest
  end.

Definition volumeRow (entry : string * DayData) : VolumeHistoryData :=
  {| v_date := fst entry;
     v_timestamp := d_timestamp (snd entry);
     v_volume := d_totalVolume (snd entry);
     v_trades := d_trades (snd entry) |}.

Definition emptyGrouping : Grouping :=
  {| dailyData := []; g_totalVolume := 0; g_totalTrades := 0 |}.

Definition sortedDays (g : Grouping) : list (string * DayData) :=
  Analytics.sort_by (fun entry => d_timestamp (snd entry)) (dailyData g).

Section Route.

Variable StringToBigInt : string -> option Z.

(** The event log and the blocks of the chain that is read. *)
Variable getLogs : Z -> res (list Analytics.Log).
Variable getBlock : Z -> res Analytics.Block.

Variable Date_now : nat -> Z.
Variable toISOString : Z -> string.

(** Lines 54-73: the event made of one log. *)
Definition eventOfLog (log : Analytics.Log)
  : M Analytics.world (list MarketEvent) :=
  block <- lift (getBlock (Analytics.log_blockNumber log)) ;;
  match Analytics.log_args log with
  | Some args =>
      ret [ {| blockNumber := Analytics.log_blockNumber log;
               transactionHash := Analytics.log_transactionHash log;
               timestamp := (Analytics.block_timestamp block * 1000)%Z;
               eventType := Analytics.SharesPurchased;
               isOptionA := Some (Analytics.arg_isOptionA args);
               amount :=
                 Some (Double.Number_of_bigint
                         (Z.of_N (Analytics.arg_amount args)));
               buyer := Some (Analytics.arg_buyer args) |} ]
  | None => ret []
  end.

(** [getMarketEvents], lines 26-80. *)
Definition getMarketEvents (marketId : string)
  : M Analytics.world (list MarketEvent) :=
  try_catch
    (id <- lift (parsed StringToBigInt marketId) ;;
     shareLogs <- lift (getLogs id) ;;
     events <- forEach shareLogs eventOfLog [] ;;
     ret (Analytics.sort_by timestamp events))
    (fun _ => ret []).

(** Lines 106-131: one turn of [events.forEach]. *)
Definition addEvent (g : Grouping) (event : MarketEvent) : res Grouping :=
  match eventType event with
  | Analytics.SharesPurchased =>
      match Analytics.Date_toISODate toISOString (timestamp event) with
      | Throw e => Throw e
      | Ok day =>
          let existing :=
            match Analytics.map_get day (dailyData g) with
            | Some d => d
            | None => {| optionAVolume := 0; optionBVolume := 0;
                         d_totalVolume := 0; d_trades := 0;
                         d_timestamp := timestamp event |}
            end in
          let amount := orZero (amount event) in
          let existing :=
            if Analytics.isTrue (isOptionA event)
            then {| optionAVolume := optionAVolume existing + amount;
                    optionBVolume := optionBVolume existing;
                    d_totalVolume := d_totalVolume existing + amount;
                    d_trades := (d_trades existing + 1)%Z;
                    d_timestamp := d_timestamp existing |}
            else {| optionAVolume := optionAVolume existing;
                    optionBVolume := optionBVolume existing + amount;
                    d_totalVolume := d_totalVolume existing + amount;
                    d_trades := (d_trades existing + 1)%Z;
                    d_timestamp := d_timestamp existing |} in
          Ok {| dailyData := Analytics.map_set day existing (dailyData g);
                g_totalVolume := g_totalVolume g + amount;
                g_totalTrades := (g_totalTrades g + 1)%Z |}
      end
  | _ => Ok g
  end.

Fixpoint groupByDay (events : list MarketEvent) (g : Grouping) : res Grouping :=
  match events with
  | [] => Ok g
  | event :: rest =>
      match addEvent g event with
      | Ok g' => groupByDay rest g'
      | Throw e => Throw e
      end
  end.

(** Lines 91-181: the analytics of a list of events that is not empty. *)
Definition aggregate (events : list MarketEvent)
  : M Analytics.world MarketAnalytics :=
  g <- lift (groupByDay events emptyGrouping) ;;
  let priceHistory := priceRows 0 0 (sortedDays g) in
  let volumeHistory := map volumeRow (sortedDays g) in
  _ <- Analytics.now Date_now ;;
  let priceChange24h := calculatePriceChange priceHistory in
  let volumeChange24h := calculateVolumeChange volumeHistory in
  t <- Analytics.now Date_now ;;
  lastUpdated <- lift (Analytics.Date_toISOString toISOString t) ;;
  ret {| priceHistory := priceHistory;
         volumeHistory := volumeHistory;
         totalVolume := g_totalVolume g;
         totalTrades := g_totalTrades g;
         priceChange24h := priceChange24h;
         volumeChange24h := volumeChange24h;
         lastUpdated := lastUpdated |}.

End Route.

(** *** Reading the price history *)

Section Reading.

Variable toISOString : Z -> string.






End Reading.





End Analytics64.

(* ================================================================= *)
(** ** The current-price route *)

(** The route that follows the analytics route in
    src/app/api/market/analytics/route.ts (lines 343-488). *)

Module CurrentPrice.
Import JS Eff Binary64.
Local Open Scope eff_scope.
Local Open Scope float_scope.
#[local] Set Warnings "-inexact-float".

Inductive side : Type := A | B.

Record LastTrade : Type := {
  lt_timestamp : float;
  lt_option : side;
  lt_amount : float;
  lt_price : float
}.

Record PriceData : Type := {
  currentPriceA : float;
  currentPriceB : float;
  totalShares : float;
  lastTrade : option LastTrade;
  timestamp : Z
}.

Inductive payload : Type :=
| ErrorBody (error : string)
| PriceBody (data : PriceData).

Record response : Type := { status : Z; body : payload }.

(** The process: the module-level cache and how often the clock and
    the random source were consulted. *)
Record world : Type := {
  priceCache : list (string * (PriceData * Z));
  tick : nat
}.

Definition CACHE_DURATION : Z := 30 * 1000.

(** [const [a, b] = v]: the first two items of an array or of a
    string; a [TypeError] on a value that cannot be iterated. *)
Definition destructure2 (v : jsval) : res (jsval * jsval) :=
  match v with
  | JTuple _ | JString _ => Ok (index v 0, index v 1)
  | _ => Throw TypeError
  end.

Section Route.

Variable StringToBigInt : string -> option Z.
Variable StringToNumber : string -> float.

(** The contract, the logs of the latest block and the blocks. *)
Variable getMarketInfo : Z -> res jsval.
Variable latestLogs : Z -> res (list Analytics.Log).
Variable getBlock : Z -> res Analytics.Block.

(** The clock and the random source: the value each consultation
    gives, numbered from the start of the process. *)
Variable Date_now : nat -> Z.
Variable Math_random : nat -> float.

Let Number := Binary64.Number StringToNumber.

Definition now : M world Z :=
  fun w => (Ok (Date_now (tick w)),
            {| priceCache := priceCache w; tick := S (tick w) |}).

Definition random : M world float :=
  fun w => (Ok (Math_random (tick w)),
            {| priceCache := priceCache w; tick := S (tick w) |}).

(** Lines 407-422: the last trade, of the last log of the latest
    block. *)
Definition lastTradeOf (recentLogs : list Analytics.Log)
  (currentPriceA currentPriceB : float) : M world (option LastTrade) :=
  match rev recentLogs with
  | latestLog :: _ =>
      match Analytics.log_args latestLog with
      | Some args =>
          block <- lift (getBlock (Analytics.log_blockNumber latestLog)) ;;
          ret (Some
                 {| lt_timestamp :=
                      Double.Number_of_bigint (Analytics.block_timestamp block)
                      * 1000;
                    lt_option := if Analytics.arg_isOptionA args then A else B;
                    lt_amount :=
                      Double.Number_of_bigint
                        (Z.of_N (Analytics.arg_amount args));
                    lt_price :=
                      if Analytics.arg_isOptionA args then currentPriceA
                      else currentPriceB |})
      | None => ret None
      end
  | [] => ret None
  end.

(** Lines 431-448: the mock data of the [catch] block. *)
Definition mockData : M world PriceData :=
  r <- random ;;
  let priceA := 0.5 + (r - 0.5) * 0.4 in
  let priceB := 1 - priceA in
  r <- random ;;
  let totalShares := Math_floor (r * 10000) + 1000 in
  t <- now ;;
  r <- random ;;
  let lt_timestamp := Double.Number_of_bigint t - r * 60000 in
  r <- random ;;
  let lt_option := if 0.5 <? r then A else B in
  r <- random ;;
  let lt_amount := Math_floor (r * 1000) + 100 in
  r <- random ;;
  let lt_price := if 0.5 <? r then priceA else priceB in
  t <- now ;;
  ret {| currentPriceA := round3 priceA;
         currentPriceB := round3 priceB;
         totalShares := totalShares;
         lastTrade := Some {| lt_timestamp := lt_timestamp;
                              lt_option := lt_option;
                              lt_amount := lt_amount;
                              lt_price := lt_price |};
         timestamp := t |}.

(** [getCurrentMarketPrice], lines 360-451. *)
Definition getCurrentMarketPrice (marketId : string) : M world PriceData :=
  try_catch
    (id <- lift (parsed StringToBigInt marketId) ;;
     marketData <- lift (getMarketInfo id) ;;
     shares <- lift (destructure2 marketData) ;;
     let '(totalOptionAShares, totalOptionBShares) := shares in
     let totalShares := Number totalOptionAShares + Number totalOptionBShares in
     let currentPriceA :=
       if 0 <? totalShares then Number totalOptionAShares / totalShares
       else 0.5 in
     let currentPriceB :=
       if 0 <? totalShares then Number totalOptionBShares / totalShares
       else 0.5 in
     id <- lift (parsed StringToBigInt marketId) ;;
     recentLogs <- lift (latestLogs id) ;;
     lastTrade <- lastTradeOf recentLogs currentPriceA currentPriceB ;;
     t <- now ;;
     ret {| currentPriceA := round3 currentPriceA;
            currentPriceB := round3 currentPriceB;
            totalShares := totalShares;
            lastTrade := lastTrade;
            timestamp := t |})
    (fun _ => mockData).

Definition cache_get (k : string) : M world (option (PriceData * Z)) :=
  fun w => (Ok (Analytics.map_get k (priceCache w)), w).

Definition cache_set (k : string) (v : PriceData * Z) : M world unit :=
  fun w => (Ok tt, {| priceCache := Analytics.map_set k v (priceCache w);
                      tick := tick w |}).

(** Lines 471-480: fetch, cache, answer. *)
Definition fresh (marketId : string) : M world response :=
  priceData <- getCurrentMarketPrice marketId ;;
  t <- now ;;
  _ <- cache_set marketId (priceData, t) ;;
  ret {| status := 200; body := PriceBody priceData |}.

(** [GET], lines 453-488; [marketId] is [searchParams.get("marketId")]. *)
Definition GET (marketId : option string) : M world response :=
  try_catch
    (match Analytics.nonEmpty marketId with
     | None => ret {| status := 400; body := ErrorBody "Market ID is required" |}
     | Some marketId =>
         cached <- cache_get marketId ;;
         match cached with
         | Some (data, lastUpdated) =>
             t <- now ;;
             if (t - lastUpdated <? CACHE_DURATION)%Z
             then ret {| status := 200; body := PriceBody data |}
             else fresh marketId
         | None => fresh marketId
         end
     end)
    (fun _ =>
       ret {| status := 500; body := ErrorBody "Internal server error" |}).

End Route.

End CurrentPrice.

(* ================================================================= *)
(** ** policast/src/policast-market-v-3.ts *)

(** The mappings run against the graph-ts runtime, which provides
    [Bytes], [BigInt], the decoded event and the entity store. *)

Module Mapper.

Definition Bytes : Type := list Byte.byte.

Definition byte_of (z : Z) : Byte.byte :=
  match Byte.of_N (Z.to_N (Z.land z 255)) with
  | Some b => b
  | None => Byte.x00
  end.

(** [ByteArray.fromI32]: the four bytes of an [i32], lowest first. *)
Definition fromI32 (x : Z) : Bytes :=
  [byte_of x; byte_of (Z.shiftr x 8); byte_of (Z.shiftr x 16);
   byte_of (Z.shiftr x 24)].

(** [Bytes.concatI32]. *)
Definition concatI32 (b : Bytes) (x : Z) : Bytes := b ++ fromI32 x.

(** [BigInt.toI32]: the runtime aborts on a value that does not fit. *)
Definition toI32 (z : Z) : option Z :=
  if (- 2 ^ 31 <=? z) && (z <? 2 ^ 31) then Some z else None.

Unset Elimination Schemes.
Inductive Value : Type :=
| BigIntValue (z : Z)
| I32Value (z : Z)
| BytesValue (b : Bytes)
| BoolValue (b : bool)
| StringValue (s : string)
| ArrayValue (items : list Value).
Set Elimination Schemes.

(** Modelled from the spec: the event classes of
    [../generated/PolicastMarketV3/PolicastMarketV3] are not among the
    sources.  An event is the envelope (log index, block, transaction)
    and its decoded parameters; a getter of [event.params] reads the
    parameter of its name. *)
Record Event : Type := {
  logIndex : Z;
  block_number : Z;
  block_timestamp : Z;
  transaction_hash : Bytes;
  parameters : list (string * Value)
}.

(** Modelled from the spec: the entity classes of
    [../generated/schema] are not among the sources.  An entity is a
    row: its identifier, the fields the handler sets from the
    parameters, and the three fields it stamps from the envelope. *)
Record Entity : Type := {
  id : Bytes;
  data : list (string * Value);
  blockNumber : Z;
  blockTimestamp : Z;
  transactionHash : Bytes
}.

Inductive kind : Type :=
| AdminLiquidityWithdrawn
| BComputed
| BatchWinningsDistributed
| BettingTokenUpdated
| Claimed
| FeeAccrued
| FeeCollected
| FeeCollectorUpdated
| FeesUnlocked
| FreeMarketConfigSet
| FreeTokensClaimed
| LiquidityAdded
| MarketCreated
| MarketDisputed
| MarketInvalidated
| MarketPaused
| MarketResolved
| MarketValidated
| OwnershipTransferred
| Paused
| PlatformFeesWithdrawn
| PricesUpdated
| RoleAdminChanged
| RoleGranted
| RoleRevoked
| SharesSold
| SlippageProtect
| TradeExecuted
| Unpaused
| UserPortfolioUpdated
| WinningsDistributedToUser.

Definition entityName (k : kind) : string :=
  match k with
  | AdminLiquidityWithdrawn => "AdminLiquidityWithdrawn"
  | BComputed => "BComputed"
  | BatchWinningsDistributed => "BatchWinningsDistributed"
  | BettingTokenUpdated => "BettingTokenUpdated"
  | Claimed => "Claimed"
  | FeeAccrued => "FeeAccrued"
  | FeeCollected => "FeeCollected"
  | FeeCollectorUpdated => "FeeCollectorUpdated"
  | FeesUnlocked => "FeesUnlocked"
  | FreeMarketConfigSet => "FreeMarketConfigSet"
  | FreeTokensClaimed => "FreeTokensClaimed"
  | LiquidityAdded => "LiquidityAdded"
  | MarketCreated => "MarketCreated"
  | MarketDisputed => "MarketDisputed"
  | MarketInvalidated => "MarketInvalidated"
  | MarketPaused => "MarketPaused"
  | MarketResolved => "MarketResolved"
  | MarketValidated => "MarketValidated"
  | OwnershipTransferred => "OwnershipTransferred"
  | Paused => "Paused"
  | PlatformFeesWithdrawn => "PlatformFeesWithdrawn"
  | PricesUpdated => "PricesUpdated"
  | RoleAdminChanged => "RoleAdminChanged"
  | RoleGranted => "RoleGranted"
  | RoleRevoked => "RoleRevoked"
  | SharesSold => "SharesSold"
  | SlippageProtect => "SlippageProtect"
  | TradeExecuted => "TradeExecuted"
  | Unpaused => "Unpaused"
  | UserPortfolioUpdated => "UserPortfolioUpdated"
  | WinningsDistributedToUser => "WinningsDistributedToUser"
  end.

(** The parameters each handler copies, in the order of its assignments. *)
Definition declared (k : kind) : list string :=
  match k with
  | AdminLiquidityWithdrawn => ["marketId"; "creator"; "amount"]
  | BComputed => ["marketId"; "bValue"; "coverageRatioNum"; "coverageRatioDen"]
  | BatchWinningsDistributed =>
      ["marketId"; "totalDistributed"; "recipientCount"]
  | BettingTokenUpdated => ["oldToken"; "newToken"; "timestamp"]
  | Claimed => ["marketId"; "user"; "amount"]
  | FeeAccrued => ["marketId"; "optionId"; "isBuy"; "rawAmount"; "fee"]
  | FeeCollected => ["marketId"; "amount"]
  | FeeCollectorUpdated => ["oldCollector"; "newCollector"]
  | FeesUnlocked => ["marketId"; "amount"]
  | FreeMarketConfigSet =>
      ["marketId"; "maxFreeParticipants"; "tokensPerParticipant";
       "totalPrizePool"]
  | FreeTokensClaimed => ["marketId"; "user"; "tokens"]
  | LiquidityAdded => ["marketId"; "provider"; "amount"]
  | MarketCreated =>
      ["marketId"; "question"; "options"; "endTime"; "category"; "marketType";
       "creator"]
  | MarketDisputed => ["marketId"; "disputer"; "reason"]
  | MarketInvalidated => ["marketId"; "validator"; "refundedAmount"]
  | MarketPaused => ["marketId"]
  | MarketResolved => ["marketId"; "winningOptionId"; "resolver"]
  | MarketValidated => ["marketId"; "validator"]
  | OwnershipTransferred => ["previousOwner"; "newOwner"]
  | Paused => ["account"]
  | PlatformFeesWithdrawn => ["collector"; "amount"]
  | PricesUpdated => ["marketId"; "prices"]
  | RoleAdminChanged => ["role"; "previousAdminRole"; "newAdminRole"]
  | RoleGranted => ["role"; "account"; "sender"]
  | RoleRevoked => ["role"; "account"; "sender"]
  | SharesSold => ["marketId"; "optionId"; "seller"; "quantity"; "price"]
  | SlippageProtect =>
      ["marketId"; "optionId"; "isBuy"; "quantity"; "bound"; "actualTotal"]
  | TradeExecuted =>
      ["marketId"; "optionId"; "buyer"; "seller"; "price"; "quantity";
       "tradeId"]
  | Unpaused => ["account"]
  | UserPortfolioUpdated =>
      ["user"; "totalInvested"; "totalWinnings"; "unrealizedPnL";
       "realizedPnL"; "tradeCount"]
  | WinningsDistributedToUser => ["marketId"; "user"; "amount"]
  end.

Definition kind_eqb (a b : kind) : bool :=
  String.eqb (entityName a) (entityName b).

Definition bytes_eqb (a b : Bytes) : bool :=
  if list_eq_dec Byte.byte_eq_dec a b then true else false.

(** The store: the rows of every entity type, one per identifier. *)
Definition Store : Type := list (kind * Entity).

Definition same_row (k : kind) (i : Bytes) (row : kind * Entity) : bool :=
  kind_eqb k (fst row) && bytes_eqb i (id (snd row)).

(** [entity.save()]: the row with this type and identifier is replaced,
    or the entity is added. *)
Fixpoint store_set (k : kind) (e : Entity) (s : Store) : Store :=
  match s with
  | [] => [(k, e)]
  | row :: s' =>
      if same_row k (id e) row then (k, e) :: s' else row :: store_set k e s'
  end.

Fixpoint store_get (k : kind) (i : Bytes) (s : Store) : option Entity :=
  match s with
  | [] => None
  | row :: s' => if same_row k i row then Some (snd row) else store_get k i s'
  end.

Fixpoint param (name : string) (ps : list (string * Value)) : option Value :=
  match ps with
  | [] => None
  | (n, v) :: ps' => if String.eqb name n then Some v else param name ps'
  end.

(** [entity.f = event.params.f] for each declared [f]; a parameter the
    event does not carry aborts the handler. *)
Fixpoint copyParams (names : list string) (ps : list (string * Value))
  : option (list (string * Value)) :=
  match names with
  | [] => Some []
  | n :: names' =>
      match param n ps, copyParams names' ps with
      | Some v, Some rest => Some ((n, v) :: rest)
      | _, _ => None
      end
  end.

(** The body every handler has: [None] is an abort of the runtime. *)
Definition handle (k : kind) (event : Event) (store : Store) : option Store :=
  match toI32 (logIndex event) with
  | None => None
  | Some i =>
      match copyParams (declared k) (parameters event) with
      | None => None
      | Some copied =>
          let entity :=
            {| id := concatI32 (transaction_hash event) i;
               data := copied;
               blockNumber := block_number event;
               blockTimestamp := block_timestamp event;
               transactionHash := transaction_hash event |} in
          Some (store_set k entity store)
      end
  end.

Definition handleAdminLiquidityWithdrawn : Event -> Store -> option Store :=
  handle AdminLiquidityWithdrawn.
Definition handleBComputed : Event -> Store -> option Store :=
  handle BComputed.
Definition handleBatchWinningsDistributed : Event -> Store -> option Store :=
  handle BatchWinningsDistributed.
Definition handleBettingTokenUpdated : Event -> Store -> option Store :=
  handle BettingTokenUpdated.
Definition handleClaimed : Event -> Store -> option Store :=
  handle Claimed.
Definition handleFeeAccrued : Event -> Store -> option Store :=
  handle FeeAccrued.
Definition handleFeeCollected : Event -> Store -> option Store :=
  handle FeeCollected.
Definition handleFeeCollectorUpdated : Event -> Store -> option Store :=
  handle FeeCollectorUpdated.
Definition handleFeesUnlocked : Event -> Store -> option Store :=
  handle FeesUnlocked.
Definition handleFreeMarketConfigSet : Event -> Store -> option Store :=
  handle FreeMarketConfigSet.
Definition handleFreeTokensClaimed : Event -> Store -> option Store :=
  handle FreeTokensClaimed.
Definition handleLiquidityAdded : Event -> Store -> option Store :=
  handle LiquidityAdded.
Definition handleMarketCreated : Event -> Store -> option Store :=
  handle MarketCreated.
Definition handleMarketDisputed : Event -> Store -> option Store :=
  handle MarketDisputed.
Definition handleMarketInvalidated : Event -> Store -> option Store :=
  handle MarketInvalidated.
Definition handleMarketPaused : Event -> Store -> option Store :=
  handle MarketPaused.
Definition handleMarketResolved : Event -> Store -> option Store :=
  handle MarketResolved.
Definition handleMarketValidated : Event -> Store -> option Store :=
  handle MarketValidated.
Definition handleOwnershipTransferred : Event -> Store -> option Store :=
  handle OwnershipTransferred.
Definition handlePaused : Event -> Store -> option Store :=
  handle Paused.
Definition handlePlatformFeesWithdrawn : Event -> Store -> option Store :=
  handle PlatformFeesWithdrawn.
Definition handlePricesUpdated : Event -> Store -> option Store :=
  handle PricesUpdated.
Definition handleRoleAdminChanged : Event -> Store -> option Store :=
  handle RoleAdminChanged.
Definition handleRoleGranted : Event -> Store -> option Store :=
  handle RoleGranted.
Definition handleRoleRevoked : Event -> Store -> option Store :=
  handle RoleRevoked.
Definition handleSharesSold : Event -> Store -> option Store :=
  handle SharesSold.
Definition handleSlippageProtect : Event -> Store -> option Store :=
  handle SlippageProtect.
Definition handleTradeExecuted : Event -> Store -> option Store :=
  handle TradeExecuted.
Definition handleUnpaused : Event -> Store -> option Store :=
  handle Unpaused.
Definition handleUserPortfolioUpdated : Event -> Store -> option Store :=
  handle UserPortfolioUpdated.
Definition handleWinningsDistributedToUser : Event -> Store -> option Store :=
  handle WinningsDistributedToUser.

End Mapper.

(* ================================================================= *)
(** ** Sample data *)

Module Samples.
Import JS Rpc.

Definition noStringToBigInt (s : string) : option Z := None.

(** A free market of 100 places of 5 tokens, 40 of them taken, created
    by the caller and resolved. *)
Definition sampleContract (c : call) : res jsval :=
  match c with
  | GetMarketInfo 0 =>
      Ok (JTuple [JString "Will it rain tomorrow?"; JString "Weather";
                  JBigInt 1767225600; JNumber 0; JBigInt 2; JBool true;
                  JBool false; JNumber 1; JBool false; JBigInt 0;
                  JString "0xAbCd000000000000000000000000000000000001"])
  | GetFreeMarketInfo 0 =>
      Ok (JTuple [JBigInt 100; JBigInt 5; JBigInt 40; JBigInt 500; JBool false])
  | _ => Throw (JsError "InvalidMarket")
  end.

(** More places taken than there are: 2 of 1. *)
Definition oversubscribed (c : call) : res jsval :=
  match c with
  | GetFreeMarketInfo 0 =>
      Ok (JTuple [JBigInt 1; JBigInt 5; JBigInt 2; JBigInt 5; JBool false])
  | _ => Throw (JsError "InvalidMarket")
  end.

(** The endpoint does not answer. *)
Definition unavailable : exn := JsError "HTTP request failed.".

Definition creatorAddress : string :=
  "0xabcd000000000000000000000000000000000001".

Definition adminRequest : AdminAutoDiscover.request :=
  {| AdminAutoDiscover.json :=
       Ok (JObject [("userAddress", JString creatorAddress)]) |}.

Definition emptyBody : jsval := JObject [].

Definition sampleInfo : PreviewBatchDistribution.MarketInfo :=
  {| PreviewBatchDistribution.question := "Will it rain tomorrow?";
     PreviewBatchDistribution.description := "Weather";
     PreviewBatchDistribution.endTime := 1767225600;
     PreviewBatchDistribution.category := 0;
     PreviewBatchDistribution.optionCount := 2;
     PreviewBatchDistribution.resolved := true;
     PreviewBatchDistribution.disputed := false;
     PreviewBatchDistribution.marketType := 0;
     PreviewBatchDistribution.invalidated := false;
     PreviewBatchDistribution.winningOptionId := 0;
     PreviewBatchDistribution.creator :=
       "0xAbCd000000000000000000000000000000000001" |}.

Definition disputedInfo : PreviewBatchDistribution.MarketInfo :=
  {| PreviewBatchDistribution.question := "Will it rain tomorrow?";
     PreviewBatchDistribution.description := "Weather";
     PreviewBatchDistribution.endTime := 1767225600;
     PreviewBatchDistribution.category := 0;
     PreviewBatchDistribution.optionCount := 2;
     PreviewBatchDistribution.resolved := true;
     PreviewBatchDistribution.disputed := true;
     PreviewBatchDistribution.marketType := 0;
     PreviewBatchDistribution.invalidated := false;
     PreviewBatchDistribution.winningOptionId := 0;
     PreviewBatchDistribution.creator :=
       "0xAbCd000000000000000000000000000000000001" |}.

Definition alice : string := "0xAAaa000000000000000000000000000000000001".
Definition bob : string := "0xBBbb000000000000000000000000000000000002".

Definition sampleParseInt (s : string) : option Z :=
  if String.eqb s "7" then Some 7 else None.

Definition noDigits (x : float) : string := EmptyString.

Definition previewRequest : PreviewBatchDistribution.request :=
  {| PreviewBatchDistribution.json := Ok (JObject [("marketId", JNumber 7)]) |}.

(** Alice trades with herself under two spellings, the zero address
    sells to Bob, and Bob claims free tokens under a third spelling. *)
Definition sampleTrades : list PreviewBatchDistribution.TradeExecuted :=
  [ {| PreviewBatchDistribution.buyer := Some alice;
       PreviewBatchDistribution.seller := Some (JS.toLowerCase alice) |};
    {| PreviewBatchDistribution.buyer :=
         Some PreviewBatchDistribution.zeroAddress;
       PreviewBatchDistribution.seller := Some bob |} ].

Definition sampleClaims : list PreviewBatchDistribution.FreeTokensClaimed :=
  [ {| PreviewBatchDistribution.user :=
         Some "0xBBBB000000000000000000000000000000000002" |} ].

(** Three purchases on three days: 10 on A, 30 on B, 20 on A. *)
Definition purchase (block : Z) (onA : bool) (amount : N) : Analytics.Log :=
  {| Analytics.log_blockNumber := block;
     Analytics.log_transactionHash := "0x00";
     Analytics.log_args :=
       Some {| Analytics.arg_buyer := alice;
               Analytics.arg_isOptionA := onA;
               Analytics.arg_amount := amount |} |}.

Definition sampleLogs (marketId : Z) : res (list Analytics.Log) :=
  Ok [purchase 1 false 30; purchase 0 true 10; purchase 2 true 20].


(** Block [b] is mined on day [b mod 3] of 2026. *)
Definition sampleBlock (b : Z) : res Analytics.Block :=
  Ok {| Analytics.block_timestamp := 1767225600 + 86400 * (b mod 3) |}.

Definition sampleClock (k : nat) : Z := 1767484800000.
Definition sampleRandom (k : nat) : Q := 1 # 3.
Definition sampleISO (t : Z) : string :=
  (JS.bigint_toString (t / 86400000) ++ "T00:00:00.000Z")%string.
Definition sampleDaysAgo (t i : Z) : Z := t - i * 86400000.

Definition sampleStringToBigInt (s : string) : option Z :=
  if String.eqb s "1" then Some 1 else None.

Definition freshWorld : Analytics.world :=
  {| Analytics.analyticsCache := []; Analytics.tick := 0 |}.

Definition day (volume : Q) : Analytics.VolumeHistoryData :=
  {| Analytics.v_date := "2026-01-01"; Analytics.v_timestamp := 1767225600000;
     Analytics.v_volume := volume; Analytics.v_trades := 1 |}.

(** A [Claimed] event at log position 3. *)
Definition sampleEvent : Mapper.Event :=
  {| Mapper.logIndex := 3;
     Mapper.block_number := 19000000;
     Mapper.block_timestamp := 1767225600;
     Mapper.transaction_hash := [Byte.xab; Byte.xcd; Byte.xef];
     Mapper.parameters :=
       [("marketId", Mapper.BigIntValue 7);
        ("user", Mapper.BytesValue [Byte.x01; Byte.x02]);
        ("amount", Mapper.BigIntValue 1000000000000000000)] |}.

End Samples.

(* ================================================================= *)
(** ** Sample data for the price routes *)

Module Samples64.
Import JS Samples.



(** Two purchases in one block: 1001 on A and 999 on B. *)
Definition closeLogs (marketId : Z) : res (list Analytics.Log) :=
  Ok [purchase 0 true 1001; purchase 0 false 999].

(** What the route reports for the purchases of a log. *)
Definition pricesOf (logs : Z -> res (list Analytics.Log))
  : list (float * float) :=
  match Analytics64.getMarketEvents sampleStringToBigInt logs sampleBlock "1"
          freshWorld with
  | (Ok events, w) =>
      match Analytics64.aggregate sampleClock sampleISO events w with
      | (Ok a, _) =>
          map (fun row => (Analytics64.optionA row, Analytics64.optionB row))
            (Analytics64.priceHistory a)
      | (Throw _, _) => []
      end
  | (Throw _, _) => []
  end.

(** A block stamped beyond the times a [Date] can hold. *)
Definition farBlock (b : Z) : res Analytics.Block :=
  Ok {| Analytics.block_timestamp := 10 ^ 13 |}.

Definition queryOfMarket1 : Analytics.query :=
  {| Analytics.q_marketId := Some "1"; Analytics.q_timeRange := None |}.

Definition quarter (k : nat) : float := 0.25%float.

Definition noNumber (s : string) : float := nan.

Definition freshPrices : CurrentPrice.world :=
  {| CurrentPrice.priceCache := []; CurrentPrice.tick := 0 |}.

End Samples64.

(* ================================================================= *)
(** ** Reading the routes and the mappings *)

Module Reads.
Import JS Eff Rpc.

(** What a computation over the trace returns and reads when nothing
    was read before. *)
Definition outcome {A} (m : M trace A) : res A := fst (m []).

Definition reads {A} (m : M trace A) : trace := snd (m []).

Definition items {W} (m : M trace (list W)) : list W :=
  match outcome m with
  | Ok ws => ws
  | Throw _ => []
  end.

(** The computation adds its reads to the trace and does not look at
    what was read before. *)
Definition appends {A} (m : M trace A) : Prop :=
  forall tr, m tr = (outcome m, tr ++ reads m).

End Reads.

Module ScanReading.
Import JS Eff Rpc AdminAutoDiscover Reads.

Section Reading.

Variable StringToBigInt : string -> option Z.
Variable readContract : call -> res jsval.

(** What the check of one market finds and reads, the market taken on
    its own. *)
Definition marketWithdrawals (userAddress : jsval) (m : Z)
  : list AdminWithdrawal :=
  items (checkMarket StringToBigInt readContract userAddress m).

Definition marketReads (userAddress : jsval) (m : Z) : trace :=
  reads (checkMarket StringToBigInt readContract userAddress m).

Definition questionOf (mi : jsval) : string :=
  toString (nullish (index mi 0) (JString EmptyString)).

(** The info of market [m] can be read: the read answers a truthy
    value whose three bigint fields convert. *)
Definition infoReadable (m : Z) (mi : jsval) : Prop :=
  readContract (GetMarketInfo m) = Ok mi /\ truthy mi = true /\
  (exists endTime, numberAt StringToBigInt 2 mi = Ok endTime) /\
  (exists optionCount, numberAt StringToBigInt 4 mi = Ok optionCount) /\
  (exists winningOptionId, numberAt StringToBigInt 9 mi = Ok winningOptionId).

Definition claimedOf (mf : jsval) : bool :=
  truthy (nullish (index mf 4) (nullish (index mf 3) (JBool false))).

(** What makes the initial liquidity [amount] of market [m] due. *)
Definition adminLiquidityDue (m amount : Z) : Prop :=
  exists mf,
    readContract (GetMarketFinancials m) = Ok mf /\ truthy mf = true /\
    numberAt StringToBigInt 0 mf = Ok amount /\
    claimedOf mf = false /\ 0 < amount.

Definition estimatedRewardsOf (li : jsval) : res Z :=
  JS.BigInt StringToBigInt
    (nullish (index li 2) (nullish (index li 3) (JBigInt 0))).

(** What makes LP rewards of [amount] due to [u] on market [m]. *)
Definition lpRewardsDue (u : string) (m amount : Z) : Prop :=
  exists li contribution,
    readContract (GetLPInfo m u) = Ok li /\ truthy li = true /\
    numberAt StringToBigInt 0 li = Ok contribution /\
    truthy (index li 1) = false /\
    estimatedRewardsOf li = Ok amount /\ 0 < amount.

(** [getFreeMarketInfo] answers for [m], with a truthy value. *)
Definition freeMarket (m : Z) : bool :=
  match readContract (GetFreeMarketInfo m) with
  | Ok fm => truthy fm
  | Throw _ => false
  end.

(** The four numbers of the free-market tuple convert. *)
Definition prizePoolReadable (m : Z) : Prop :=
  forall fm, readContract (GetFreeMarketInfo m) = Ok fm ->
             exists totalPrizePool,
               numberAt StringToBigInt 3 fm = Ok totalPrizePool.

(** The caller is the creator that the info of the market names. *)
Definition createdBy (u : string) (mi : jsval) : bool :=
  String.eqb (toLowerCase (creatorOf mi)) (toLowerCase u).

(** What the two checks made for the creator find and read. *)
Definition forCreatorOf (u : string) (m : Z) (mi : jsval)
  : list AdminWithdrawal :=
  if createdBy u mi then
    items (checkAdminLiquidity StringToBigInt readContract m (questionOf mi))
    ++ items (checkPrizePool StringToBigInt readContract m (questionOf mi)
                (resolvedOf mi))
  else [].

Definition creatorReads (u : string) (m : Z) (mi : jsval) : trace :=
  if createdBy u mi then
    GetMarketFinancials m
    :: GetFreeMarketInfo m
    :: (if freeMarket m && resolvedOf mi then [GetFreeMarketInfo m] else [])
  else [].

End Reading.

(** What one check contributes: nothing, or one candidate of the
    market and of the type of the check. *)
Definition oneOf (t : withdrawal_type) (m : Z) (l : list AdminWithdrawal)
  : Prop :=
  l = [] \/ exists w, l = [w] /\ marketId w = m /\ type w = t.

(** Where a candidate stands in the result: by market, and within a
    market by the order of the three checks. *)
Definition rank (t : withdrawal_type) : Z :=
  match t with
  | adminLiquidity => 0
  | prizePool => 1
  | lpRewards => 2
  end.

Definition position (w : AdminWithdrawal) : Z := 3 * marketId w + rank (type w).

End ScanReading.

Module PreviewReading.
Import JS Rpc.

(** The reads of a preview of market [n], the eligibility check being
    made for [participants]. *)
Definition readsOfPreview (n : Z) (participants : list string) : trace :=
  [GetMarketInfo n; GetLogsTradeExecuted n; GetLogsFreeTokensClaimed n;
   GetEligibleWinners n participants].

End PreviewReading.

Module CacheReading.
Import JS Analytics.

(** The cache key of a query for a market: [marketId-timeRange], the
    time range being 7d when none is given. *)
Definition keyOf (q : query) (marketId : string) : string :=
  (marketId ++ "-" ++ match nonEmpty (q_timeRange q) with
                      | Some r => r
                      | None => "7d"
                      end)%string.

End CacheReading.

(* ================================================================= *)
(** ** More sample data *)

Module ScanSamples.
Import JS Rpc Samples.

(** Two markets.  Market 0 is the sample free market, with an initial
    liquidity of 1000 that is not claimed and LP rewards of 7 for
    whoever asks; market 1 is another creator's, with rewards that are
    claimed. *)
Definition rainInfo : jsval :=
  JTuple [JString "Will it rain tomorrow?"; JString "Weather";
          JBigInt 1767225600; JNumber 0; JBigInt 2; JBool true;
          JBool false; JNumber 1; JBool false; JBigInt 0;
          JString "0xAbCd000000000000000000000000000000000001"].

Definition rainPool : jsval :=
  JTuple [JBigInt 100; JBigInt 5; JBigInt 40; JBigInt 500; JBool false].

Definition twoMarkets (c : call) : res jsval :=
  match c with
  | GetMarketFinancials 0 =>
      Ok (JTuple [JBigInt 1000; JBigInt 0; JBigInt 0; JBool false])
  | GetLPInfo 0 _ => Ok (JTuple [JBigInt 50; JBool false; JBigInt 7])
  | GetMarketInfo 1 =>
      Ok (JTuple [JString "Will it snow?"; JString "Weather";
                  JBigInt 1767225600; JNumber 0; JBigInt 2; JBool false;
                  JBool false; JNumber 0; JBool false; JBigInt 0;
                  JString "0x0000000000000000000000000000000000000002"])
  | GetLPInfo 1 _ => Ok (JTuple [JBigInt 5; JBool true; JBigInt 9])
  | _ => sampleContract c
  end.

(** What the route answers the sample request over the two markets. *)
Definition twoMarketsAnswer : AdminAutoDiscover.response :=
  match fst (AdminAutoDiscover.POST noStringToBigInt (Ok 2) twoMarkets
               adminRequest []) with
  | Ok r => r
  | Throw _ =>
      {| AdminAutoDiscover.status := 0;
         AdminAutoDiscover.body := AdminAutoDiscover.ErrorBody EmptyString |}
  end.

End ScanSamples.

Module PreviewSamples.
Import JS Samples.


(** One trade, bought by the zero address from nobody. *)
Definition mintTrades : list PreviewBatchDistribution.TradeExecuted :=
  [ {| PreviewBatchDistribution.buyer :=
         Some PreviewBatchDistribution.zeroAddress;
       PreviewBatchDistribution.seller := None |} ].

End PreviewSamples.

Module CacheSamples.
Import JS Samples.

(** A process that answered a query for market 1 a minute ago. *)
Definition cachedAnalytics : Analytics.MarketAnalytics :=
  {| Analytics.priceHistory := [];
     Analytics.volumeHistory := [];
     Analytics.totalVolume := 60%Q;
     Analytics.totalTrades := 3;
     Analytics.priceChange24h := 0%Q;
     Analytics.volumeChange24h := 0%Q;
     Analytics.lastUpdated := "2026-01-04T00:00:00.000Z" |}.



End CacheSamples.

Module PriceSamples.
Import JS Samples Samples64.



End PriceSamples.

Module MapperSamples.
Import Mapper Samples.

(** The log after the sample event, in the same transaction. *)
Definition nextEvent : Event :=
  {| logIndex := 4;
     block_number := 19000000;
     block_timestamp := 1767225600;
     transaction_hash := [Byte.xab; Byte.xcd; Byte.xef];
     parameters :=
       [("marketId", BigIntValue 7);
        ("user", BytesValue [Byte.x03; Byte.x04]);
        ("amount", BigIntValue 5)] |}.

(** An event whose decoded parameters lack the amount. *)
Definition shortEvent : Event :=
  {| logIndex := 5;
     block_number := 19000000;
     block_timestamp := 1767225600;
     transaction_hash := [Byte.xab; Byte.xcd; Byte.xef];
     parameters := [("marketId", BigIntValue 7)] |}.

(** The row of the sample event. *)
Definition sampleRow : Entity :=
  {| id := [Byte.xab; Byte.xcd; Byte.xef;
            Byte.x03; Byte.x00; Byte.x00; Byte.x00];
     data := parameters sampleEvent;
     blockNumber := 19000000;
     blockTimestamp := 1767225600;
     transactionHash := [Byte.xab; Byte.xcd; Byte.xef] |}.

End MapperSamples.

(* ================================================================= *)
(** * Properties *)

(** ** Reasoning about computations *)

Module EffFacts.
Import JS Eff.


Lemma wp_ret {S A} (a : A) (P : A -> S -> Prop) Q s :
  P a s -> wp (ret a) P Q s.
Proof. exact (fun H => H). Qed.

Lemma wp_throw {S A} e (P : A -> S -> Prop) (Q : exn -> S -> Prop) s :
  Q e s -> wp (throw e) P Q s.
Proof. exact (fun H => H). Qed.

Lemma wp_bind {S A B} (m : M S A) (k : A -> M S B) P Q s :
  wp m (fun a s' => wp (k a) P Q s') Q s -> wp (bind m k) P Q s.
Proof.
  unfold wp, bind. destruct (m s) as [[a|e] s']; auto.
Qed.

Lemma wp_try_catch {S A} (m : M S A) (h : exn -> M S A) P Q s :
  wp m P (fun e s' => wp (h e) P Q s') s -> wp (try_catch m h) P Q s.
Proof.
  unfold wp, try_catch. destruct (m s) as [[a|e] s']; auto.
Qed.

Lemma wp_lift {S A} (r : res A) (P : A -> S -> Prop) (Q : exn -> S -> Prop) s :
  match r with Ok a => P a s | Throw e => Q e s end -> wp (lift r) P Q s.
Proof. unfold wp, lift. destruct r; auto. Qed.

Lemma wp_conseq {S A} (m : M S A) (P P' : A -> S -> Prop)
  (Q Q' : exn -> S -> Prop) s :
  wp m P Q s -> (forall a s', P a s' -> P' a s') ->
  (forall e s', Q e s' -> Q' e s') -> wp m P' Q' s.
Proof.
  unfold wp. destruct (m s) as [[a|e] s']; auto.
Qed.

(** Use a proved specification of a computation that does not throw. *)
Ltac wp_use H :=
  eapply wp_conseq; [apply H| |cbv beta; contradiction].

(** A loop whose every turn returns items that satisfy [I] returns
    a list of such items, if it returns. *)
Lemma wp_forEach {S X W} (I : W -> Prop) (Q : exn -> S -> Prop)
  (body : X -> M S (list W)) :
  (forall x s, wp (body x) (fun ws _ => Forall I ws) Q s) ->
  forall xs acc s,
    Forall I acc ->
    wp (forEach xs body acc) (fun ws _ => Forall I ws) Q s.
Proof.
  intros Hbody xs. induction xs as [|x xs IH]; intros acc s Hacc; simpl.
  - now apply wp_ret.
  - apply wp_bind. eapply wp_conseq; [apply Hbody| |auto].
    intros ws s' Hws. apply IH. apply Forall_app; auto.
Qed.

(** Whatever the first computation does, the rest establishes [P]. *)
Lemma wp_bind_any {S A B} (m : M S A) (k : A -> M S B) P (Q : exn -> S -> Prop) s :
  (forall a s', wp (k a) P Q s') -> (forall e s', Q e s') ->
  wp (bind m k) P Q s.
Proof.
  intros Hk HQ. unfold wp, bind. destruct (m s) as [[a|e] s']; [apply Hk|apply HQ].
Qed.

End EffFacts.
(* ================================================================= *)
(** ** The admin-withdrawal scanner *)

Module AdminFacts.
Import JS Eff Rpc AdminAutoDiscover EffFacts Samples.

(** The loop variables take the values the loops of the source give
    them. *)
Lemma zrange_In start stop m : In m (zrange start stop) <-> start <= m < stop.
Proof.
  unfold zrange. rewrite in_map_iff. split.
  - intros (k & <- & Hk). apply in_seq in Hk. lia.
  - intros H. exists (Z.to_nat (m - start)). split; [lia|].
    apply in_seq. lia.
Qed.

Lemma zsteps_In step stop s :
  0 < step ->
  In s (zsteps step stop) <-> 0 <= s < stop /\ s mod step = 0.
Proof.
  intros Hstep. unfold zsteps. rewrite in_map_iff. split.
  - intros (k & <- & Hk). apply in_seq in Hk.
    assert (Hk' : Z.of_nat k < (stop + step - 1) / step) by lia.
    assert (step * Z.of_nat k < stop).
    { pose proof (Z.mul_div_le (stop + step - 1) step Hstep). nia. }
    repeat split; try nia.
    rewrite Z.mul_comm. now apply Z.mod_mul; lia.
  - intros [[H0 H1] Hmod]. exists (Z.to_nat (s / step)).
    assert (Hs : s = step * (s / step)).
    { pose proof (Z.div_mod s step). lia. }
    split.
    + rewrite Z2Nat.id; [lia|]. apply Z.div_pos; lia.
    + apply in_seq. split; [lia|]. simpl.
      apply Z2Nat.inj_lt.
      * apply Z.div_pos; lia.
      * apply Z.div_pos; lia.
      * apply Z.div_lt_upper_bound; [lia|].
        pose proof (Z.mod_pos_bound (stop + step - 1) step Hstep).
        pose proof (Z.div_mod (stop + step - 1) step). nia.
Qed.

(** Every market below the count is in exactly the batch that starts
    at the multiple of ten below it. *)
Lemma every_market_is_in_a_batch count m :
  0 <= m < count ->
  exists startId,
    In startId (zsteps batchSize count)
    /\ In m (zrange startId (Z.min (startId + batchSize) count)).
Proof.
  intros Hm. unfold batchSize. exists (m - m mod 10).
  pose proof (Z.mod_pos_bound m 10).
  assert (m mod 10 <= m) by (apply Z.mod_le; lia).
  split.
  - apply zsteps_In; [lia|]. split; [lia|].
    rewrite Zminus_mod, Z.mod_mod, Z.sub_diag by lia. reflexivity.
  - apply zrange_In. lia.
Qed.

Section Scan.

Variable StringToBigInt : string -> option Z.
Variable marketCount : res Z.
Variable readContract : call -> res jsval.

Let number := numberAt StringToBigInt.
Let onlyWhenDue := prizePoolOnlyWhenDue StringToBigInt readContract.

Lemma getUnusedPrizePool_value m fm maxP tpp cur total tr :
  readContract (GetFreeMarketInfo m) = Ok fm ->
  truthy fm = true ->
  number 0 fm = Ok maxP -> number 1 fm = Ok tpp ->
  number 2 fm = Ok cur -> number 3 fm = Ok total ->
  prizePoolWithdrawnOf fm = false ->
  getUnusedPrizePool StringToBigInt readContract m tr
  = (Ok (Z.max 0 (maxP * tpp - cur * tpp)), tr ++ [GetFreeMarketInfo m]).
Proof.
  unfold number, numberAt, prizePoolWithdrawnOf.
  intros Hfm Ht H0 H1 H2 H3 Hw.
  unfold getUnusedPrizePool, try_catch, bind, read, Rpc.request, lift, ret.
  rewrite Hfm, Ht. simpl. rewrite H0, H1, H2, H3, Hw.
  f_equal. f_equal.
  destruct (maxP * tpp - cur * tpp >? 0) eqn:E; lia.
Qed.

(** A positive result of [getUnusedPrizePool] is the difference of
    the two pools of a free market whose pool was not withdrawn. *)
Lemma getUnusedPrizePool_positive m s :
  wp (getUnusedPrizePool StringToBigInt readContract m)
     (fun v _ =>
        0 < v ->
        exists fm maxP tpp cur,
          readContract (GetFreeMarketInfo m) = Ok fm /\ truthy fm = true /\
          prizePoolWithdrawnOf fm = false /\
          number 0 fm = Ok maxP /\ number 1 fm = Ok tpp /\
          number 2 fm = Ok cur /\
          v = maxP * tpp - cur * tpp)
     (fun _ _ => False) s.
Proof.
  unfold getUnusedPrizePool.
  apply wp_try_catch, wp_bind.
  unfold wp at 1, read, Rpc.request.
  destruct (readContract (GetFreeMarketInfo m)) as [fm|e] eqn:Hfm;
    [|apply wp_ret; lia].
  destruct (truthy fm) eqn:Ht; simpl; [|apply wp_ret; lia].
  apply wp_bind, wp_lift.
  destruct (JS.BigInt _ (nullish (index fm 0) _)) as [maxP|] eqn:H0;
    [|apply wp_ret; lia].
  apply wp_bind, wp_lift.
  destruct (JS.BigInt _ (nullish (index fm 1) _)) as [tpp|] eqn:H1;
    [|apply wp_ret; lia].
  apply wp_bind, wp_lift.
  destruct (JS.BigInt _ (nullish (index fm 2) _)) as [cur|] eqn:H2;
    [|apply wp_ret; lia].
  apply wp_bind, wp_lift.
  destruct (JS.BigInt _ (nullish (index fm 3) _)) as [total|] eqn:H3;
    [|apply wp_ret; lia].
  destruct (truthy (index fm 4)) eqn:Hw; apply wp_ret; [lia|].
  intros Hpos. exists fm, maxP, tpp, cur.
  repeat split; auto.
  destruct (maxP * tpp - cur * tpp >? 0) eqn:E; lia.
Qed.


Lemma checkIfFreeMarket_true m s :
  wp (checkIfFreeMarket readContract m)
     (fun b _ =>
        b = true ->
        exists fm, readContract (GetFreeMarketInfo m) = Ok fm /\ truthy fm = true)
     (fun _ _ => False) s.
Proof.
  unfold checkIfFreeMarket.
  apply wp_try_catch, wp_bind.
  unfold wp at 1, read, Rpc.request.
  destruct (readContract (GetFreeMarketInfo m)) as [fm|e] eqn:Hfm;
    apply wp_ret; [eauto | discriminate].
Qed.

Ltac items_of_type :=
  repeat first
    [ apply wp_ret; solve [repeat constructor]
    | apply wp_try_catch | apply wp_bind | apply wp_lift
    | match goal with
      | |- wp (read _ _) _ _ _ => unfold wp at 1, read, Rpc.request
      | |- context [match ?r with Ok _ => _ | Throw _ => _ end] => destruct r
      | |- context [if ?b then _ else _] => destruct b
      end ].

Lemma checkAdminLiquidity_type m question s :
  wp (checkAdminLiquidity StringToBigInt readContract m question)
     (fun ws _ => Forall (fun w => type w = adminLiquidity) ws)
     (fun _ _ => False) s.
Proof. unfold checkAdminLiquidity. items_of_type. Qed.

Lemma checkLPRewards_type m u question s :
  wp (checkLPRewards StringToBigInt readContract m u question)
     (fun ws _ => Forall (fun w => type w = lpRewards) ws)
     (fun _ _ => False) s.
Proof. unfold checkLPRewards. items_of_type. Qed.

Lemma checkPrizePool_due m question resolved s :
  wp (checkPrizePool StringToBigInt readContract m question resolved)
     (fun ws _ =>
        Forall (fun w =>
                  marketId w = m /\ resolved = true /\
                  exists fm maxP tpp cur,
                    readContract (GetFreeMarketInfo m) = Ok fm /\
                    truthy fm = true /\
                    prizePoolWithdrawnOf fm = false /\
                    number 0 fm = Ok maxP /\ number 1 fm = Ok tpp /\
                    number 2 fm = Ok cur /\
                    amount w = maxP * tpp - cur * tpp /\ 0 < amount w) ws)
     (fun _ _ => False) s.
Proof.
  unfold checkPrizePool.
  apply wp_bind.
  wp_use checkIfFreeMarket_true.
  intros isFree s1 _. simpl.
  destruct isFree, resolved; simpl; try (apply wp_ret; constructor).
  apply wp_try_catch, wp_bind.
  wp_use getUnusedPrizePool_positive.
  intros v s2 Hv. simpl.
  destruct (v >? 0) eqn:E; apply wp_ret; constructor; [|constructor].
  simpl. split; [reflexivity|]. split; [reflexivity|].
  destruct Hv as (fm & maxP & tpp & cur & H); [lia|].
  exists fm, maxP, tpp, cur. intuition lia.
Qed.

(** Every prize-pool candidate of one market is due. *)
Lemma checkMarket_prizePool userAddress m s :
  wp (checkMarket StringToBigInt readContract userAddress m)
     (fun ws _ => Forall (onlyWhenDue userAddress) ws)
     (fun _ _ => False) s.
Proof.
  unfold checkMarket.
  apply wp_try_catch, wp_bind.
  unfold wp at 1, read, Rpc.request.
  destruct (readContract (GetMarketInfo m)) as [mi|e] eqn:Hmi;
    [|apply wp_ret; constructor].
  destruct (truthy mi) eqn:Hti; simpl; [|apply wp_ret; constructor].
  apply wp_bind, wp_lift.
  destruct (JS.BigInt _ (nullish (index mi 2) _)) as [endTime|];
    [|apply wp_ret; constructor].
  apply wp_bind, wp_lift.
  destruct (JS.BigInt _ (nullish (index mi 4) _)) as [optionCount|];
    [|apply wp_ret; constructor].
  apply wp_bind, wp_lift.
  destruct (JS.BigInt _ (nullish (index mi 9) _)) as [winningOptionId|];
    [|apply wp_ret; constructor].
  apply wp_bind, wp_lift.
  destruct userAddress as [| | | | |u| |]; simpl;
    try (apply wp_ret; constructor).
  apply wp_bind.
  set (Creator ws := Forall (onlyWhenDue (JString u)) ws).
  assert (Hcreator : forall s',
    wp (if String.eqb (toLowerCase
              (toString (nullish (index mi 10) (JString EmptyString))))
            (toLowerCase u)
        then bind (checkAdminLiquidity StringToBigInt readContract m
                     (toString (nullish (index mi 0) (JString EmptyString))))
               (fun a => bind (checkPrizePool StringToBigInt readContract m
                     (toString (nullish (index mi 0) (JString EmptyString)))
                     (truthy (index mi 5)))
               (fun b => ret (a ++ b)))
        else ret [])
       (fun ws _ => Creator ws) (fun _ _ => False) s').
  { intros s'.
    destruct (String.eqb _ (toLowerCase u)) eqn:Hc;
      [|apply wp_ret; constructor].
    apply String.eqb_eq in Hc.
    apply wp_bind.
    wp_use checkAdminLiquidity_type.
    intros liquidity s1 Hliquidity. simpl. apply wp_bind.
    wp_use checkPrizePool_due.
    intros pool s2 Hpool. simpl. apply wp_ret.
    apply Forall_app; split.
    - eapply Forall_impl; [|exact Hliquidity].
      intros w Hw Hp. congruence.
    - eapply Forall_impl; [|exact Hpool].
      intros w (Hm & Hr & fm & maxP & tpp & cur & H) _.
      rewrite Hm. exists mi, u, fm, maxP, tpp, cur.
      unfold creatorOf, resolvedOf. intuition. }
  wp_use Hcreator.
  intros forCreator s1 HforCreator. simpl. apply wp_bind.
  wp_use checkLPRewards_type.
  intros forLP s2 HforLP. simpl. apply wp_ret.
  apply Forall_app; split; [exact HforCreator|].
  eapply Forall_impl; [|exact HforLP].
  intros w Hw Hp. congruence.
Qed.

Lemma discoverAdminWithdrawals_prizePool userAddress s :
  wp (discoverAdminWithdrawals StringToBigInt marketCount readContract
        userAddress)
     (fun ws _ => Forall (onlyWhenDue userAddress) ws)
     (fun _ _ => False) s.
Proof.
  unfold discoverAdminWithdrawals.
  apply wp_try_catch, wp_bind.
  unfold wp at 1, Rpc.request.
  destruct marketCount as [count|e]; [|apply wp_ret; constructor].
  destruct (count =? 0); [apply wp_ret; constructor|].
  apply wp_forEach; [|constructor].
  intros startId s1. apply wp_try_catch.
  unfold checkMarketBatchForAdmin.
  eapply wp_conseq;
    [apply (wp_forEach (onlyWhenDue userAddress) (fun _ _ => False))
    |auto|cbv beta; contradiction].
  - intros m s2. apply checkMarket_prizePool.
  - constructor.
Qed.


Lemma discoverAdminWithdrawals_returns userAddress s :
  wp (discoverAdminWithdrawals StringToBigInt marketCount readContract
        userAddress)
     (fun _ _ => True) (fun _ _ => False) s.
Proof. wp_use discoverAdminWithdrawals_prizePool. auto. Qed.

(** With a user address the route answers 200, whatever the contract
    reads did. *)
Lemma admin_POST_with_address req parsed userAddress tr :
  json req = Ok parsed ->
  prop parsed "userAddress" = Ok userAddress ->
  truthy userAddress = true ->
  exists r tr',
    POST StringToBigInt marketCount readContract req tr = (Ok r, tr')
    /\ status r = 200.
Proof.
  intros Hjson Hprop Htruthy.
  pose proof (discoverAdminWithdrawals_returns userAddress tr) as Hd.
  unfold wp in Hd.
  unfold POST, try_catch, bind, lift, ret.
  rewrite Hjson, Hprop, Htruthy. simpl.
  destruct (discoverAdminWithdrawals _ _ _ userAddress tr) as [[ws|e] tr'];
    [|contradiction].
  eexists _, tr'. split; reflexivity.
Qed.

Lemma admin_POST_without_address req parsed userAddress tr :
  json req = Ok parsed ->
  prop parsed "userAddress" = Ok userAddress ->
  truthy userAddress = false ->
  POST StringToBigInt marketCount readContract req tr
  = (Ok {| status := 400; body := ErrorBody "User address is required" |}, tr).
Proof.
  intros Hjson Hprop Htruthy.
  unfold POST, try_catch, bind, lift, ret.
  now rewrite Hjson, Hprop, Htruthy.
Qed.

(** A body that has no properties, [null]: the destructuring throws. *)
Lemma admin_POST_without_parameters req parsed e tr :
  json req = Ok parsed -> prop parsed "userAddress" = Throw e ->
  POST StringToBigInt marketCount readContract req tr
  = (Ok {| status := 500;
           body := ErrorBody ("Failed to auto-discover admin withdrawals: "
                              ++ errorMessage e)%string |}, tr).
Proof.
  intros Hjson Hprop. unfold POST, try_catch, bind, lift, ret.
  now rewrite Hjson, Hprop.
Qed.

Lemma admin_POST_unreadable_body req e tr :
  json req = Throw e ->
  POST StringToBigInt marketCount readContract req tr
  = (Ok {| status := 500;
           body := ErrorBody ("Failed to auto-discover admin withdrawals: "
                              ++ errorMessage e)%string |}, tr).
Proof.
  intros Hjson. unfold POST, try_catch, bind, lift, ret.
  now rewrite Hjson.
Qed.

End Scan.

(** When the market count cannot be read the scan is empty and the
    route answers 200. *)
Lemma admin_POST_when_count_fails StringToBigInt readContract e req parsed
  userAddress tr :
  json req = Ok parsed ->
  prop parsed "userAddress" = Ok userAddress ->
  truthy userAddress = true ->
  POST StringToBigInt (Throw e) readContract req tr
  = (Ok {| status := 200; body := noWithdrawals |}, tr ++ [MarketCount]).
Proof.
  intros Hjson Hprop Htruthy.
  unfold POST, try_catch, bind, lift, ret.
  now rewrite Hjson, Hprop, Htruthy.
Qed.

Example sample_scan :
  discoverAdminWithdrawals noStringToBigInt (Ok 1) sampleContract
    (JString creatorAddress) []
  = (Ok [ {| marketId := 0; amount := 300; type := prizePool;
             description :=
               describe "Unused prize pool for free market "
                        "Will it rain tomorrow?" |} ],
     [MarketCount; GetMarketInfo 0; GetMarketFinancials 0;
      GetFreeMarketInfo 0; GetFreeMarketInfo 0;
      GetLPInfo 0 creatorAddress]).
Proof. vm_compute. reflexivity. Qed.

(** C1, as stated, fails: with 1 place of 5 tokens and 2 participants
    the pool is not withdrawn, and [getUnusedPrizePool] returns 0 where
    the difference of the two pools is -5. *)
Lemma unused_prize_pool_is_not_the_difference :
  exists fm,
    oversubscribed (GetFreeMarketInfo 0) = Ok fm /\
    numberAt noStringToBigInt 0 fm = Ok 1 /\
    numberAt noStringToBigInt 1 fm = Ok 5 /\
    numberAt noStringToBigInt 2 fm = Ok 2 /\
    prizePoolWithdrawnOf fm = false /\
    fst (getUnusedPrizePool noStringToBigInt oversubscribed 0 []) = Ok 0 /\
    fst (getUnusedPrizePool noStringToBigInt oversubscribed 0 [])
    <> Ok (1 * 5 - 2 * 5).
Proof.
  eexists. repeat split; try reflexivity. vm_compute. discriminate.
Qed.

(** C1 (amended): for a free market whose info tuple yields
    maxParticipants, tokensPerParticipant, currentParticipants (and a
    numeric totalPrizePool) and prizePoolWithdrawn = false, the
    unused prize pool the scanner computes is
    maxParticipants*tokensPerParticipant -
    currentParticipants*tokensPerParticipant when that difference is
    positive and 0 otherwise; and every prizePool candidate of a scan
    belongs to a market whose creator is the caller, that is resolved,
    that is a free market whose pool is not withdrawn, and carries that
    difference, which is positive.  The scan itself never throws. *)
Theorem unused_prize_pool_and_its_candidates
  (StringToBigInt : string -> option Z) (marketCount : res Z)
  (readContract : call -> res jsval) :
  (forall m fm maxParticipants tokensPerParticipant currentParticipants
          totalPrizePool tr,
      readContract (GetFreeMarketInfo m) = Ok fm ->
      truthy fm = true ->
      numberAt StringToBigInt 0 fm = Ok maxParticipants ->
      numberAt StringToBigInt 1 fm = Ok tokensPerParticipant ->
      numberAt StringToBigInt 2 fm = Ok currentParticipants ->
      numberAt StringToBigInt 3 fm = Ok totalPrizePool ->
      prizePoolWithdrawnOf fm = false ->
      getUnusedPrizePool StringToBigInt readContract m tr
      = (Ok (Z.max 0 (maxParticipants * tokensPerParticipant
                      - currentParticipants * tokensPerParticipant)),
         tr ++ [GetFreeMarketInfo m]))
  /\
  (forall userAddress tr,
      match discoverAdminWithdrawals StringToBigInt marketCount readContract
              userAddress tr with
      | (Ok withdrawals, _) =>
          Forall (prizePoolOnlyWhenDue StringToBigInt readContract userAddress)
                 withdrawals
      | (Throw _, _) => False
      end).
Proof.
  split.
  - intros. eapply getUnusedPrizePool_value; eauto.
  - intros userAddress tr.
    exact (discoverAdminWithdrawals_prizePool StringToBigInt marketCount
             readContract userAddress tr).
Qed.

(** The sample of the specification: 100, 5 and 40 give 300. *)
Lemma unused_prize_pool_sample :
  getUnusedPrizePool noStringToBigInt sampleContract 0 []
  = (Ok 300, [GetFreeMarketInfo 0]).
Proof.
  exact (proj1 (unused_prize_pool_and_its_candidates noStringToBigInt (Ok 1)
                  sampleContract)
           0 _ 100 5 40 500 [] eq_refl eq_refl eq_refl eq_refl eq_refl eq_refl
           eq_refl).
Defined.

(** C4: when the contract reports no market, the scan of any user
    address is empty, the route answers with [totalCount = 0] and every
    total "0", and the only contract read is that of the count. *)
Theorem scan_of_a_contract_without_markets
  (StringToBigInt : string -> option Z) (readContract : call -> res jsval)
  (req : request) (parsed userAddress : jsval) (tr : trace) :
  json req = Ok parsed ->
  prop parsed "userAddress" = Ok userAddress ->
  truthy userAddress = true ->
  discoverAdminWithdrawals StringToBigInt (Ok 0) readContract userAddress tr
  = (Ok [], tr ++ [MarketCount])
  /\ POST StringToBigInt (Ok 0) readContract req tr
     = (Ok {| status := 200; body := noWithdrawals |}, tr ++ [MarketCount])
  /\ existsb is_per_market_read [MarketCount] = false.
Proof.
  intros Hjson Hprop Htruthy. split; [reflexivity|]. split; [|reflexivity].
  unfold POST, try_catch, bind, lift, ret.
  now rewrite Hjson, Hprop, Htruthy.
Qed.

Lemma scan_of_a_contract_without_markets_sample :
  POST noStringToBigInt (Ok 0) sampleContract
    adminRequest []
  = (Ok {| status := 200; body := noWithdrawals |}, [MarketCount]).
Proof.
  exact (proj1 (proj2 (scan_of_a_contract_without_markets noStringToBigInt
                         sampleContract
                         adminRequest
                         _ _ [] eq_refl eq_refl eq_refl))).
Defined.

End AdminFacts.
(* ================================================================= *)
(** ** The batch-distribution previewer *)

Module PreviewFacts.
Import JS Eff Rpc PreviewBatchDistribution EffFacts Samples.

Lemma set_add_In x y set : In x (set_add y set) <-> In x set \/ x = y.
Proof.
  unfold set_add. destruct (existsb (String.eqb y) set) eqn:E.
  - split; [auto|]. intros [H| ->]; [exact H|].
    apply existsb_exists in E. destruct E as (z & Hz & Heq).
    apply String.eqb_eq in Heq. now subst.
  - rewrite in_app_iff. simpl. intuition.
Qed.

Lemma set_add_NoDup y set : NoDup set -> NoDup (set_add y set).
Proof.
  intros Hnd. unfold set_add. destruct (existsb (String.eqb y) set) eqn:E; [exact Hnd|].
  apply NoDup_app; [exact Hnd|repeat constructor; simpl; tauto|].
  intros x Hx [Heq|[]]. subst x.
  assert (existsb (String.eqb y) set = true); [|congruence].
  apply existsb_exists. exists y. split; [exact Hx|apply String.eqb_refl].
Qed.

Lemma add_participant_In p a set :
  In p (add_participant a set) <->
  In p set \/ exists addr, a = Some addr /\ counted addr /\ p = toLowerCase addr.
Proof.
  unfold add_participant, counted. destruct a as [addr|].
  - destruct (String.eqb addr EmptyString) eqn:E1; simpl.
    + apply String.eqb_eq in E1. split; [auto|].
      intros [H|(x & Hx & (Hn & _) & _)]; [exact H|]. congruence.
    + apply String.eqb_neq in E1.
      destruct (String.eqb addr zeroAddress) eqn:E2; simpl.
      * apply String.eqb_eq in E2. split; [auto|].
        intros [H|(x & Hx & (_ & Hn) & _)]; [exact H|]. congruence.
      * apply String.eqb_neq in E2. rewrite set_add_In.
        split; intros [H|H]; auto.
        -- right. exists addr. auto.
        -- right. destruct H as (x & Hx & _ & ->). congruence.
  - split; [auto|]. intros [H|(x & Hx & _)]; [exact H|discriminate].
Qed.

Lemma add_participant_NoDup a set : NoDup set -> NoDup (add_participant a set).
Proof.
  intros Hnd. unfold add_participant. destruct a as [addr|]; [|exact Hnd].
  destruct (_ && _); [now apply set_add_NoDup|exact Hnd].
Qed.

Lemma trades_In p tradeEvents : forall set,
  In p (fold_left (fun set event => add_participant (seller event)
                                      (add_participant (buyer event) set))
          tradeEvents set) <->
  In p set \/
  exists addr,
    In addr (flat_map (fun e => optional (buyer e) ++ optional (seller e))
               tradeEvents)
    /\ counted addr /\ p = toLowerCase addr.
Proof.
  induction tradeEvents as [|e es IH]; intros set; simpl.
  - split; [auto|]. intros [H|(x & [] & _)]. exact H.
  - rewrite IH, !add_participant_In. split.
    + intros [[[H|(x & Hx & Hc)]|(x & Hx & Hc)]|(x & Hx & Hc)]; auto;
        right; exists x; (split; [|exact Hc]);
        rewrite !in_app_iff; [left; left|left; right|right; exact Hx];
        rewrite Hx; simpl; auto.
    + intros [H|(x & Hx & Hc)]; [auto|].
      rewrite !in_app_iff in Hx. destruct Hx as [[Hx|Hx]|Hx].
      * left. left. right. exists x. split; [|exact Hc].
        destruct (buyer e); simpl in Hx; [|contradiction].
        destruct Hx as [-> |[]]. reflexivity.
      * left. right. exists x. split; [|exact Hc].
        destruct (seller e); simpl in Hx; [|contradiction].
        destruct Hx as [-> |[]]. reflexivity.
      * right. exists x. auto.
Qed.

Lemma claims_In p freeTokenEvents : forall set,
  In p (fold_left (fun set event => add_participant (user event) set)
          freeTokenEvents set) <->
  In p set \/
  exists addr,
    In addr (flat_map (fun e => optional (user e)) freeTokenEvents)
    /\ counted addr /\ p = toLowerCase addr.
Proof.
  induction freeTokenEvents as [|e es IH]; intros set; simpl.
  - split; [auto|]. intros [H|(x & [] & _)]. exact H.
  - rewrite IH, add_participant_In. split.
    + intros [[H|(x & Hx & Hc)]|(x & Hx & Hc)]; auto;
        right; exists x; (split; [|exact Hc]); rewrite in_app_iff;
        [left; rewrite Hx; simpl; auto|right; exact Hx].
    + intros [H|(x & Hx & Hc)]; [auto|].
      rewrite in_app_iff in Hx. destruct Hx as [Hx|Hx].
      * left. right. exists x. split; [|exact Hc].
        destruct (user e); simpl in Hx; [|contradiction].
        destruct Hx as [-> |[]]. reflexivity.
      * right. exists x. auto.
Qed.

Lemma collectParticipants_In p tradeEvents freeTokenEvents :
  In p (collectParticipants tradeEvents freeTokenEvents) <->
  exists addr,
    In addr (addressesOf tradeEvents freeTokenEvents)
    /\ counted addr /\ p = toLowerCase addr.
Proof.
  unfold collectParticipants, addressesOf.
  rewrite claims_In, trades_In. simpl. split.
  - intros [[[]|(x & Hx & Hc)]|(x & Hx & Hc)]; exists x;
      rewrite in_app_iff; auto.
  - intros (x & Hx & Hc). rewrite in_app_iff in Hx.
    destruct Hx as [Hx|Hx]; [left; right|right]; exists x; auto.
Qed.

Lemma collectParticipants_NoDup tradeEvents freeTokenEvents :
  NoDup (collectParticipants tradeEvents freeTokenEvents).
Proof.
  unfold collectParticipants.
  assert (Htrades : forall es set, NoDup set ->
            NoDup (fold_left
                     (fun set event => add_participant (seller event)
                                         (add_participant (buyer event) set))
                     es set)).
  { induction es as [|e es IH]; intros set Hnd; simpl; [exact Hnd|].
    apply IH. now do 2 apply add_participant_NoDup. }
  assert (Hclaims : forall es set, NoDup set ->
            NoDup (fold_left (fun set event => add_participant (user event) set)
                     es set)).
  { induction es as [|e es IH]; intros set Hnd; simpl; [exact Hnd|].
    apply IH. now apply add_participant_NoDup. }
  apply Hclaims, Htrades. constructor.
Qed.

(** Only the digit 0 lowers to the digit 0. *)
Lemma lower_ascii_zero c : lower_ascii c = "0"%char -> c = "0"%char.
Proof.
  destruct c as [[] [] [] [] [] [] [] []]; vm_compute; congruence.
Qed.

Lemma toLowerCase_zeros n : forall s, toLowerCase s = zeros n -> s = zeros n.
Proof.
  induction n as [|n IH]; intros [|c s]; simpl; try congruence.
  intros H. injection H as Hc Hs.
  apply lower_ascii_zero in Hc. apply IH in Hs. congruence.
Qed.

(** A decoded address that lowers to the zero address is the zero
    address. *)
Lemma decoded_zero addr :
  decoded addr -> toLowerCase addr = zeroAddress -> addr = zeroAddress.
Proof.
  unfold decoded. intros Hp Hl.
  apply prefix_correct in Hp.
  destruct addr as [|c0 [|c1 rest]]; simpl in Hp; try discriminate.
  injection Hp as -> ->.
  assert (Hrest : toLowerCase rest = zeros 40).
  { unfold zeroAddress in Hl. cbn in Hl |- *. congruence. }
  apply toLowerCase_zeros in Hrest. now rewrite Hrest.
Qed.


Section Route.

Variable parseInt : string -> option Z.
Variable shortest_digits : float -> string.
Variable getMarketInfo : Z -> res MarketInfo.
Variable tradeExecutedLogs : Z -> res (list TradeExecuted).
Variable freeTokensClaimedLogs : Z -> res (list FreeTokensClaimed).
Variable getEligibleWinners : Z -> list string -> res (list string * list Z).

Let route : request -> M trace response :=
  POST parseInt shortest_digits getMarketInfo tradeExecutedLogs
    freeTokensClaimedLogs getEligibleWinners.

Ltac enter H :=
  destruct H as (parsed & marketId & Hjson & Hprop & Htruthy & Hparse & Hpos);
  apply Z.ltb_ge in Hpos;
  unfold route, POST, try_catch, bind, lift, ret, Rpc.request;
  rewrite Hjson, Hprop, Htruthy, Hparse, Hpos; simpl.

Lemma preview_POST_not_resolved req n mi tr :
  asksFor parseInt req n -> getMarketInfo n = Ok mi -> resolved mi = false ->
  route req tr
  = (Ok (empty_result 0 (Some 0%nat)
           "Market is not resolved yet. Cannot distribute winnings."),
     tr ++ [GetMarketInfo n]).
Proof. intros H Hmi Hr. enter H. now rewrite Hmi, Hr. Qed.

Lemma preview_POST_disputed req n mi tr :
  asksFor parseInt req n -> getMarketInfo n = Ok mi ->
  resolved mi = true -> disputed mi = true ->
  route req tr
  = (Ok (empty_result 0 (Some 0%nat)
           "Market is disputed. Cannot distribute winnings."),
     tr ++ [GetMarketInfo n]).
Proof. intros H Hmi Hr Hd. enter H. now rewrite Hmi, Hr, Hd. Qed.

Lemma preview_POST_no_events req n mi tr :
  asksFor parseInt req n -> getMarketInfo n = Ok mi ->
  resolved mi = true -> disputed mi = false ->
  tradeExecutedLogs n = Ok [] -> freeTokensClaimedLogs n = Ok [] ->
  route req tr
  = (Ok (empty_result 0 (Some 0%nat)
           "No trade or free token events found for this market. This could mean the market has no participants yet."),
     tr ++ [GetMarketInfo n; GetLogsTradeExecuted n; GetLogsFreeTokensClaimed n]).
Proof.
  intros H Hmi Hr Hd Ht Hf. enter H. rewrite Hmi, Hr, Hd. simpl.
  rewrite Ht, Hf. simpl. now rewrite <- !app_assoc.
Qed.

(** With participants, the route asks the contract about exactly them
    and reports their number. *)
Lemma preview_POST_eligible req n mi tradeEvents freeTokenEvents recipients amounts tr :
  asksFor parseInt req n -> getMarketInfo n = Ok mi ->
  resolved mi = true -> disputed mi = false ->
  tradeExecutedLogs n = Ok tradeEvents ->
  freeTokensClaimedLogs n = Ok freeTokenEvents ->
  collectParticipants tradeEvents freeTokenEvents <> [] ->
  getEligibleWinners n (collectParticipants tradeEvents freeTokenEvents)
  = Ok (recipients, amounts) ->
  route req tr
  = (Ok {| status := 200;
           body := Preview recipients
                     (map (Double.formatAmount shortest_digits) amounts)
                     (List.length (collectParticipants tradeEvents freeTokenEvents))
                     (Some (List.length recipients)) None |},
     tr ++ [GetMarketInfo n; GetLogsTradeExecuted n; GetLogsFreeTokensClaimed n;
            GetEligibleWinners n
              (collectParticipants tradeEvents freeTokenEvents)]).
Proof.
  intros H Hmi Hr Hd Ht Hf Hps He. enter H. rewrite Hmi, Hr, Hd. simpl.
  rewrite Ht, Hf. simpl.
  destruct ((List.length tradeEvents =? 0)%nat
            && (List.length freeTokenEvents =? 0)%nat) eqn:Hempty.
  { apply andb_true_iff in Hempty. destruct Hempty as [H1 H2].
    apply Nat.eqb_eq in H1, H2.
    destruct tradeEvents, freeTokenEvents; try discriminate.
    now elim Hps. }
  destruct (collectParticipants tradeEvents freeTokenEvents) as [|p ps] eqn:Hc;
    [now elim Hps|].
  simpl. rewrite He. simpl. now rewrite <- !app_assoc.
Qed.

Lemma preview_POST_missing_marketId req parsed marketId tr :
  json req = Ok parsed -> prop parsed "marketId" = Ok marketId ->
  truthy marketId = false ->
  route req tr
  = (Ok {| status := 400; body := ErrorBody "Market ID is required" |}, tr).
Proof.
  intros Hjson Hprop Htruthy.
  unfold route, POST, try_catch, bind, lift, ret.
  now rewrite Hjson, Hprop, Htruthy.
Qed.

Lemma preview_POST_without_parameters req parsed e tr :
  json req = Ok parsed -> prop parsed "marketId" = Throw e ->
  route req tr = (Ok (failure e), tr).
Proof.
  intros Hjson Hprop. unfold route, POST, try_catch, bind, lift, ret.
  now rewrite Hjson, Hprop.
Qed.

Lemma preview_POST_unreadable req e tr :
  json req = Throw e -> route req tr = (Ok (failure e), tr).
Proof.
  intros Hjson. unfold route, POST, try_catch, bind, lift, ret.
  now rewrite Hjson.
Qed.

Lemma preview_POST_info_fails req n e tr :
  asksFor parseInt req n -> getMarketInfo n = Throw e ->
  route req tr = (Ok (failure e), tr ++ [GetMarketInfo n]).
Proof. intros H Hmi. enter H. now rewrite Hmi. Qed.

Lemma preview_POST_trades_fail req n mi e tr :
  asksFor parseInt req n -> getMarketInfo n = Ok mi ->
  resolved mi = true -> disputed mi = false ->
  tradeExecutedLogs n = Throw e ->
  route req tr
  = (Ok (failure e), tr ++ [GetMarketInfo n; GetLogsTradeExecuted n]).
Proof.
  intros H Hmi Hr Hd Ht. enter H. rewrite Hmi, Hr, Hd. simpl.
  rewrite Ht. simpl. now rewrite <- !app_assoc.
Qed.

Lemma preview_POST_claims_fail req n mi tradeEvents e tr :
  asksFor parseInt req n -> getMarketInfo n = Ok mi ->
  resolved mi = true -> disputed mi = false ->
  tradeExecutedLogs n = Ok tradeEvents ->
  freeTokensClaimedLogs n = Throw e ->
  route req tr
  = (Ok (failure e),
     tr ++ [GetMarketInfo n; GetLogsTradeExecuted n; GetLogsFreeTokensClaimed n]).
Proof.
  intros H Hmi Hr Hd Ht Hf. enter H. rewrite Hmi, Hr, Hd. simpl.
  rewrite Ht, Hf. simpl. now rewrite <- !app_assoc.
Qed.

Lemma preview_POST_eligibility_fails req n mi tradeEvents freeTokenEvents e tr :
  asksFor parseInt req n -> getMarketInfo n = Ok mi ->
  resolved mi = true -> disputed mi = false ->
  tradeExecutedLogs n = Ok tradeEvents ->
  freeTokensClaimedLogs n = Ok freeTokenEvents ->
  collectParticipants tradeEvents freeTokenEvents <> [] ->
  getEligibleWinners n (collectParticipants tradeEvents freeTokenEvents)
  = Throw e ->
  route req tr
  = (Ok (failure e),
     tr ++ [GetMarketInfo n; GetLogsTradeExecuted n; GetLogsFreeTokensClaimed n;
            GetEligibleWinners n
              (collectParticipants tradeEvents freeTokenEvents)]).
Proof.
  intros H Hmi Hr Hd Ht Hf Hps He. enter H. rewrite Hmi, Hr, Hd. simpl.
  rewrite Ht, Hf. simpl.
  destruct ((List.length tradeEvents =? 0)%nat
            && (List.length freeTokenEvents =? 0)%nat) eqn:Hempty.
  { apply andb_true_iff in Hempty. destruct Hempty as [H1 H2].
    apply Nat.eqb_eq in H1, H2.
    destruct tradeEvents, freeTokenEvents; try discriminate.
    now elim Hps. }
  destruct (collectParticipants tradeEvents freeTokenEvents) as [|p ps] eqn:Hc;
    [now elim Hps|].
  simpl. rewrite He. simpl. now rewrite <- !app_assoc.
Qed.


(** One token of 10^18 base units prints as 1. *)
Lemma formatAmount_one_token :
  Double.formatAmount shortest_digits 1000000000000000000 = "1".
Proof. vm_compute. reflexivity. Qed.

(** C3: the preconditions of the preview are checked in order and each
    failure ends the request with a 200 answer that explains it: a
    market that is not resolved gives the not-resolved message; else a
    disputed market gives the disputed message and no event is
    fetched; else a market without any trade or free-token-claim event
    gives the no-events message and the eligibility check is not
    called. *)
Theorem preview_preconditions_in_order req n mi tr :
  asksFor parseInt req n -> getMarketInfo n = Ok mi ->
  (resolved mi = false ->
   route req tr
   = (Ok {| status := 200;
            body := Preview [] [] 0 (Some 0%nat)
                      (Some "Market is not resolved yet. Cannot distribute winnings.") |},
      tr ++ [GetMarketInfo n]))
  /\
  (resolved mi = true -> disputed mi = true ->
   route req tr
   = (Ok {| status := 200;
            body := Preview [] [] 0 (Some 0%nat)
                      (Some "Market is disputed. Cannot distribute winnings.") |},
      tr ++ [GetMarketInfo n])
   /\ existsb is_event_fetch [GetMarketInfo n] = false)
  /\
  (resolved mi = true -> disputed mi = false ->
   tradeExecutedLogs n = Ok [] -> freeTokensClaimedLogs n = Ok [] ->
   route req tr
   = (Ok {| status := 200;
            body := Preview [] [] 0 (Some 0%nat)
                      (Some "No trade or free token events found for this market. This could mean the market has no participants yet.") |},
      tr ++ [GetMarketInfo n; GetLogsTradeExecuted n; GetLogsFreeTokensClaimed n])
   /\ existsb is_eligibility_check
        [GetMarketInfo n; GetLogsTradeExecuted n; GetLogsFreeTokensClaimed n]
      = false).
Proof.
  intros Hreq Hmi. split; [|split].
  - intros Hr. exact (preview_POST_not_resolved req n mi tr Hreq Hmi Hr).
  - intros Hr Hd. split; [|reflexivity].
    exact (preview_POST_disputed req n mi tr Hreq Hmi Hr Hd).
  - intros Hr Hd Ht Hf. split; [|reflexivity].
    exact (preview_POST_no_events req n mi tr Hreq Hmi Hr Hd Ht Hf).
Qed.

(** C2: on a resolved market that is not disputed, whose log holds one
    trade between two distinct non-zero addresses A and B and for which
    the eligibility check answers [A] and [10^18], the preview reports
    two participants, one eligible winner and the amount "1". *)
Theorem preview_of_one_trade req n mi A B tr :
  asksFor parseInt req n -> getMarketInfo n = Ok mi ->
  resolved mi = true -> disputed mi = false ->
  tradeExecutedLogs n = Ok [ {| buyer := Some A; seller := Some B |} ] ->
  freeTokensClaimedLogs n = Ok [] ->
  A <> EmptyString -> A <> zeroAddress ->
  B <> EmptyString -> B <> zeroAddress ->
  toLowerCase A <> toLowerCase B ->
  getEligibleWinners n [toLowerCase A; toLowerCase B]
  = Ok ([A], [1000000000000000000]) ->
  route req tr
  = (Ok {| status := 200; body := Preview [A] ["1"] 2 (Some 1%nat) None |},
     tr ++ [GetMarketInfo n; GetLogsTradeExecuted n; GetLogsFreeTokensClaimed n;
            GetEligibleWinners n [toLowerCase A; toLowerCase B]]).
Proof.
  intros Hreq Hmi Hr Hd Ht Hf HA HA0 HB HB0 HAB He.
  assert (Hps : collectParticipants [ {| buyer := Some A; seller := Some B |} ] []
                = [toLowerCase A; toLowerCase B]).
  { unfold collectParticipants, add_participant. simpl.
    apply String.eqb_neq in HA, HA0, HB, HB0. rewrite HA, HA0, HB, HB0. simpl.
    unfold set_add. simpl.
    assert (E : String.eqb (toLowerCase B) (toLowerCase A) = false)
      by (apply String.eqb_neq; congruence).
    now rewrite E. }
  pose proof (preview_POST_eligible req n mi _ _ [A] [1000000000000000000] tr
                Hreq Hmi Hr Hd Ht Hf) as Hpost.
  rewrite Hps in Hpost. simpl map in Hpost.
  rewrite formatAmount_one_token in Hpost.
  apply Hpost; [discriminate|exact He].
Qed.

(** C10: every address of a trade or free-token-claim event is
    lowercased before it joins the participant set: the participants
    are, without repetition, the lowercased non-empty non-zero
    addresses of the events, so addresses that differ only in letter
    case count once; that list is the one passed to the eligibility
    check and its length is [totalParticipants]; and with addresses
    as the client decodes them the zero address is not among them. *)
Theorem participants_are_lowercased tradeEvents freeTokenEvents :
  let participants := collectParticipants tradeEvents freeTokenEvents in
  let addresses := addressesOf tradeEvents freeTokenEvents in
  NoDup participants
  /\ (forall p, In p participants <->
                exists addr, In addr addresses /\ counted addr
                             /\ p = toLowerCase addr)
  /\ (forall a b, In a addresses -> In b addresses -> counted a ->
                  toLowerCase a = toLowerCase b ->
                  count_occ string_dec participants (toLowerCase b) = 1%nat)
  /\ (Forall decoded addresses -> ~ In zeroAddress participants)
  /\ (forall req n mi recipients amounts tr,
         asksFor parseInt req n -> getMarketInfo n = Ok mi ->
         resolved mi = true -> disputed mi = false ->
         tradeExecutedLogs n = Ok tradeEvents ->
         freeTokensClaimedLogs n = Ok freeTokenEvents ->
         participants <> [] ->
         getEligibleWinners n participants = Ok (recipients, amounts) ->
         route req tr
         = (Ok {| status := 200;
                  body := Preview recipients
                            (map (Double.formatAmount shortest_digits) amounts)
                            (List.length participants)
                            (Some (List.length recipients)) None |},
            tr ++ [GetMarketInfo n; GetLogsTradeExecuted n;
                   GetLogsFreeTokensClaimed n;
                   GetEligibleWinners n participants])).
Proof.
  intros participants addresses.
  pose proof (collectParticipants_NoDup tradeEvents freeTokenEvents) as Hnd.
  pose proof (fun p => collectParticipants_In p tradeEvents freeTokenEvents) as Hin.
  split; [exact Hnd|]. split; [exact Hin|]. split; [|split].
  - intros a b Ha Hb Hc Hab.
    apply NoDup_count_occ'; [exact Hnd|].
    apply Hin. exists a. rewrite Hab. auto.
  - intros Hdec Hz. apply Hin in Hz.
    destruct Hz as (addr & Haddr & (_ & Hnz) & Hl).
    apply Hnz, decoded_zero; [|now symmetry].
    rewrite Forall_forall in Hdec. now apply Hdec.
  - intros. now apply preview_POST_eligible with (mi := mi).
Qed.

End Route.

Lemma previewRequest_asksFor : asksFor sampleParseInt previewRequest 7.
Proof.
  exists (JObject [("marketId", JNumber 7)]), (JNumber 7).
  repeat split; try reflexivity. discriminate.
Defined.

Lemma preview_preconditions_sample :
  POST sampleParseInt noDigits (fun _ => Ok disputedInfo)
    (fun _ => Throw NotAnError) (fun _ => Throw NotAnError)
    (fun _ _ => Throw NotAnError) previewRequest []
  = (Ok {| status := 200;
           body := Preview [] [] 0 (Some 0%nat)
                     (Some "Market is disputed. Cannot distribute winnings.") |},
     [GetMarketInfo 7]).
Proof.
  exact (proj1 (proj1 (proj2 (preview_preconditions_in_order sampleParseInt noDigits
           (fun _ => Ok disputedInfo) (fun _ => Throw NotAnError)
           (fun _ => Throw NotAnError) (fun _ _ => Throw NotAnError)
           previewRequest 7 disputedInfo [] previewRequest_asksFor eq_refl))
           eq_refl eq_refl)).
Defined.

Lemma preview_of_one_trade_sample :
  POST sampleParseInt noDigits (fun _ => Ok sampleInfo)
    (fun _ => Ok [ {| buyer := Some alice; seller := Some bob |} ])
    (fun _ => Ok [])
    (fun _ _ => Ok ([alice], [1000000000000000000]))
    previewRequest []
  = (Ok {| status := 200; body := Preview [alice] ["1"] 2 (Some 1%nat) None |},
     [GetMarketInfo 7; GetLogsTradeExecuted 7; GetLogsFreeTokensClaimed 7;
      GetEligibleWinners 7 [toLowerCase alice; toLowerCase bob]]).
Proof.
  apply (preview_of_one_trade sampleParseInt noDigits (fun _ => Ok sampleInfo)
           (fun _ => Ok [ {| buyer := Some alice; seller := Some bob |} ])
           (fun _ => Ok [])
           (fun _ _ => Ok ([alice], [1000000000000000000]))
           previewRequest 7 sampleInfo alice bob [] previewRequest_asksFor);
    try reflexivity; discriminate.
Defined.

Example participants_sample :
  collectParticipants sampleTrades sampleClaims
  = [toLowerCase alice; toLowerCase bob].
Proof. vm_compute. reflexivity. Qed.

Lemma sample_addresses_decoded :
  Forall decoded (addressesOf sampleTrades sampleClaims).
Proof. repeat constructor. Qed.

Lemma participants_sample_without_zero :
  ~ In zeroAddress (collectParticipants sampleTrades sampleClaims).
Proof.
  exact (proj1 (proj2 (proj2 (proj2
           (participants_are_lowercased sampleParseInt noDigits
              (fun _ => Ok sampleInfo) (fun _ => Ok sampleTrades)
              (fun _ => Ok sampleClaims) (fun _ _ => Throw NotAnError)
              sampleTrades sampleClaims))))
           sample_addresses_decoded).
Defined.

End PreviewFacts.

(* ================================================================= *)
(** ** The analytics aggregator *)

Module AnalyticsFacts.
Import JS Eff Analytics EffFacts Samples.
Local Open Scope Q_scope.

Lemma Qlt_bool_iff a b : Qlt_bool a b = true <-> a < b.
Proof.
  unfold Qlt_bool. rewrite negb_true_iff.
  split.
  - intros H. apply Qnot_le_lt. intros Hle. apply Qle_bool_iff in Hle. congruence.
  - intros H. destruct (Qle_bool b a) eqn:E; [|reflexivity].
    apply Qle_bool_iff in E. lra.
Qed.

Lemma Math_round_bounds x :
  inject_Z (Math_round x) <= x + (1 # 2) /\ x - (1 # 2) < inject_Z (Math_round x).
Proof.
  unfold Math_round. pose proof (Qfloor_le (x + (1 # 2))).
  pose proof (Qlt_floor (x + (1 # 2))).
  rewrite inject_Z_plus in H0. change (inject_Z 1) with 1 in H0. split; lra.
Qed.

Lemma round3_range x : 0 <= x <= 1 -> 0 <= round3 x <= 1.
Proof.
  intros [H0 H1]. unfold round3.
  destruct (Math_round_bounds (x * 1000)) as [Hle Hlt].
  assert (Hz : (0 <= Math_round (x * 1000) <= 1000)%Z).
  { split.
    - assert (-1 < Math_round (x * 1000))%Z; [|lia].
      rewrite Zlt_Qlt. change (inject_Z (-1)) with (-1). lra.
    - assert (Math_round (x * 1000) < 1001)%Z; [|lia].
      rewrite Zlt_Qlt. change (inject_Z 1001) with 1001. lra. }
  destruct Hz as [Hz0 Hz1]. rewrite Zle_Qle in Hz0, Hz1.
  change (inject_Z 0) with 0 in Hz0. change (inject_Z 1000) with 1000 in Hz1.
  split.
  - apply Qle_shift_div_l; lra.
  - apply Qle_shift_div_r; lra.
Qed.

Lemma round3_inject x : round3 x == inject_Z (Math_round (x * 1000)) * (1 # 1000).
Proof. unfold round3. field. Qed.

(** The rounded shares of two volumes are prices, and add up to 1
    within a thousandth. *)
Lemma rounded_shares a b :
  0 <= a -> 0 <= b -> 0 < a + b ->
  (0 <= round3 (a / (a + b)) <= 1) /\
  (0 <= round3 (b / (a + b)) <= 1) /\
  Qabs (round3 (a / (a + b)) + round3 (b / (a + b)) - 1) <= 1 # 1000.
Proof.
  intros Ha Hb Hab.
  assert (Hp : 0 <= a / (a + b) <= 1).
  { split; [apply Qle_shift_div_l|apply Qle_shift_div_r]; lra. }
  assert (Hq : 0 <= b / (a + b) <= 1).
  { split; [apply Qle_shift_div_l|apply Qle_shift_div_r]; lra. }
  assert (Hsum : a / (a + b) + b / (a + b) == 1) by (field; lra).
  split; [now apply round3_range|]. split; [now apply round3_range|].
  destruct (Math_round_bounds (a / (a + b) * 1000)) as [Ha1 Ha2].
  destruct (Math_round_bounds (b / (a + b) * 1000)) as [Hb1 Hb2].
  rewrite !round3_inject.
  set (m := Math_round (a / (a + b) * 1000)) in *.
  set (n := Math_round (b / (a + b) * 1000)) in *.
  assert (Hz : (1000 <= m + n <= 1001)%Z).
  { split.
    - assert (999 < m + n)%Z; [|lia].
      rewrite Zlt_Qlt, inject_Z_plus. change (inject_Z 999) with 999. lra.
    - rewrite Zle_Qle, inject_Z_plus. change (inject_Z 1001) with 1001. lra. }
  destruct Hz as [Hz0 Hz1]. rewrite Zle_Qle, inject_Z_plus in Hz0, Hz1.
  change (inject_Z 1000) with 1000 in Hz0.
  change (inject_Z 1001) with 1001 in Hz1.
  apply Qabs_Qle_condition. split; lra.
Qed.

Lemma round3_half : round3 (1 # 2) == 1 # 2.
Proof. reflexivity. Qed.

Lemma clamp_range x :
  (1 # 20) <= Math_max (1 # 20) (Math_min (19 # 20) x) <= 19 # 20.
Proof.
  unfold Math_max, Math_min.
  destruct (Qle_bool (19 # 20) x) eqn:E1.
  - destruct (Qle_bool (1 # 20) (19 # 20)) eqn:E2; [lra|discriminate].
  - destruct (Qle_bool (1 # 20) x) eqn:E2.
    + apply Qle_bool_iff in E2.
      assert (~ (19 # 20) <= x).
      { intros H. apply Qle_bool_iff in H. congruence. }
      lra.
    + lra.
Qed.

Lemma round3_comp x y : x == y -> round3 x = round3 y.
Proof.
  intros H. unfold round3, Math_round.
  assert (E : Qfloor (x * 1000 + (1 # 2)) = Qfloor (y * 1000 + (1 # 2))).
  { apply Qfloor_comp. now rewrite H. }
  now rewrite E.
Qed.

(** *** Maps and sorting *)

Lemma map_get_set_same {V} k (v : V) m : map_get k (map_set k v m) = Some v.
Proof.
  induction m as [|[k' v'] m IH]; simpl.
  - now rewrite String.eqb_refl.
  - destruct (String.eqb k k') eqn:E; simpl; rewrite ?String.eqb_refl, ?E; auto.
Qed.

Lemma map_get_set_other {V} k k' (v : V) m :
  k <> k' -> map_get k' (map_set k v m) = map_get k' m.
Proof.
  intros Hne. induction m as [|[k0 v0] m IH]; simpl.
  - apply String.eqb_neq in Hne. rewrite String.eqb_sym in Hne. now rewrite Hne.
  - destruct (String.eqb k k0) eqn:E; simpl.
    + apply String.eqb_eq in E. subst k0.
      assert (E' : String.eqb k' k = false)
        by (apply String.eqb_neq; congruence).
      now rewrite E'.
    + destruct (String.eqb k' k0); auto.
Qed.



Lemma insert_by_In {A} (key : A -> Z) x y l :
  In y (insert_by key x l) <-> y = x \/ In y l.
Proof.
  induction l as [|z l IH]; simpl; [intuition|].
  destruct (key x <=? key z)%Z; simpl; rewrite ?IH; intuition.
Qed.

Lemma sort_by_In {A} (key : A -> Z) y l : In y (sort_by key l) <-> In y l.
Proof.
  induction l as [|x l IH]; simpl; [tauto|].
  rewrite insert_by_In, IH. intuition.
Qed.

Lemma insert_by_length {A} (key : A -> Z) x l :
  List.length (insert_by key x l) = S (List.length l).
Proof.
  induction l as [|z l IH]; simpl; [reflexivity|].
  destruct (key x <=? key z)%Z; simpl; congruence.
Qed.

Lemma sort_by_length {A} (key : A -> Z) l :
  List.length (sort_by key l) = List.length l.
Proof.
  induction l as [|x l IH]; simpl; [reflexivity|].
  now rewrite insert_by_length, IH.
Qed.

Lemma sort_by_Forall {A} (key : A -> Z) (P : A -> Prop) l :
  Forall P l -> Forall P (sort_by key l).
Proof.
  rewrite !Forall_forall. intros H x Hx. apply H. now apply sort_by_In in Hx.
Qed.


Lemma sort_by_nil {A} (key : A -> Z) l : sort_by key l = [] -> l = [].
Proof.
  intros H. apply (f_equal (@List.length A)) in H.
  rewrite sort_by_length in H. now destruct l.
Qed.

(** *** The price history *)





(** *** Grouping by day *)

Section Grouping.

Variable toISOString : Z -> string.




Lemma Date_toISOString_representable t :
  representable t -> Date_toISOString toISOString t = Ok (toISOString t).
Proof.
  unfold representable, Date_toISOString. intros H.
  apply Z.leb_le in H. now rewrite H.
Qed.





End Grouping.

(** *** The route *)

Section Route.

Variable StringToBigInt : string -> option Z.
Variable getLogs : Z -> res (list Log).
Variable getBlock : Z -> res Block.
Variable Date_now : nat -> Z.
Variable Math_random : nat -> Q.
Variable toISOString : Z -> string.
Variable Date_daysAgo : Z -> Z -> Z.



Lemma priceRows_mirror days : forall runA runB,
  map volumeRow days = map mirror (priceRows runA runB days).
Proof.
  induction days as [|[day data] days IH]; intros; simpl; [reflexivity|].
  now rewrite <- IH.
Qed.





(** *** The fallback *)

Lemma fallback_prices p :
  (1 # 20) <= p <= 19 # 20 ->
  goodPrices {| date := EmptyString; p_timestamp := 0;
                optionA := round3 p; optionB := round3 (1 - p);
                volume := 0; trades := 0 |}.
Proof.
  intros Hp. unfold goodPrices. cbn [optionA optionB].
  assert (Hsum : 0 < p + (1 - p)) by lra.
  destruct (rounded_shares p (1 - p)) as (Ha & Hb & Hab); try lra.
  assert (Ep : round3 (p / (p + (1 - p))) = round3 p)
    by (apply round3_comp; field; lra).
  assert (Eq : round3 ((1 - p) / (p + (1 - p))) = round3 (1 - p))
    by (apply round3_comp; field; lra).
  rewrite Ep, Eq in *. auto.
Qed.

Lemma fallbackDay_step i currentPriceA w :
  recentDaysRepresentable Date_now Date_daysAgo -> (0 <= i <= 7)%Z ->
  wp (fallbackDay Date_now Math_random toISOString Date_daysAgo i currentPriceA)
     (fun step _ => fallbackStep step) (fun _ _ => False) w.
Proof.
  intros Hdays Hi. unfold fallbackDay, wp, bind, now, random, lift, ret,
    Date_toISODate. simpl.
  rewrite (Date_toISOString_representable _ _ (Hdays _ _ Hi)).
  unfold fallbackStep.
  set (p := Math_max _ _).
  assert (Hp : (1 # 20) <= p <= 19 # 20) by apply clamp_range.
  split; [exact Hp|]. split; [|reflexivity].
  exact (fallback_prices p Hp).
Qed.

Lemma fallbackLoop_histories indices :
  recentDaysRepresentable Date_now Date_daysAgo ->
  Forall (fun i => (0 <= i <= 7)%Z) indices ->
  forall currentPriceA priceHistory volumeHistory w,
    Forall goodPrices priceHistory ->
    volumeHistory = map mirror priceHistory ->
    wp (fallbackLoop Date_now Math_random toISOString Date_daysAgo indices
          currentPriceA priceHistory volumeHistory)
       (fun histories _ =>
          List.length (fst histories)
          = (List.length priceHistory + List.length indices)%nat
          /\ Forall goodPrices (fst histories)
          /\ snd histories = map mirror (fst histories))
       (fun _ _ => False) w.
Proof.
  intros Hdays. induction 1 as [|i indices Hi _ IH];
    intros currentPriceA priceHistory volumeHistory w Hgood Hmirror; simpl.
  - apply wp_ret. simpl. auto.
  - apply wp_bind. wp_use fallbackDay_step; auto.
    intros [[p row] bucket] w1 (Hp & Hrow & Hbucket). simpl.
    eapply wp_conseq; [apply IH| |auto].
    + apply Forall_app. auto.
    + rewrite map_app. simpl. congruence.
    + intros histories w2 (Hlen & Hg & Hm). rewrite Hlen, length_app. simpl.
      repeat split; auto. lia.
Qed.

Lemma countdown_range n :
  Forall (fun i => (0 <= i <= Z.of_nat n)%Z) (countdown n).
Proof.
  induction n as [|n IH].
  - repeat constructor; simpl; lia.
  - change (countdown (S n)) with (Z.of_nat (S n) :: countdown n).
    constructor; [lia|].
    eapply Forall_impl; [|exact IH]. simpl. intros. lia.
Qed.

Lemma generateFallbackAnalytics_series w :
  clockRepresentable Date_now -> recentDaysRepresentable Date_now Date_daysAgo ->
  wp (generateFallbackAnalytics Date_now Math_random toISOString Date_daysAgo)
     (fun a _ =>
        List.length (priceHistory a) = 8%nat
        /\ Forall goodPrices (priceHistory a)
        /\ volumeHistory a = map mirror (priceHistory a))
     (fun _ _ => False) w.
Proof.
  intros Hclock Hdays. unfold generateFallbackAnalytics.
  apply wp_bind.
  eapply wp_conseq;
    [apply fallbackLoop_histories;
       [exact Hdays|exact (countdown_range 7)|constructor|reflexivity]
    | |auto].
  intros [priceHistory volumeHistory] w1 (Hlen & Hgood & Hmirror). simpl in *.
  unfold wp, bind, random, now, lift, ret. simpl.
  rewrite (Date_toISOString_representable _ _ (Hclock _)). simpl. auto.
Qed.


(** *** The changes over the last day *)

(** C7: with at least two buckets the 24h volume change is
    (last - previous) / previous when the previous volume is not zero,
    1 when it is zero and the last volume is positive, 0 when both are
    zero, and the 24h price change is the last optionA price minus the
    previous one; with fewer than two buckets both changes are 0; the
    analytics of a list of events report these two values. *)
Theorem changes_over_the_last_day :
  (forall older previous latest,
      let history := older ++ [previous; latest] in
      (~ v_volume previous == 0 ->
       calculateVolumeChange history
       = (v_volume latest - v_volume previous) / v_volume previous)
      /\ (v_volume previous == 0 -> 0 < v_volume latest ->
          calculateVolumeChange history = 1)
      /\ (v_volume previous == 0 -> v_volume latest == 0 ->
          calculateVolumeChange history = 0))
  /\ (forall older previous latest,
         calculatePriceChange (older ++ [previous; latest])
         = optionA latest - optionA previous)
  /\ (forall history, (List.length history < 2)%nat ->
                      calculateVolumeChange history = 0)
  /\ (forall history, (List.length history < 2)%nat ->
                      calculatePriceChange history = 0)
  /\ (forall events w a w',
         aggregate Date_now toISOString events w = (Ok a, w') ->
         priceChange24h a = calculatePriceChange (priceHistory a)
         /\ volumeChange24h a = calculateVolumeChange (volumeHistory a)).
Proof.
  split; [|split; [|split; [|split]]].
  - intros older previous latest history. unfold history, calculateVolumeChange.
    rewrite rev_app_distr. simpl. repeat split.
    + intros Hnz. destruct (Qeq_bool (v_volume previous) 0) eqn:E; [|reflexivity].
      apply Qeq_bool_iff in E. contradiction.
    + intros Hz Hpos. apply Qeq_bool_iff in Hz. rewrite Hz.
      apply Qlt_bool_iff in Hpos. now rewrite Hpos.
    + intros Hz Hz'. apply Qeq_bool_iff in Hz. rewrite Hz.
      destruct (Qlt_bool 0 (v_volume latest)) eqn:E; [|reflexivity].
      apply Qlt_bool_iff in E. lra.
  - intros older previous latest. unfold calculatePriceChange.
    rewrite rev_app_distr. reflexivity.
  - intros history Hlen. unfold calculateVolumeChange.
    destruct (rev history) as [|x [|y rest]] eqn:E; try reflexivity.
    apply (f_equal (@List.length _)) in E. rewrite length_rev in E.
    simpl in E. lia.
  - intros history Hlen. unfold calculatePriceChange.
    destruct (rev history) as [|x [|y rest]] eqn:E; try reflexivity.
    apply (f_equal (@List.length _)) in E. rewrite length_rev in E.
    simpl in E. lia.
  - intros events w a w'. unfold aggregate, bind, lift, ret, now.
    destruct (groupByDay toISOString events emptyGrouping) as [g|]; [|discriminate].
    simpl. destruct (Date_toISOString toISOString _); [|discriminate].
    intros H. injection H as <- _. split; reflexivity.
Qed.

(** *** The two handlers *)

Lemma analytics_GET_without_marketId q w :
  nonEmpty (q_marketId q) = None ->
  GET StringToBigInt getLogs getBlock Date_now Math_random toISOString
    Date_daysAgo q w
  = (Ok {| status := 400; body := ErrorBody "Market ID is required" |}, w).
Proof.
  intros H. unfold GET, try_catch. now rewrite H.
Qed.


(** With a clock and recent days a [Date] can hold, the GET handler
    always answers: 400 without a market id, and with one 200 and
    analytics, those of the fallback when the computation fails. *)
Lemma analytics_GET_answers q w :
  clockRepresentable Date_now -> recentDaysRepresentable Date_now Date_daysAgo ->
  wp (GET StringToBigInt getLogs getBlock Date_now Math_random toISOString
        Date_daysAgo q)
     (fun r _ =>
        match nonEmpty (q_marketId q) with
        | None =>
            r = {| status := 400; body := ErrorBody "Market ID is required" |}
        | Some _ => status r = 200%Z /\ exists a, body r = AnalyticsBody a
        end)
     (fun _ _ => False) w.
Proof.
  intros Hclock Hdays.
  set (P := fun (r : response) (_ : world) =>
              status r = 200%Z /\ exists a, body r = AnalyticsBody a).
  assert (Hfresh : forall marketId timeRange cacheKey w0 Q,
            (forall e s, Q e s : Prop) ->
            wp (fresh StringToBigInt getLogs getBlock Date_now Math_random
                  toISOString Date_daysAgo marketId timeRange cacheKey)
               P Q w0).
  { intros. unfold fresh.
    apply wp_bind_any; [intros analytics s1|auto].
    apply wp_bind_any; [intros t1 s2|auto].
    apply wp_bind_any; [intros t2 s3|auto].
    apply wp_bind_any; [intros u s4|auto].
    apply wp_ret. split; [reflexivity|eexists; reflexivity]. }
  assert (Hcatch : forall (e : exn) (s : world),
            wp (bind (generateFallbackAnalytics Date_now Math_random toISOString
                        Date_daysAgo)
                  (fun fallbackAnalytics =>
                     ret {| status := 200;
                            body := AnalyticsBody fallbackAnalytics |}))
               P (fun _ _ => False) s).
  { intros. apply wp_bind.
    wp_use (generateFallbackAnalytics_series s Hclock Hdays).
    intros a s' _. apply wp_ret. split; [reflexivity|eexists; reflexivity]. }
  unfold GET. apply wp_try_catch.
  destruct (nonEmpty (q_marketId q)) as [marketId|];
    [|apply wp_ret; reflexivity].
  fold P.
  apply wp_bind_any; [|exact Hcatch].
  intros [[data cachedAt]|] s1; [|apply Hfresh; exact Hcatch].
  apply wp_bind_any; [|exact Hcatch].
  intros t s2. destruct (t - cachedAt <? CACHE_DURATION)%Z;
    [apply wp_ret; split; [reflexivity|eexists; reflexivity]
    |apply Hfresh; exact Hcatch].
Qed.

(** When the computation of the analytics fails, the answer carries
    the fallback series made where the failure left off. *)
Lemma analytics_GET_fallback q marketId e w w1 :
  clockRepresentable Date_now -> recentDaysRepresentable Date_now Date_daysAgo ->
  nonEmpty (q_marketId q) = Some marketId ->
  map_get (marketId ++ "-" ++ match nonEmpty (q_timeRange q) with
                              | Some r => r
                              | None => "7d"
                              end)%string (analyticsCache w) = None ->
  calculateMarketAnalytics StringToBigInt getLogs getBlock Date_now Math_random
    toISOString Date_daysAgo marketId w = (Throw e, w1) ->
  exists a w',
    generateFallbackAnalytics Date_now Math_random toISOString Date_daysAgo w1
    = (Ok a, w')
    /\ GET StringToBigInt getLogs getBlock Date_now Math_random toISOString
         Date_daysAgo q w
       = (Ok {| status := 200; body := AnalyticsBody a |}, w')
    /\ List.length (priceHistory a) = 8%nat.
Proof.
  intros Hclock Hdays Hid Hmiss Hcalc.
  pose proof (generateFallbackAnalytics_series w1 Hclock Hdays) as Hf.
  unfold wp in Hf.
  destruct (generateFallbackAnalytics Date_now Math_random toISOString
              Date_daysAgo w1) as [[a|e'] w'] eqn:Ea; [|contradiction].
  exists a, w'. split; [reflexivity|]. split; [|apply Hf].
  unfold GET, try_catch. rewrite Hid.
  unfold bind at 1, cache_get. rewrite Hmiss.
  unfold fresh, bind at 1. rewrite Hcalc.
  unfold bind. now rewrite Ea.
Qed.

Lemma analytics_POST_without_marketId parsedBody marketId w :
  prop parsedBody "marketId" = Ok marketId -> truthy marketId = false ->
  POST (Ok parsedBody) w
  = (Ok {| status := 400; body := ErrorBody "Market ID is required" |}, w).
Proof.
  intros Hprop Htruthy. unfold POST, try_catch, bind, lift, ret.
  now rewrite Hprop, Htruthy.
Qed.

Lemma analytics_POST_without_parameters parsedBody e w :
  prop parsedBody "marketId" = Throw e ->
  POST (Ok parsedBody) w
  = (Ok {| status := 500; body := ErrorBody "Internal server error" |}, w).
Proof.
  intros Hprop. unfold POST, try_catch, bind, lift, ret. now rewrite Hprop.
Qed.

Lemma analytics_POST_unreadable_body e w :
  POST (Throw e) w
  = (Ok {| status := 500; body := ErrorBody "Internal server error" |}, w).
Proof. reflexivity. Qed.

End Route.


Lemma sample_blocks_representable : blocksRepresentable sampleBlock.
Proof.
  intros b block H. unfold sampleBlock in H.
  assert (E : block = {| block_timestamp := 1767225600 + 86400 * (b mod 3) |})
    by congruence.
  rewrite E. unfold representable, maxTime. cbn [block_timestamp].
  pose proof (Z.mod_pos_bound b 3). lia.
Qed.






Lemma volume_change_sample :
  calculateVolumeChange [day 0; day 50] = 1.
Proof.
  apply (proj1 (proj2 (proj1 (changes_over_the_last_day sampleClock sampleISO)
                         [] (day 0) (day 50)))).
  - reflexivity.
  - reflexivity.
Defined.

End AnalyticsFacts.

(* ================================================================= *)
(** ** The price history in binary64 *)

Module Analytics64Facts.
Import JS Eff Binary64 Analytics64 EffFacts Samples.
Local Open Scope float_scope.

(** *** Sorting *)

Lemma insert_by_sorted {A} (key : A -> Z) x l :
  StronglySorted (fun a b => (key a <= key b)%Z) l ->
  StronglySorted (fun a b => (key a <= key b)%Z) (Analytics.insert_by key x l).
Proof.
  induction 1 as [|y l Hs IH Hy]; simpl.
  - repeat constructor.
  - destruct (key x <=? key y)%Z eqn:E.
    + apply Z.leb_le in E. constructor; [now constructor|].
      constructor; [exact E|].
      eapply Forall_impl; [|exact Hy]. cbv beta. intros. lia.
    + apply Z.leb_gt in E. constructor; [exact IH|].
      apply Forall_forall. intros z Hz.
      apply AnalyticsFacts.insert_by_In in Hz. destruct Hz as [-> |Hz]; [lia|].
      rewrite Forall_forall in Hy. now apply Hy.
Qed.

Lemma sort_by_sorted {A} (key : A -> Z) l :
  StronglySorted (fun a b => (key a <= key b)%Z) (Analytics.sort_by key l).
Proof.
  induction l as [|x l IH]; simpl; [constructor|].
  now apply insert_by_sorted.
Qed.



Lemma sorted_map {A} (key : A -> Z) l :
  StronglySorted (fun a b => (key a <= key b)%Z) l ->
  StronglySorted Z.le (map key l).
Proof.
  induction 1 as [|x l Hs IH Hx]; simpl; constructor; [exact IH|].
  apply Forall_forall. intros k Hk. apply in_map_iff in Hk.
  destruct Hk as (y & <- & Hy). rewrite Forall_forall in Hx. now apply Hx.
Qed.


(** *** The rows *)





(** *** Grouping by day *)

Section Grouping.

Variable toISOString : Z -> string.








End Grouping.

(** *** The route *)

Section Route.

Variable StringToBigInt : string -> option Z.
Variable getLogs : Z -> res (list Analytics.Log).
Variable getBlock : Z -> res Analytics.Block.
Variable Date_now : nat -> Z.
Variable toISOString : Z -> string.

(** An event as [getMarketEvents] makes it of a log: a purchase at
    the time of a block. *)
Lemma eventOfLog_purchase log w :
  wp (eventOfLog getBlock log)
     (fun events _ =>
        Forall (fun e => eventType e = Analytics.SharesPurchased
                         /\ exists b block,
                              getBlock b = Ok block
                              /\ timestamp e
                                 = (Analytics.block_timestamp block * 1000)%Z)
               events)
     (fun _ _ => True) w.
Proof.
  unfold eventOfLog. apply wp_bind, wp_lift.
  destruct (getBlock (Analytics.log_blockNumber log)) as [block|] eqn:Hb;
    [|exact I].
  destruct (Analytics.log_args log) as [args|]; apply wp_ret;
    repeat constructor.
  exists (Analytics.log_blockNumber log), block. auto.
Qed.

Lemma getMarketEvents_purchases marketId w :
  wp (getMarketEvents StringToBigInt getLogs getBlock marketId)
     (fun events _ =>
        Forall (fun e => eventType e = Analytics.SharesPurchased
                         /\ exists b block,
                              getBlock b = Ok block
                              /\ timestamp e
                                 = (Analytics.block_timestamp block * 1000)%Z)
               events)
     (fun _ _ => False) w.
Proof.
  unfold getMarketEvents. apply wp_try_catch, wp_bind, wp_lift.
  destruct (parsed StringToBigInt marketId) as [id|];
    [|apply wp_ret; constructor].
  apply wp_bind, wp_lift.
  destruct (getLogs id) as [shareLogs|]; [|apply wp_ret; constructor].
  apply wp_bind.
  eapply wp_conseq;
    [apply (wp_forEach
              (fun e => eventType e = Analytics.SharesPurchased
                        /\ exists b block,
                             getBlock b = Ok block
                             /\ timestamp e
                                = (Analytics.block_timestamp block * 1000)%Z)
              (fun _ _ => True))| |].
  - intros log s. apply eventOfLog_purchase.
  - constructor.
  - intros events s Hev. apply wp_ret.
    now apply AnalyticsFacts.sort_by_Forall.
  - intros e s _. apply wp_ret. constructor.
Qed.

(** The events read from a log whose blocks show times a [Date] can
    hold: purchases, at such times. *)
Lemma events_of_the_log_qualify marketId w events w1 :
  Analytics.blocksRepresentable getBlock ->
  getMarketEvents StringToBigInt getLogs getBlock marketId w = (Ok events, w1) ->
  events <> [] ->
  Forall (fun e => Analytics.representable (timestamp e)) events
  /\ exists e, In e events /\ eventType e = Analytics.SharesPurchased.
Proof.
  intros Hblocks Hevents Hne.
  pose proof (getMarketEvents_purchases marketId w) as Hfrom.
  unfold wp in Hfrom. rewrite Hevents in Hfrom. split.
  - eapply Forall_impl; [|exact Hfrom].
    intros e (_ & b & block & Hb & ->). eapply Hblocks; eauto.
  - destruct events as [|e events]; [now elim Hne|].
    exists e. split; [now left|].
    inversion Hfrom as [|? ? [He _] _]; subst. exact He.
Qed.


End Route.

End Analytics64Facts.

Module Analytics64Samples.
Import JS Eff Binary64 Analytics64 Samples Samples64.
Local Open Scope float_scope.



(** The sample history: the first day is all A, then B has three
    quarters, then both have half. *)
Example price_history_sample_values :
  pricesOf sampleLogs = [(1, 0); (0.25, 0.75); (0.5, 0.5)].
Proof. vm_compute. reflexivity. Qed.


(** The share 1001/2000 is not 0.5005 in binary64 but the Number
    below it, so the price is 0.5 and not 0.501. *)
Example price_of_a_share_below_a_tie :
  pricesOf closeLogs = [(0.5, 0.5)]
  /\ (1001 / 2000 * 1000 <? 500.5) = true.
Proof. vm_compute. split; reflexivity. Qed.

End Analytics64Samples.

(* ================================================================= *)
(** ** The current-price route *)

Module CurrentPriceFacts.
Import JS Eff Binary64 CurrentPrice EffFacts Samples.

Section Route.

Variable StringToBigInt : string -> option Z.
Variable StringToNumber : string -> float.
Variable getMarketInfo : Z -> res jsval.
Variable latestLogs : Z -> res (list Analytics.Log).
Variable getBlock : Z -> res Analytics.Block.
Variable Date_now : nat -> Z.
Variable Math_random : nat -> float.

(** The mock data are made of the clock and of the random source
    alone: nothing in them throws. *)
Lemma mockData_returns w :
  wp (mockData Date_now Math_random) (fun _ _ => True) (fun _ _ => False) w.
Proof. exact I. Qed.

(** Whatever the contract, the logs and the blocks answer,
    [getCurrentMarketPrice] returns price data. *)
Lemma getCurrentMarketPrice_returns marketId w :
  wp (getCurrentMarketPrice StringToBigInt StringToNumber getMarketInfo
        latestLogs getBlock Date_now Math_random marketId)
     (fun _ _ => True) (fun _ _ => False) w.
Proof.
  unfold getCurrentMarketPrice. apply wp_try_catch.
  unfold wp at 1.
  destruct (bind _ _ w) as [[data|e] w1]; [exact I|].
  apply mockData_returns.
Qed.

Lemma price_GET_without_marketId marketId w :
  Analytics.nonEmpty marketId = None ->
  GET StringToBigInt StringToNumber getMarketInfo latestLogs getBlock Date_now
    Math_random marketId w
  = (Ok {| status := 400; body := ErrorBody "Market ID is required" |}, w).
Proof.
  intros H. unfold GET, try_catch. now rewrite H.
Qed.

(** With a market id the route answers 200 with price data, from the
    cache, from the chain or made up. *)
Lemma price_GET_with_marketId marketId id w :
  Analytics.nonEmpty marketId = Some id ->
  exists data w',
    GET StringToBigInt StringToNumber getMarketInfo latestLogs getBlock
      Date_now Math_random marketId w
    = (Ok {| status := 200; body := PriceBody data |}, w').
Proof.
  intros H.
  assert (Hfresh : forall w0,
            exists data w',
              fresh StringToBigInt StringToNumber getMarketInfo latestLogs
                getBlock Date_now Math_random id w0
              = (Ok {| status := 200; body := PriceBody data |}, w')).
  { intros w0. unfold fresh, bind at 1.
    pose proof (getCurrentMarketPrice_returns id w0) as Hp. unfold wp in Hp.
    destruct (getCurrentMarketPrice _ _ _ _ _ _ _ id w0) as [[data|e] w1];
      [|contradiction].
    eexists _, _. reflexivity. }
  unfold GET, try_catch. rewrite H. unfold bind at 1, cache_get.
  destruct (Analytics.map_get id (priceCache w)) as [[data lastUpdated]|].
  - unfold bind at 1, now.
    destruct (_ <? CACHE_DURATION)%Z.
    + eexists _, _. reflexivity.
    + destruct (Hfresh {| priceCache := priceCache w; tick := S (tick w) |})
        as (d & w' & E).
      rewrite E. eauto.
  - destruct (Hfresh w) as (d & w' & E). rewrite E. eauto.
Qed.

End Route.

End CurrentPriceFacts.

(* ================================================================= *)
(** ** The event-to-entity mapper *)

Module MapperFacts.
Import Mapper Samples.

Lemma same_row_refl k row : same_row k (id row) (k, row) = true.
Proof.
  unfold same_row, kind_eqb, bytes_eqb. simpl. rewrite String.eqb_refl.
  destruct (list_eq_dec Byte.byte_eq_dec (id row) (id row)); [reflexivity|].
  now elim n.
Qed.

Lemma store_set_twice k row store :
  store_set k row (store_set k row store) = store_set k row store.
Proof.
  induction store as [|r store IH]; simpl.
  - now rewrite same_row_refl.
  - destruct (same_row k (id row) r) eqn:E; simpl.
    + now rewrite same_row_refl.
    + now rewrite E, IH.
Qed.

Lemma store_get_set k row store :
  store_get k (id row) (store_set k row store) = Some row.
Proof.
  induction store as [|r store IH]; simpl.
  - now rewrite same_row_refl.
  - destruct (same_row k (id row) r) eqn:E; simpl.
    + now rewrite same_row_refl.
    + now rewrite E.
Qed.

Lemma copyParams_returns ps names :
  (forall name, In name names -> param name ps <> None) ->
  exists copied, copyParams names ps = Some copied.
Proof.
  induction names as [|n names IH]; intros H; simpl; [eauto|].
  destruct (param n ps) as [v|] eqn:E; [|now elim (H n (or_introl eq_refl))].
  destruct IH as [rest Hrest]; [intros; apply H; now right|].
  rewrite Hrest. eauto.
Qed.

Lemma copyParams_copies ps names : forall copied,
  copyParams names ps = Some copied ->
  map fst copied = names
  /\ forall name, In name names -> param name copied = param name ps.
Proof.
  induction names as [|n names IH]; intros copied H; simpl in H.
  - injection H as <-. split; [reflexivity|]. intros ? [].
  - destruct (param n ps) as [v|] eqn:E; [|discriminate].
    destruct (copyParams names ps) as [rest|]; [|discriminate].
    injection H as <-. destruct (IH rest eq_refl) as [IH1 IH2].
    split; [simpl; congruence|].
    intros name Hin. simpl.
    destruct (String.eqb name n) eqn:En.
    + apply String.eqb_eq in En. congruence.
    + destruct Hin as [->|Hin]; [now rewrite String.eqb_refl in En|auto].
Qed.

(** C8: for an event whose log index fits an [i32] and that carries
    every declared parameter, a handler writes one row: its identifier
    is the transaction hash followed by the four bytes of the log
    index, its fields are the declared parameters with their values,
    and block number, block timestamp and transaction hash are those
    of the envelope; handling the same event again leaves the store
    as it is. *)
Theorem handler_writes_one_row (k : kind) (event : Event) (store : Store) :
  - 2 ^ 31 <= logIndex event < 2 ^ 31 ->
  (forall name, In name (declared k) -> param name (parameters event) <> None) ->
  exists row,
    handle k event store = Some (store_set k row store)
    /\ id row = transaction_hash event ++ fromI32 (logIndex event)
    /\ List.length (fromI32 (logIndex event)) = 4%nat
    /\ map fst (data row) = declared k
    /\ (forall name, In name (declared k) ->
                     param name (data row) = param name (parameters event))
    /\ blockNumber row = block_number event
    /\ blockTimestamp row = block_timestamp event
    /\ transactionHash row = transaction_hash event
    /\ store_get k (id row) (store_set k row store) = Some row
    /\ handle k event [] = Some [(k, row)]
    /\ handle k event (store_set k row store) = Some (store_set k row store).
Proof.
  intros [Hlo Hhi] Hparams.
  destruct (copyParams_returns _ _ Hparams) as [copied Hcopied].
  destruct (copyParams_copies _ _ _ Hcopied) as [Hnames Hvalues].
  assert (Hfit : toI32 (logIndex event) = Some (logIndex event)).
  { unfold toI32. apply Z.leb_le in Hlo. apply Z.ltb_lt in Hhi.
    now rewrite Hlo, Hhi. }
  unfold handle. rewrite Hfit, Hcopied.
  set (row := {| id := concatI32 (transaction_hash event) (logIndex event);
                 data := copied;
                 blockNumber := block_number event;
                 blockTimestamp := block_timestamp event;
                 transactionHash := transaction_hash event |}).
  exists row.
  split; [reflexivity|]. split; [reflexivity|]. split; [reflexivity|].
  split; [exact Hnames|]. split; [exact Hvalues|].
  split; [reflexivity|]. split; [reflexivity|]. split; [reflexivity|].
  split; [apply store_get_set|]. split; [reflexivity|].
  f_equal. apply store_set_twice.
Qed.

Lemma handleClaimed_sample :
  exists row,
    handleClaimed sampleEvent [] = Some [(Claimed, row)]
    /\ id row = [Byte.xab; Byte.xcd; Byte.xef;
                 Byte.x03; Byte.x00; Byte.x00; Byte.x00].
Proof.
  destruct (handler_writes_one_row Claimed sampleEvent []) as (row & H).
  - unfold sampleEvent. cbn [logIndex]. lia.
  - intros name [<- |[<- |[<- |[]]]]; discriminate.
  - exists row. split; [apply H|]. destruct H as (_ & Hid & _).
    rewrite Hid. reflexivity.
Defined.

End MapperFacts.

(* ================================================================= *)
(** ** What the endpoints answer when something is missing or fails *)

Module EndpointFacts.
Import JS Eff Rpc EffFacts Samples Samples64.

(** C9, as stated, fails: when the read of the market count fails, the
    scan is over and admin-auto-discover answers 200 with no
    withdrawal, not 500. *)
Lemma scan_failure_is_not_a_500 :
  AdminAutoDiscover.POST noStringToBigInt (Throw unavailable)
    (fun _ => Throw unavailable) adminRequest []
  = (Ok {| AdminAutoDiscover.status := 200;
           AdminAutoDiscover.body := AdminAutoDiscover.noWithdrawals |},
     [MarketCount])
  /\ 200 <> 500.
Proof. split; [reflexivity|discriminate]. Qed.

(** A block stamped beyond the range of [Date] makes the computation
    of the analytics fail; the GET handler answers the fallback. *)
Example analytics_GET_of_a_block_out_of_range :
  fst (Analytics.calculateMarketAnalytics sampleStringToBigInt sampleLogs
         farBlock sampleClock sampleRandom sampleISO sampleDaysAgo "1"
         freshWorld)
  = Throw Analytics.RangeError
  /\ match Analytics.GET sampleStringToBigInt sampleLogs farBlock sampleClock
             sampleRandom sampleISO sampleDaysAgo queryOfMarket1 freshWorld with
     | (Ok {| Analytics.status := status;
              Analytics.body := Analytics.AnalyticsBody a |}, _) =>
         status = 200 /\ List.length (Analytics.priceHistory a) = 8%nat
     | _ => False
     end.
Proof. vm_compute. repeat split; reflexivity. Qed.

(** With no chain to read, the current-price route makes its data
    up: for a random source at 0.25 the prices are 0.4 and 0.6. *)
Example price_GET_of_an_unavailable_chain :
  match CurrentPrice.GET sampleStringToBigInt noNumber
          (fun _ => Throw unavailable) (fun _ => Throw unavailable)
          (fun _ => Throw unavailable) sampleClock quarter (Some "1")
          freshPrices with
  | (Ok {| CurrentPrice.status := status;
           CurrentPrice.body := CurrentPrice.PriceBody data |}, w) =>
      status = 200
      /\ CurrentPrice.currentPriceA data = (400 / 1000)%float
      /\ CurrentPrice.currentPriceB data = (600 / 1000)%float
      /\ CurrentPrice.totalShares data = 3500%float
      /\ List.length (CurrentPrice.priceCache w) = 1%nat
  | _ => False
  end.
Proof. vm_compute. repeat split; reflexivity. Qed.

(** C9 (amended): each endpoint answers 400 when its required
    parameter is missing (userAddress for admin-auto-discover,
    marketId for the preview, for the two analytics handlers and for
    the current-price route); a body that is [null] has no parameter
    to miss and is answered 500.  The preview answers 500 with the
    message of the error when the body cannot be read or when a
    contract read or a log query fails; admin-auto-discover and the
    analytics POST answer 500 when the body cannot be read.  A failure
    of a contract read during the admin-withdrawal scan is caught by
    the scan: with a user address the endpoint answers 200, and when
    the read of the market count fails the answer lists no withdrawal.
    With a clock and recent days a [Date] can hold, the analytics GET
    always answers, 200 with analytics when it has a market id, and
    when the computation fails these are the fallback series.  The
    current-price route answers 200 with price data whenever it has a
    market id, whatever the chain answers. *)
Theorem what_the_endpoints_answer :
  (forall StringToBigInt marketCount readContract req parsed userAddress tr,
      AdminAutoDiscover.json req = Ok parsed ->
      prop parsed "userAddress" = Ok userAddress ->
      truthy userAddress = false ->
      AdminAutoDiscover.POST StringToBigInt marketCount readContract req tr
      = (Ok {| AdminAutoDiscover.status := 400;
               AdminAutoDiscover.body :=
                 AdminAutoDiscover.ErrorBody "User address is required" |},
         tr))
  /\
  (forall parseInt shortest_digits getMarketInfo tradeExecutedLogs
          freeTokensClaimedLogs getEligibleWinners req parsed marketId tr,
      PreviewBatchDistribution.json req = Ok parsed ->
      prop parsed "marketId" = Ok marketId ->
      truthy marketId = false ->
      PreviewBatchDistribution.POST parseInt shortest_digits getMarketInfo
        tradeExecutedLogs freeTokensClaimedLogs getEligibleWinners req tr
      = (Ok {| PreviewBatchDistribution.status := 400;
               PreviewBatchDistribution.body :=
                 PreviewBatchDistribution.ErrorBody "Market ID is required" |},
         tr))
  /\
  (forall StringToBigInt getLogs getBlock Date_now Math_random toISOString
          Date_daysAgo q w,
      Analytics.nonEmpty (Analytics.q_marketId q) = None ->
      Analytics.GET StringToBigInt getLogs getBlock Date_now Math_random
        toISOString Date_daysAgo q w
      = (Ok {| Analytics.status := 400;
               Analytics.body := Analytics.ErrorBody "Market ID is required" |},
         w))
  /\
  (forall parsed marketId w,
      prop parsed "marketId" = Ok marketId -> truthy marketId = false ->
      Analytics.POST (Ok parsed) w
      = (Ok {| Analytics.status := 400;
               Analytics.body := Analytics.ErrorBody "Market ID is required" |},
         w))
  /\
  (forall StringToBigInt marketCount readContract req e tr,
      AdminAutoDiscover.json req = Throw e ->
      AdminAutoDiscover.POST StringToBigInt marketCount readContract req tr
      = (Ok {| AdminAutoDiscover.status := 500;
               AdminAutoDiscover.body :=
                 AdminAutoDiscover.ErrorBody
                   ("Failed to auto-discover admin withdrawals: "
                    ++ errorMessage e)%string |},
         tr))
  /\
  (forall e w,
      Analytics.POST (Throw e) w
      = (Ok {| Analytics.status := 500;
               Analytics.body := Analytics.ErrorBody "Internal server error" |},
         w))
  /\
  (forall parseInt shortest_digits getMarketInfo tradeExecutedLogs
          freeTokensClaimedLogs getEligibleWinners req tr,
      let route :=
        PreviewBatchDistribution.POST parseInt shortest_digits getMarketInfo
          tradeExecutedLogs freeTokensClaimedLogs getEligibleWinners in
      let failure := PreviewBatchDistribution.failure in
      (forall e, PreviewBatchDistribution.json req = Throw e ->
                 route req tr = (Ok (failure e), tr))
      /\
      (forall n, PreviewBatchDistribution.asksFor parseInt req n ->
         (forall e, getMarketInfo n = Throw e ->
                    route req tr = (Ok (failure e), tr ++ [GetMarketInfo n]))
         /\
         (forall mi, getMarketInfo n = Ok mi ->
            PreviewBatchDistribution.resolved mi = true ->
            PreviewBatchDistribution.disputed mi = false ->
            (forall e, tradeExecutedLogs n = Throw e ->
                       route req tr
                       = (Ok (failure e),
                          tr ++ [GetMarketInfo n; GetLogsTradeExecuted n]))
            /\
            (forall tradeEvents, tradeExecutedLogs n = Ok tradeEvents ->
               (forall e, freeTokensClaimedLogs n = Throw e ->
                          route req tr
                          = (Ok (failure e),
                             tr ++ [GetMarketInfo n; GetLogsTradeExecuted n;
                                    GetLogsFreeTokensClaimed n]))
               /\
               (forall freeTokenEvents e,
                   freeTokensClaimedLogs n = Ok freeTokenEvents ->
                   let participants :=
                     PreviewBatchDistribution.collectParticipants tradeEvents
                       freeTokenEvents in
                   participants <> [] ->
                   getEligibleWinners n participants = Throw e ->
                   route req tr
                   = (Ok (failure e),
                      tr ++ [GetMarketInfo n; GetLogsTradeExecuted n;
                             GetLogsFreeTokensClaimed n;
                             GetEligibleWinners n participants]))))))
  /\
  (forall StringToBigInt readContract e req parsed userAddress tr,
      AdminAutoDiscover.json req = Ok parsed ->
      prop parsed "userAddress" = Ok userAddress ->
      truthy userAddress = true ->
      AdminAutoDiscover.POST StringToBigInt (Throw e) readContract req tr
      = (Ok {| AdminAutoDiscover.status := 200;
               AdminAutoDiscover.body := AdminAutoDiscover.noWithdrawals |},
         tr ++ [MarketCount]))
  /\
  (forall StringToBigInt marketCount readContract req parsed userAddress tr,
      AdminAutoDiscover.json req = Ok parsed ->
      prop parsed "userAddress" = Ok userAddress ->
      truthy userAddress = true ->
      exists r tr',
        AdminAutoDiscover.POST StringToBigInt marketCount readContract req tr
        = (Ok r, tr')
        /\ AdminAutoDiscover.status r = 200)
  /\
  (forall StringToBigInt getLogs getBlock Date_now Math_random toISOString
          Date_daysAgo q marketId w,
      Analytics.clockRepresentable Date_now ->
      Analytics.recentDaysRepresentable Date_now Date_daysAgo ->
      Analytics.nonEmpty (Analytics.q_marketId q) = Some marketId ->
      exists a w',
        Analytics.GET StringToBigInt getLogs getBlock Date_now Math_random
          toISOString Date_daysAgo q w
        = (Ok {| Analytics.status := 200;
                 Analytics.body := Analytics.AnalyticsBody a |}, w'))
  /\
  (forall StringToBigInt getLogs getBlock Date_now Math_random toISOString
          Date_daysAgo q marketId e w w1,
      Analytics.clockRepresentable Date_now ->
      Analytics.recentDaysRepresentable Date_now Date_daysAgo ->
      Analytics.nonEmpty (Analytics.q_marketId q) = Some marketId ->
      Analytics.map_get
        (marketId ++ "-" ++ match Analytics.nonEmpty (Analytics.q_timeRange q) with
                            | Some r => r
                            | None => "7d"
                            end)%string (Analytics.analyticsCache w) = None ->
      Analytics.calculateMarketAnalytics StringToBigInt getLogs getBlock
        Date_now Math_random toISOString Date_daysAgo marketId w
      = (Throw e, w1) ->
      exists a w',
        Analytics.generateFallbackAnalytics Date_now Math_random toISOString
          Date_daysAgo w1 = (Ok a, w')
        /\ Analytics.GET StringToBigInt getLogs getBlock Date_now Math_random
             toISOString Date_daysAgo q w
           = (Ok {| Analytics.status := 200;
                    Analytics.body := Analytics.AnalyticsBody a |}, w')
        /\ List.length (Analytics.priceHistory a) = 8%nat)
  /\
  (forall StringToBigInt marketCount readContract req parsed e tr,
      AdminAutoDiscover.json req = Ok parsed ->
      prop parsed "userAddress" = Throw e ->
      AdminAutoDiscover.POST StringToBigInt marketCount readContract req tr
      = (Ok {| AdminAutoDiscover.status := 500;
               AdminAutoDiscover.body :=
                 AdminAutoDiscover.ErrorBody
                   ("Failed to auto-discover admin withdrawals: "
                    ++ errorMessage e)%string |},
         tr))
  /\
  (forall parseInt shortest_digits getMarketInfo tradeExecutedLogs
          freeTokensClaimedLogs getEligibleWinners req parsed e tr,
      PreviewBatchDistribution.json req = Ok parsed ->
      prop parsed "marketId" = Throw e ->
      PreviewBatchDistribution.POST parseInt shortest_digits getMarketInfo
        tradeExecutedLogs freeTokensClaimedLogs getEligibleWinners req tr
      = (Ok (PreviewBatchDistribution.failure e), tr))
  /\
  (forall parsed e w,
      prop parsed "marketId" = Throw e ->
      Analytics.POST (Ok parsed) w
      = (Ok {| Analytics.status := 500;
               Analytics.body := Analytics.ErrorBody "Internal server error" |},
         w))
  /\
  (prop JNull "userAddress" = Throw TypeError
   /\ prop JNull "marketId" = Throw TypeError)
  /\
  (forall StringToBigInt StringToNumber getMarketInfo latestLogs getBlock
          Date_now Math_random marketId w,
      Analytics.nonEmpty marketId = None ->
      CurrentPrice.GET StringToBigInt StringToNumber getMarketInfo latestLogs
        getBlock Date_now Math_random marketId w
      = (Ok {| CurrentPrice.status := 400;
               CurrentPrice.body :=
                 CurrentPrice.ErrorBody "Market ID is required" |}, w))
  /\
  (forall StringToBigInt StringToNumber getMarketInfo latestLogs getBlock
          Date_now Math_random marketId id w,
      Analytics.nonEmpty marketId = Some id ->
      exists data w',
        CurrentPrice.GET StringToBigInt StringToNumber getMarketInfo latestLogs
          getBlock Date_now Math_random marketId w
        = (Ok {| CurrentPrice.status := 200;
                 CurrentPrice.body := CurrentPrice.PriceBody data |}, w')).
Proof.
  split; [|split; [|split; [|split; [|split; [|split; [|split; [|split;
    [|split; [|split; [|split; [|split; [|split; [|split; [|split;
    [|split]]]]]]]]]]]]]]].
  - intros. eapply AdminFacts.admin_POST_without_address; eauto.
  - intros. eapply PreviewFacts.preview_POST_missing_marketId; eauto.
  - intros. now apply AnalyticsFacts.analytics_GET_without_marketId.
  - intros. eapply AnalyticsFacts.analytics_POST_without_marketId; eauto.
  - intros. now apply AdminFacts.admin_POST_unreadable_body.
  - intros. apply AnalyticsFacts.analytics_POST_unreadable_body.
  - intros parseInt shortest_digits getMarketInfo tradeExecutedLogs
      freeTokensClaimedLogs getEligibleWinners req tr route failure.
    split.
    + intros e He. now apply PreviewFacts.preview_POST_unreadable.
    + intros n Hn. split.
      * intros e He. now apply PreviewFacts.preview_POST_info_fails.
      * intros mi Hmi Hr Hd. split.
        -- intros e He.
           now apply PreviewFacts.preview_POST_trades_fail with (mi := mi).
        -- intros tradeEvents Ht. split.
           ++ intros e He.
              now apply PreviewFacts.preview_POST_claims_fail
                with (mi := mi) (tradeEvents := tradeEvents).
           ++ intros freeTokenEvents e Hf participants Hps He.
              now apply PreviewFacts.preview_POST_eligibility_fails
                with (mi := mi).
  - intros. eapply AdminFacts.admin_POST_when_count_fails; eauto.
  - intros. eapply AdminFacts.admin_POST_with_address; eauto.
  - intros StringToBigInt getLogs getBlock Date_now Math_random toISOString
      Date_daysAgo q marketId w Hclock Hdays Hid.
    pose proof (AnalyticsFacts.analytics_GET_answers StringToBigInt getLogs
                  getBlock Date_now Math_random toISOString Date_daysAgo q w
                  Hclock Hdays) as H.
    unfold wp in H. rewrite Hid in H.
    destruct (Analytics.GET _ _ _ _ _ _ _ q w) as [[[status body]|e] w'];
      [|contradiction].
    destruct H as [Hstatus [a Hbody]]. simpl in Hstatus, Hbody. subst.
    now exists a, w'.
  - intros. eapply AnalyticsFacts.analytics_GET_fallback; eauto.
  - intros. eapply AdminFacts.admin_POST_without_parameters; eauto.
  - intros. eapply PreviewFacts.preview_POST_without_parameters; eauto.
  - intros. eapply AnalyticsFacts.analytics_POST_without_parameters; eauto.
  - split; reflexivity.
  - intros. now apply CurrentPriceFacts.price_GET_without_marketId.
  - intros. eapply CurrentPriceFacts.price_GET_with_marketId; eauto.
Qed.

Lemma preview_failure_sample :
  PreviewBatchDistribution.POST sampleParseInt noDigits
    (fun _ => Throw unavailable) (fun _ => Throw unavailable)
    (fun _ => Throw unavailable) (fun _ _ => Throw unavailable)
    previewRequest []
  = (Ok {| PreviewBatchDistribution.status := 500;
           PreviewBatchDistribution.body :=
             PreviewBatchDistribution.ErrorBody
               "Failed to auto-preview distribution: HTTP request failed." |},
     [GetMarketInfo 7]).
Proof.
  exact (proj1 (proj2 (proj1 (proj2 (proj2 (proj2 (proj2 (proj2 (proj2
           what_the_endpoints_answer))))))
           sampleParseInt noDigits (fun _ => Throw unavailable)
           (fun _ => Throw unavailable) (fun _ => Throw unavailable)
           (fun _ _ => Throw unavailable) previewRequest [])
           7 PreviewFacts.previewRequest_asksFor) unavailable eq_refl).
Defined.

End EndpointFacts.

(* ================================================================= *)
(** * Further properties *)

(** ** Computations that only append to the trace *)

Module ReadsFacts.
Import JS Eff Rpc Reads EffFacts.

Lemma appends_ret {A} (a : A) : appends (ret a).
Proof. intros tr. unfold ret, outcome, reads. simpl. now rewrite app_nil_r. Qed.

Lemma appends_throw {A} e : appends (@throw trace A e).
Proof. intros tr. unfold throw, outcome, reads. simpl. now rewrite app_nil_r. Qed.

Lemma appends_lift {A} (r : res A) : appends (lift r).
Proof. intros tr. unfold lift, outcome, reads. simpl. now rewrite app_nil_r. Qed.

Lemma appends_request {A} c (answer : res A) : appends (Rpc.request c answer).
Proof. intros tr. reflexivity. Qed.

Lemma appends_bind {A B} (m : M trace A) (k : A -> M trace B) :
  appends m -> (forall a, appends (k a)) -> appends (bind m k).
Proof.
  intros Hm Hk tr. unfold outcome, reads, bind.
  rewrite (Hm tr), (Hm []). simpl.
  destruct (outcome m) as [a|e]; [|reflexivity].
  rewrite (Hk a (tr ++ reads m)), (Hk a (reads m)). simpl.
  now rewrite app_assoc.
Qed.

Lemma appends_try_catch {A} (m : M trace A) (h : exn -> M trace A) :
  appends m -> (forall e, appends (h e)) -> appends (try_catch m h).
Proof.
  intros Hm Hh tr. unfold outcome, reads, try_catch.
  rewrite (Hm tr), (Hm []). simpl.
  destruct (outcome m) as [a|e]; [reflexivity|].
  rewrite (Hh e (tr ++ reads m)), (Hh e (reads m)). simpl.
  now rewrite app_assoc.
Qed.

Lemma appends_forEach {X W} (body : X -> M trace (list W)) :
  (forall x, appends (body x)) ->
  forall xs acc, appends (forEach xs body acc).
Proof.
  intros Hbody xs. induction xs as [|x xs IH]; intros acc; simpl.
  - apply appends_ret.
  - apply appends_bind; auto.
Qed.

(** A loop whose turns append and return: its result is the items of
    the turns, in order, and so are its reads. *)
Lemma forEach_items {X W} (body : X -> M trace (list W)) :
  (forall x, appends (body x)) ->
  (forall x, exists ws, outcome (body x) = Ok ws) ->
  forall xs acc tr,
    forEach xs body acc tr
    = (Ok (acc ++ flat_map (fun x => items (body x)) xs),
       tr ++ flat_map (fun x => reads (body x)) xs).
Proof.
  intros Happ Hret xs. induction xs as [|x xs IH]; intros acc tr; simpl.
  - unfold ret. now rewrite !app_nil_r.
  - unfold bind. rewrite (Happ x tr). unfold items.
    destruct (Hret x) as [ws Hws]. rewrite Hws.
    rewrite IH. now rewrite !app_assoc.
Qed.

Lemma outcome_items {W} (m : M trace (list W)) tr :
  appends m -> (exists ws, outcome m = Ok ws) ->
  m tr = (Ok (items m), tr ++ reads m).
Proof.
  intros Happ [ws Hws]. rewrite (Happ tr). unfold items. now rewrite Hws.
Qed.

(** What a specification proved for every trace says of the items. *)
Lemma wp_items {W} (m : M trace (list W)) (P : list W -> Prop) :
  wp m (fun ws _ => P ws) (fun _ _ => False) [] -> P (items m).
Proof.
  unfold wp, items, outcome. destruct (m []) as [[ws|e] s]; simpl; tauto.
Qed.

Lemma wp_returns {W} (m : M trace (list W)) (P : list W -> Prop) :
  wp m (fun ws _ => P ws) (fun _ _ => False) [] -> exists ws, outcome m = Ok ws.
Proof.
  unfold wp, outcome. destruct (m []) as [[ws|e] s]; simpl; [eauto|tauto].
Qed.

End ReadsFacts.

(* ================================================================= *)
(** ** The scan, market by market *)

Module ScanFacts.
Import JS Eff Rpc AdminAutoDiscover EffFacts Reads ReadsFacts ScanReading Samples
  ScanSamples.

Lemma zrange_shift len : forall n a,
  map (fun k => a + Z.of_nat k) (seq n len)
  = map (fun k => a + Z.of_nat n + Z.of_nat k) (seq 0 len).
Proof.
  induction len as [|len IH]; intros n a; simpl; [reflexivity|].
  f_equal; [lia|].
  rewrite (IH (S n) a), (IH 1%nat (a + Z.of_nat n)).
  apply map_ext. intros k. lia.
Qed.

Lemma zrange_app a b c :
  a <= b <= c -> zrange a b ++ zrange b c = zrange a c.
Proof.
  intros H. unfold zrange.
  replace (Z.to_nat (c - a)) with (Z.to_nat (b - a) + Z.to_nat (c - b))%nat
    by lia.
  rewrite seq_app, map_app. f_equal. simpl.
  rewrite (zrange_shift _ (Z.to_nat (b - a)) a). apply map_ext. intros k. lia.
Qed.

Lemma zrange_empty a b : b <= a -> zrange a b = [].
Proof.
  intros H. unfold zrange. now replace (Z.to_nat (b - a)) with 0%nat by lia.
Qed.

(** The batches, one after the other, are the markets below the count. *)
Lemma batches_concat n :
  flat_map (fun s => zrange s (Z.min (s + batchSize) n)) (zsteps batchSize n)
  = zrange 0 n.
Proof.
  unfold zsteps, batchSize.
  set (K := Z.to_nat ((n + 10 - 1) / 10)).
  assert (Hstep : forall j, (j <= K)%nat ->
            flat_map (fun s => zrange s (Z.min (s + 10) n))
              (map (fun k => 10 * Z.of_nat k) (seq 0 j))
            = zrange 0 (Z.min (10 * Z.of_nat j) n)).
  { induction j as [|j IH]; intros Hj.
    - simpl. symmetry. apply zrange_empty. lia.
    - rewrite seq_S, map_app, flat_map_app, IH by lia.
      cbn [map flat_map Nat.add]. rewrite app_nil_r.
      assert (Hlt : 10 * Z.of_nat j < n).
      { assert (Z.of_nat j < (n + 10 - 1) / 10) by (unfold K in Hj; lia).
        pose proof (Z.mul_div_le (n + 10 - 1) 10). lia. }
      rewrite (Z.min_l (10 * Z.of_nat j) n) by lia.
      rewrite zrange_app by lia. f_equal. lia. }
  rewrite Hstep by lia.
  destruct (Z.le_gt_cases n 0) as [Hn|Hn].
  - rewrite !zrange_empty; [reflexivity|lia|lia].
  - f_equal. apply Z.min_r. unfold K.
    rewrite Z2Nat.id by (apply Z.div_pos; lia).
    pose proof (Z.mod_pos_bound (n + 10 - 1) 10).
    pose proof (Z.div_mod (n + 10 - 1) 10). lia.
Qed.

Lemma flat_map_nested {A B C} (f : B -> list C) (g : A -> list B) l :
  flat_map f (flat_map g l) = flat_map (fun x => flat_map f (g x)) l.
Proof.
  induction l as [|x l IH]; simpl; [reflexivity|].
  now rewrite flat_map_app, IH.
Qed.

Ltac appends_tac :=
  repeat first
    [ apply appends_ret | apply appends_throw | apply appends_lift
    | apply appends_request | apply appends_try_catch | apply appends_bind
    | match goal with
      | |- forall _, _ => intro
      | |- appends (if ?b then _ else _) => destruct b
      | |- appends (match ?x with _ => _ end) => destruct x
      end ].

(** A [try] whose [catch] returns: the outcome is a value. *)
Lemma try_catch_returns {A} (m : M trace A) (d : A) :
  exists a, outcome (try_catch m (fun _ => ret d)) = Ok a.
Proof.
  unfold outcome, try_catch, ret. destruct (m []) as [[a|e] s]; simpl; eauto.
Qed.

Section Scan.

Variable StringToBigInt : string -> option Z.
Variable readContract : call -> res jsval.

Let checkOne := checkMarket StringToBigInt readContract.
Let found := marketWithdrawals StringToBigInt readContract.
Let readsOf := marketReads StringToBigInt readContract.

Lemma checkAdminLiquidity_appends m q :
  appends (checkAdminLiquidity StringToBigInt readContract m q).
Proof. unfold checkAdminLiquidity, read. appends_tac. Qed.

Lemma checkPrizePool_appends m q r :
  appends (checkPrizePool StringToBigInt readContract m q r).
Proof.
  unfold checkPrizePool, checkIfFreeMarket, getUnusedPrizePool, read.
  appends_tac.
Qed.

Lemma checkLPRewards_appends m u q :
  appends (checkLPRewards StringToBigInt readContract m u q).
Proof. unfold checkLPRewards, read. appends_tac. Qed.

Lemma checkMarket_appends userAddress m : appends (checkOne userAddress m).
Proof.
  unfold checkOne, checkMarket, read.
  apply appends_try_catch; [|intro; apply appends_ret].
  apply appends_bind; [apply appends_request|]. intros marketInfo.
  destruct (negb (truthy marketInfo)); [apply appends_ret|].
  do 4 (apply appends_bind; [apply appends_lift|intro]).
  apply appends_bind.
  - destruct (String.eqb _ _); [|apply appends_ret].
    apply appends_bind; [apply checkAdminLiquidity_appends|intro].
    apply appends_bind; [apply checkPrizePool_appends|intro].
    apply appends_ret.
  - intro. apply appends_bind; [|intro; apply appends_ret].
    destruct userAddress; try apply appends_throw.
    apply checkLPRewards_appends.
Qed.

Lemma checkMarket_run userAddress m tr :
  checkOne userAddress m tr
  = (Ok (found userAddress m), tr ++ readsOf userAddress m).
Proof.
  apply outcome_items; [apply checkMarket_appends|].
  apply try_catch_returns.
Qed.

Lemma checkMarketBatchForAdmin_run userAddress startId endId tr :
  checkMarketBatchForAdmin StringToBigInt readContract userAddress startId endId tr
  = (Ok (flat_map (found userAddress) (zrange startId endId)),
     tr ++ flat_map (readsOf userAddress) (zrange startId endId)).
Proof.
  unfold checkMarketBatchForAdmin.
  rewrite forEach_items.
  - reflexivity.
  - intro. apply checkMarket_appends.
  - intro. apply try_catch_returns.
Qed.

Lemma discoverAdminWithdrawals_run userAddress n tr :
  discoverAdminWithdrawals StringToBigInt (Ok n) readContract userAddress tr
  = (Ok (flat_map (found userAddress) (zrange 0 n)),
     tr ++ MarketCount :: flat_map (readsOf userAddress) (zrange 0 n)).
Proof.
  unfold discoverAdminWithdrawals, try_catch, bind at 1, Rpc.request.
  destruct (n =? 0) eqn:Hn.
  - apply Z.eqb_eq in Hn. subst n. reflexivity.
  - set (body := fun startId : Z =>
           try_catch
             (checkMarketBatchForAdmin StringToBigInt readContract userAddress
                startId (Z.min (startId + batchSize) n))
             (fun _ => ret [])).
    assert (Hbody : forall s t,
              body s t
              = (Ok (flat_map (found userAddress)
                       (zrange s (Z.min (s + batchSize) n))),
                 t ++ flat_map (readsOf userAddress)
                        (zrange s (Z.min (s + batchSize) n)))).
    { intros s t. unfold body, try_catch.
      now rewrite checkMarketBatchForAdmin_run. }
    assert (Happ : forall s, appends (body s)).
    { intros s t. rewrite Hbody. unfold outcome, reads.
      now rewrite (Hbody s []). }
    rewrite (forEach_items body Happ)
      by (intro; apply try_catch_returns).
    simpl. rewrite <- app_assoc. simpl.
    rewrite <- batches_concat, !flat_map_nested.
    f_equal; [f_equal|f_equal; f_equal].
    + apply flat_map_ext. intros s. unfold items, outcome.
      now rewrite (Hbody s []).
    + apply flat_map_ext. intros s. unfold reads.
      now rewrite (Hbody s []).
Qed.

(** *** The three checks of one market *)

Ltac run_check :=
  unfold items, reads, outcome, try_catch, bind, read, Rpc.request, lift, ret;
  cbn [fst snd app].

Lemma checkAdminLiquidity_reads m q :
  reads (checkAdminLiquidity StringToBigInt readContract m q)
  = [GetMarketFinancials m].
Proof.
  unfold checkAdminLiquidity. run_check.
  destruct (readContract (GetMarketFinancials m)) as [mf|e]; [|reflexivity].
  destruct (truthy mf); [|reflexivity].
  destruct (JS.BigInt _ _) as [a|e]; [|reflexivity].
  now destruct (_ && _).
Qed.

Lemma checkAdminLiquidity_found m q w :
  In w (items (checkAdminLiquidity StringToBigInt readContract m q)) ->
  items (checkAdminLiquidity StringToBigInt readContract m q) = [w]
  /\ marketId w = m /\ type w = adminLiquidity
  /\ adminLiquidityDue StringToBigInt readContract m (amount w).
Proof.
  unfold checkAdminLiquidity. run_check.
  destruct (readContract (GetMarketFinancials m)) as [mf|e] eqn:Hmf;
    [|intros []].
  destruct (truthy mf) eqn:Ht; [|intros []].
  destruct (JS.BigInt _ _) as [a|e] eqn:Ha; [|intros []].
  destruct (negb _) eqn:Hc; [|intros []].
  destruct (a >? 0) eqn:Hpos; [|intros []].
  intros [<- |[]]. cbn. repeat split.
  exists mf. unfold numberAt, claimedOf. apply negb_true_iff in Hc.
  repeat split; auto. lia.
Qed.

Lemma checkAdminLiquidity_due m q amount :
  adminLiquidityDue StringToBigInt readContract m amount ->
  items (checkAdminLiquidity StringToBigInt readContract m q)
  = [ {| marketId := m; amount := amount; type := adminLiquidity;
         description := describe "Admin liquidity for market " q |} ].
Proof.
  intros (mf & Hmf & Ht & Ha & Hc & Hpos).
  unfold checkAdminLiquidity. run_check.
  unfold numberAt in Ha. unfold claimedOf in Hc.
  rewrite Hmf, Ht, Ha, Hc. cbn.
  apply Z.gtb_lt in Hpos. now rewrite Hpos.
Qed.

Lemma checkLPRewards_reads m u q :
  reads (checkLPRewards StringToBigInt readContract m u q) = [GetLPInfo m u].
Proof.
  unfold checkLPRewards. run_check.
  destruct (readContract (GetLPInfo m u)) as [li|e]; [|reflexivity].
  destruct (truthy li); [|reflexivity].
  destruct (JS.BigInt _ _) as [a|e]; [|reflexivity].
  destruct (JS.BigInt _ _) as [b|e]; [|reflexivity].
  now destruct (_ && _).
Qed.

Lemma checkLPRewards_found m u q w :
  In w (items (checkLPRewards StringToBigInt readContract m u q)) ->
  items (checkLPRewards StringToBigInt readContract m u q) = [w]
  /\ marketId w = m /\ type w = lpRewards
  /\ lpRewardsDue StringToBigInt readContract u m (amount w).
Proof.
  unfold checkLPRewards. run_check.
  destruct (readContract (GetLPInfo m u)) as [li|e] eqn:Hli; [|intros []].
  destruct (truthy li) eqn:Ht; [|intros []].
  destruct (JS.BigInt _ (nullish (index li 0) _)) as [c|e] eqn:Hc;
    [|intros []].
  destruct (JS.BigInt _ (nullish (index li 2) _)) as [a|e] eqn:Ha;
    [|intros []].
  destruct (negb _) eqn:Hcl; [|intros []].
  destruct (a >? 0) eqn:Hpos; [|intros []].
  intros [<- |[]]. cbn. repeat split.
  exists li, c. unfold numberAt, estimatedRewardsOf.
  apply negb_true_iff in Hcl. repeat split; auto. lia.
Qed.

Lemma checkLPRewards_due m u q amount :
  lpRewardsDue StringToBigInt readContract u m amount ->
  items (checkLPRewards StringToBigInt readContract m u q)
  = [ {| marketId := m; amount := amount; type := lpRewards;
         description := describe "LP rewards for market " q |} ].
Proof.
  intros (li & c & Hli & Ht & Hc & Hcl & Ha & Hpos).
  unfold checkLPRewards. run_check.
  unfold numberAt in Hc. unfold estimatedRewardsOf in Ha.
  rewrite Hli, Ht, Hc, Ha, Hcl. cbn.
  apply Z.gtb_lt in Hpos. now rewrite Hpos.
Qed.

Lemma checkPrizePool_reads m q resolved :
  reads (checkPrizePool StringToBigInt readContract m q resolved)
  = GetFreeMarketInfo m
    :: (if freeMarket readContract m && resolved then [GetFreeMarketInfo m]
        else []).
Proof.
  unfold checkPrizePool, checkIfFreeMarket, getUnusedPrizePool, freeMarket.
  run_check.
  destruct (readContract (GetFreeMarketInfo m)) as [fm|e]; [|reflexivity].
  destruct (truthy fm); [|reflexivity].
  destruct resolved; [|reflexivity]. cbn.
  repeat (destruct (JS.BigInt _ _) as [?|?]; [|reflexivity]).
  destruct (truthy (index fm 4)); cbn; [reflexivity|].
  now destruct (_ >? 0).
Qed.

Lemma checkPrizePool_found m q resolved w :
  In w (items (checkPrizePool StringToBigInt readContract m q resolved)) ->
  items (checkPrizePool StringToBigInt readContract m q resolved) = [w]
  /\ marketId w = m /\ type w = prizePool.
Proof.
  unfold checkPrizePool, checkIfFreeMarket, getUnusedPrizePool.
  run_check.
  destruct (readContract (GetFreeMarketInfo m)) as [fm|e]; [|intros []].
  destruct (truthy fm); [|intros []].
  destruct resolved; [|intros []]. cbn.
  destruct (JS.BigInt _ (nullish (index fm 0) _)) as [?|?]; [|intros []].
  destruct (JS.BigInt _ (nullish (index fm 1) _)) as [?|?]; [|intros []].
  destruct (JS.BigInt _ (nullish (index fm 2) _)) as [?|?]; [|intros []].
  destruct (JS.BigInt _ (nullish (index fm 3) _)) as [?|?]; [|intros []].
  destruct (truthy (index fm 4)); cbn [fst snd]; [intros []|].
  set (v := if _ >? 0 then _ else 0).
  destruct (v >? 0); [|intros []].
  intros [<- |[]]. repeat split.
Qed.

Lemma checkPrizePool_finds m q fm maxP tpp cur total :
  readContract (GetFreeMarketInfo m) = Ok fm -> truthy fm = true ->
  prizePoolWithdrawnOf fm = false ->
  numberAt StringToBigInt 0 fm = Ok maxP ->
  numberAt StringToBigInt 1 fm = Ok tpp ->
  numberAt StringToBigInt 2 fm = Ok cur ->
  numberAt StringToBigInt 3 fm = Ok total ->
  0 < maxP * tpp - cur * tpp ->
  items (checkPrizePool StringToBigInt readContract m q true)
  = [ {| marketId := m; amount := maxP * tpp - cur * tpp; type := prizePool;
         description := describe "Unused prize pool for free market " q |} ].
Proof.
  unfold numberAt, prizePoolWithdrawnOf.
  intros Hfm Ht Hw H0 H1 H2 H3 Hpos.
  unfold checkPrizePool, checkIfFreeMarket, getUnusedPrizePool.
  run_check. rewrite Hfm, Ht. cbn. rewrite H0, H1, H2, H3, Hw. cbn.
  apply Z.gtb_lt in Hpos. now rewrite !Hpos.
Qed.

(** *** One market *)

Lemma checkPrizePool_returns m q resolved :
  exists ws,
    outcome (checkPrizePool StringToBigInt readContract m q resolved) = Ok ws.
Proof.
  eapply wp_returns.
  apply (AdminFacts.checkPrizePool_due StringToBigInt readContract m q resolved).
Qed.

Lemma forCreator_run m q resolved tr :
  bind (checkAdminLiquidity StringToBigInt readContract m q)
    (fun a =>
       bind (checkPrizePool StringToBigInt readContract m q resolved)
         (fun b => ret (a ++ b))) tr
  = (Ok (items (checkAdminLiquidity StringToBigInt readContract m q)
         ++ items (checkPrizePool StringToBigInt readContract m q resolved)),
     tr ++ GetMarketFinancials m
        :: reads (checkPrizePool StringToBigInt readContract m q resolved)).
Proof.
  unfold bind at 1.
  rewrite (outcome_items _ tr (checkAdminLiquidity_appends m q))
    by apply try_catch_returns.
  unfold bind at 1.
  rewrite (outcome_items _ _ (checkPrizePool_appends m q resolved))
    by apply checkPrizePool_returns.
  unfold ret. now rewrite checkAdminLiquidity_reads, <- app_assoc.
Qed.

Lemma checkMarket_readable u m mi :
  infoReadable StringToBigInt readContract m mi ->
  found (JString u) m
  = forCreatorOf StringToBigInt readContract u m mi
    ++ items (checkLPRewards StringToBigInt readContract m u (questionOf mi))
  /\ readsOf (JString u) m
     = GetMarketInfo m :: creatorReads readContract u m mi ++ [GetLPInfo m u].
Proof.
  intros (Hmi & Ht & [endTime H2] & [optionCount H4] & [winning H9]).
  unfold numberAt in H2, H4, H9.
  assert (Hrun : checkOne (JString u) m []
                 = (Ok (forCreatorOf StringToBigInt readContract u m mi
                        ++ items (checkLPRewards StringToBigInt readContract m u
                                    (questionOf mi))),
                    GetMarketInfo m
                    :: creatorReads readContract u m mi ++ [GetLPInfo m u])).
  { unfold checkOne, checkMarket, try_catch.
    unfold bind at 1, read at 1, Rpc.request. rewrite Hmi, Ht.
    cbn [negb app].
    unfold bind at 1, lift at 1. rewrite H2.
    unfold bind at 1, lift at 1. rewrite H4.
    unfold bind at 1, lift at 1. rewrite H9.
    unfold bind at 1, lift at 1. cbn [toLowerCase_of].
    fold (creatorOf mi) (questionOf mi) (resolvedOf mi) (createdBy u mi).
    unfold forCreatorOf, creatorReads. unfold bind at 1.
    destruct (createdBy u mi).
    - rewrite forCreator_run. unfold bind at 1.
      rewrite (outcome_items _ _ (checkLPRewards_appends m u (questionOf mi)))
        by apply try_catch_returns.
      unfold ret. rewrite checkLPRewards_reads, checkPrizePool_reads.
      cbn [app]. now rewrite <- app_assoc.
    - unfold ret at 1. unfold bind at 1.
      rewrite (outcome_items _ _ (checkLPRewards_appends m u (questionOf mi)))
        by apply try_catch_returns.
      unfold ret. now rewrite checkLPRewards_reads. }
  unfold found, readsOf, marketWithdrawals, marketReads, items, reads, outcome.
  fold checkOne. now rewrite Hrun.
Qed.

(** A market whose info cannot be read, or a caller that is not a
    string: nothing is found, and the info is all that is read. *)
Lemma checkMarket_skipped userAddress m :
  (forall mi, ~ infoReadable StringToBigInt readContract m mi)
  \/ (forall u, userAddress <> JString u) ->
  found userAddress m = [] /\ readsOf userAddress m = [GetMarketInfo m].
Proof.
  intros H.
  assert (Hrun : checkOne userAddress m [] = (Ok [], [GetMarketInfo m])).
  { unfold checkOne, checkMarket, try_catch.
    unfold bind at 1, read at 1, Rpc.request. cbn [app].
    destruct (readContract (GetMarketInfo m)) as [mi|e] eqn:Hmi;
      [|reflexivity].
    destruct (truthy mi) eqn:Ht; [|reflexivity]. cbn [negb].
    unfold bind at 1, lift at 1.
    destruct (JS.BigInt _ (nullish (index mi 2) _)) as [endTime|] eqn:H2;
      [|reflexivity].
    unfold bind at 1, lift at 1.
    destruct (JS.BigInt _ (nullish (index mi 4) _)) as [optionCount|] eqn:H4;
      [|reflexivity].
    unfold bind at 1, lift at 1.
    destruct (JS.BigInt _ (nullish (index mi 9) _)) as [winning|] eqn:H9;
      [|reflexivity].
    unfold bind at 1, lift at 1.
    destruct H as [H|H].
    - exfalso. apply (H mi). unfold infoReadable, numberAt. eauto 10.
    - destruct userAddress; try reflexivity. now destruct (H s). }
  unfold found, readsOf, marketWithdrawals, marketReads, items, reads, outcome.
  fold checkOne. now rewrite Hrun.
Qed.

Lemma info_cases m :
  (exists mi, infoReadable StringToBigInt readContract m mi)
  \/ (forall mi, ~ infoReadable StringToBigInt readContract m mi).
Proof.
  unfold infoReadable.
  destruct (readContract (GetMarketInfo m)) as [mi|e] eqn:Hmi.
  - destruct (truthy mi) eqn:Ht.
    + destruct (numberAt StringToBigInt 2 mi) as [a|] eqn:H2.
      * destruct (numberAt StringToBigInt 4 mi) as [b|] eqn:H4.
        -- destruct (numberAt StringToBigInt 9 mi) as [c|] eqn:H9.
           ++ left. exists mi. eauto 10.
           ++ right. intros mi' (E & _ & _ & _ & [x Hx]). congruence.
        -- right. intros mi' (E & _ & _ & [x Hx] & _). congruence.
      * right. intros mi' (E & _ & [x Hx] & _). congruence.
    + right. intros mi' (E & Ht' & _). congruence.
  - right. intros mi' (E & _). congruence.
Qed.

Lemma single_cases {W} (l : list W) (P : W -> Prop) :
  (forall w, In w l -> l = [w] /\ P w) ->
  l = [] \/ exists w, l = [w] /\ P w.
Proof.
  intros H. destruct l as [|w l']; [now left|right].
  exists w. apply H. now left.
Qed.

(** What one check contributes: nothing, or one candidate of the
    market and of the type of the check. *)
Lemma oneOf_sorted m a p l :
  oneOf adminLiquidity m a -> oneOf prizePool m p -> oneOf lpRewards m l ->
  StronglySorted Z.lt (map position (a ++ p ++ l))
  /\ Forall (fun w => marketId w = m) (a ++ p ++ l).
Proof.
  intros [-> |(wa & -> & Ha1 & Ha2)] [-> |(wp & -> & Hp1 & Hp2)]
         [-> |(wl & -> & Hl1 & Hl2)];
    cbn [app map]; unfold position;
    rewrite ?Ha1, ?Ha2, ?Hp1, ?Hp2, ?Hl1, ?Hl2; cbn [rank];
    (split;
     [repeat (apply SSorted_cons || apply SSorted_nil
              || apply Forall_cons || apply Forall_nil); lia
     |repeat (apply Forall_cons || apply Forall_nil); assumption]).
Qed.

Lemma oneOf_nil t m : oneOf t m [].
Proof. now left. Qed.

(** The candidates of one market are of that market and stand in the
    order of the checks, one of a type at most. *)
Lemma found_sorted userAddress m :
  StronglySorted Z.lt (map position (found userAddress m))
  /\ Forall (fun w => marketId w = m) (found userAddress m).
Proof.
  assert (Hskip : found userAddress m = [] ->
            StronglySorted Z.lt (map position (found userAddress m))
            /\ Forall (fun w => marketId w = m) (found userAddress m)).
  { intros ->. split; constructor. }
  destruct (info_cases m) as [[mi Hmi]|Hno];
    [|apply Hskip; now apply checkMarket_skipped; left].
  destruct userAddress as [| | | | |u| |];
    try (apply Hskip; apply checkMarket_skipped; right; discriminate).
  destruct (checkMarket_readable u m mi Hmi) as [-> _].
  assert (Hl : oneOf lpRewards m
                 (items (checkLPRewards StringToBigInt readContract m u
                           (questionOf mi)))).
  { apply single_cases. intros w Hw.
    destruct (checkLPRewards_found _ _ _ _ Hw) as (H1 & H2 & H3 & _). auto. }
  unfold forCreatorOf. destruct (createdBy u mi).
  - rewrite <- app_assoc. apply oneOf_sorted; [| |exact Hl].
    + apply single_cases. intros w Hw.
      destruct (checkAdminLiquidity_found _ _ _ Hw) as (H1 & H2 & H3 & _). auto.
    + apply single_cases. intros w Hw.
      destruct (checkPrizePool_found _ _ _ _ Hw) as (H1 & H2 & H3). auto.
  - apply (oneOf_sorted m [] []); [apply oneOf_nil|apply oneOf_nil|exact Hl].
Qed.

Lemma sorted_app (l1 l2 : list Z) :
  StronglySorted Z.lt l1 -> StronglySorted Z.lt l2 ->
  (forall x y, In x l1 -> In y l2 -> x < y) ->
  StronglySorted Z.lt (l1 ++ l2).
Proof.
  intros H1 H2 H. induction H1 as [|x l1 Hs IH Hx]; [exact H2|].
  simpl. constructor.
  - apply IH. intros a b Ha Hb. apply H; [now right|exact Hb].
  - apply Forall_app. split; [exact Hx|].
    apply Forall_forall. intros y Hy. apply H; [now left|exact Hy].
Qed.

Lemma zrange_sorted a b : StronglySorted Z.lt (zrange a b).
Proof.
  unfold zrange. generalize (Z.to_nat (b - a)) as len. generalize 0%nat as n.
  intros n len. revert n.
  induction len as [|len IH]; intros n; simpl; constructor; [apply IH|].
  apply Forall_forall. intros x Hx. apply in_map_iff in Hx.
  destruct Hx as (k & <- & Hk). apply in_seq in Hk. lia.
Qed.

Lemma flat_map_found_sorted userAddress ms :
  StronglySorted Z.lt ms ->
  StronglySorted Z.lt (map position (flat_map (found userAddress) ms)).
Proof.
  induction 1 as [|m ms Hs IH Hm]; simpl; [constructor|].
  rewrite map_app. destruct (found_sorted userAddress m) as [Hsorted Hids].
  apply sorted_app; [exact Hsorted|exact IH|].
  intros x y Hx Hy.
  apply in_map_iff in Hx. destruct Hx as (w & <- & Hw).
  apply in_map_iff in Hy. destruct Hy as (w' & <- & Hw').
  apply in_flat_map in Hw'. destruct Hw' as (m' & Hm' & Hw').
  rewrite Forall_forall in Hm, Hids.
  pose proof (Hm _ Hm') as Hlt. pose proof (Hids _ Hw) as E.
  destruct (found_sorted userAddress m') as [_ Hids'].
  rewrite Forall_forall in Hids'. pose proof (Hids' _ Hw') as E'.
  unfold position. rewrite E, E'.
  destruct (type w), (type w'); cbn [rank]; lia.
Qed.

Lemma found_in_range userAddress n :
  Forall (fun w => 0 <= marketId w < n)
    (flat_map (found userAddress) (zrange 0 n)).
Proof.
  apply Forall_forall. intros w Hw.
  apply in_flat_map in Hw. destruct Hw as (m & Hm & Hw).
  apply AdminFacts.zrange_In in Hm.
  destruct (found_sorted userAddress m) as [_ Hids].
  rewrite Forall_forall in Hids. now rewrite (Hids _ Hw).
Qed.

(** X1: the batched scan is the check of each market below the count,
    in order: it returns what the markets give one after the other,
    and it reads the count and then what each market reads. *)
Theorem scan_is_market_by_market userAddress n tr :
  discoverAdminWithdrawals StringToBigInt (Ok n) readContract userAddress tr
  = (Ok (flat_map (marketWithdrawals StringToBigInt readContract userAddress)
           (zrange 0 n)),
     tr ++ MarketCount
        :: flat_map (marketReads StringToBigInt readContract userAddress)
             (zrange 0 n)).
Proof. apply discoverAdminWithdrawals_run. Qed.

(** X2: the candidates of a scan come by market, each market below the
    count, and within a market admin liquidity, prize pool and LP
    rewards in this order, at most one of each. *)
Theorem scan_candidates_are_ordered userAddress n tr :
  exists ws tr',
    discoverAdminWithdrawals StringToBigInt (Ok n) readContract userAddress tr
    = (Ok ws, tr')
    /\ StronglySorted Z.lt (map position ws)
    /\ Forall (fun w => 0 <= marketId w < n) ws.
Proof.
  eexists _, _. split; [apply discoverAdminWithdrawals_run|]. split.
  - apply flat_map_found_sorted, zrange_sorted.
  - apply found_in_range.
Qed.

Lemma found_In userAddress n w :
  In w (flat_map (found userAddress) (zrange 0 n))
  <-> 0 <= marketId w < n /\ In w (found userAddress (marketId w)).
Proof.
  rewrite in_flat_map. split.
  - intros (m & Hm & Hw). apply AdminFacts.zrange_In in Hm.
    destruct (found_sorted userAddress m) as [_ Hids].
    rewrite Forall_forall in Hids. rewrite (Hids _ Hw). auto.
  - intros [Hm Hw]. exists (marketId w). split; [|exact Hw].
    now apply AdminFacts.zrange_In.
Qed.

Lemma forCreatorOf_types u m mi w :
  In w (forCreatorOf StringToBigInt readContract u m mi) ->
  createdBy u mi = true
  /\ (type w = adminLiquidity
      /\ adminLiquidityDue StringToBigInt readContract m (amount w)
      \/ type w = prizePool).
Proof.
  unfold forCreatorOf. destruct (createdBy u mi); [|intros []].
  intros Hw. split; [reflexivity|]. apply in_app_or in Hw.
  destruct Hw as [Hw|Hw].
  - left. destruct (checkAdminLiquidity_found _ _ _ Hw) as (_ & _ & H1 & H2).
    auto.
  - right. now destruct (checkPrizePool_found _ _ _ _ Hw) as (_ & _ & H).
Qed.

(** X3: LP rewards are reported exactly when they are due: for a
    caller [u], whether the creator of the market or not, every
    LP-rewards candidate of a scan is an unclaimed positive estimate
    that [getLPInfo] gives for [u], and every such estimate on a market
    below the count whose info can be read is among the candidates. *)
Theorem lp_rewards_are_found_when_due u n tr :
  exists ws tr',
    discoverAdminWithdrawals StringToBigInt (Ok n) readContract (JString u) tr
    = (Ok ws, tr')
    /\ (forall w, In w ws -> type w = lpRewards ->
          lpRewardsDue StringToBigInt readContract u (marketId w) (amount w))
    /\ (forall m mi amount,
          0 <= m < n ->
          infoReadable StringToBigInt readContract m mi ->
          lpRewardsDue StringToBigInt readContract u m amount ->
          In {| marketId := m; amount := amount; type := lpRewards;
                description :=
                  describe "LP rewards for market " (questionOf mi) |} ws).
Proof.
  eexists _, _. split; [apply discoverAdminWithdrawals_run|]. split.
  - intros w Hw Htype. apply found_In in Hw. destruct Hw as [_ Hw].
    unfold found in Hw.
    destruct (info_cases (marketId w)) as [[mi Hmi]|Hno].
    + destruct (checkMarket_readable u _ mi Hmi) as [E _].
      unfold found in E. rewrite E in Hw. apply in_app_or in Hw.
      destruct Hw as [Hw|Hw].
      * destruct (forCreatorOf_types _ _ _ _ Hw) as [_ [[H _]|H]]; congruence.
      * now destruct (checkLPRewards_found _ _ _ _ Hw) as (_ & _ & _ & H).
    + destruct (checkMarket_skipped (JString u) (marketId w) (or_introl Hno))
        as [E _].
      unfold found in E. rewrite E in Hw. destruct Hw.
  - intros m mi amount Hm Hmi Hdue. apply found_In. split; [exact Hm|].
    cbn [marketId].
    destruct (checkMarket_readable u m mi Hmi) as [-> _].
    apply in_or_app. right.
    rewrite (checkLPRewards_due _ _ _ _ Hdue). now left.
Qed.

(** X4: the initial liquidity of a market is reported exactly when it
    is due: every admin-liquidity candidate of a scan is on a market
    the caller created, with a positive initial liquidity that is not
    marked as claimed, and every such liquidity on a market below the
    count is among the candidates. *)
Theorem admin_liquidity_is_found_when_due u n tr :
  exists ws tr',
    discoverAdminWithdrawals StringToBigInt (Ok n) readContract (JString u) tr
    = (Ok ws, tr')
    /\ (forall w, In w ws -> type w = adminLiquidity ->
          exists mi,
            infoReadable StringToBigInt readContract (marketId w) mi
            /\ createdBy u mi = true
            /\ adminLiquidityDue StringToBigInt readContract (marketId w)
                 (amount w))
    /\ (forall m mi amount,
          0 <= m < n ->
          infoReadable StringToBigInt readContract m mi ->
          createdBy u mi = true ->
          adminLiquidityDue StringToBigInt readContract m amount ->
          In {| marketId := m; amount := amount; type := adminLiquidity;
                description :=
                  describe "Admin liquidity for market " (questionOf mi) |}
             ws).
Proof.
  eexists _, _. split; [apply discoverAdminWithdrawals_run|]. split.
  - intros w Hw Htype. apply found_In in Hw. destruct Hw as [_ Hw].
    unfold found in Hw.
    destruct (info_cases (marketId w)) as [[mi Hmi]|Hno].
    + exists mi. split; [exact Hmi|].
      destruct (checkMarket_readable u _ mi Hmi) as [E _].
      unfold found in E. rewrite E in Hw. apply in_app_or in Hw.
      destruct Hw as [Hw|Hw].
      * destruct (forCreatorOf_types _ _ _ _ Hw) as [Hc [[_ H]|H]];
          [auto|congruence].
      * destruct (checkLPRewards_found _ _ _ _ Hw) as (_ & _ & H & _).
        congruence.
    + destruct (checkMarket_skipped (JString u) (marketId w) (or_introl Hno))
        as [E _].
      unfold found in E. rewrite E in Hw. destruct Hw.
  - intros m mi amount Hm Hmi Hc Hdue. apply found_In. split; [exact Hm|].
    cbn [marketId].
    destruct (checkMarket_readable u m mi Hmi) as [-> _].
    apply in_or_app. left. unfold forCreatorOf. rewrite Hc.
    apply in_or_app. left.
    rewrite (checkAdminLiquidity_due _ _ _ Hdue). now left.
Qed.

(** X5: no unused prize pool is missed: on a resolved free market below
    the count that the caller created, whose info and configuration
    can be read and whose pool is not withdrawn, a positive difference
    between the possible and the actual prize pool is among the
    candidates of the scan. *)
Theorem unused_prize_pool_is_found u n tr m mi fm maxP tpp cur total :
  0 <= m < n ->
  infoReadable StringToBigInt readContract m mi ->
  createdBy u mi = true -> resolvedOf mi = true ->
  readContract (GetFreeMarketInfo m) = Ok fm -> truthy fm = true ->
  prizePoolWithdrawnOf fm = false ->
  numberAt StringToBigInt 0 fm = Ok maxP ->
  numberAt StringToBigInt 1 fm = Ok tpp ->
  numberAt StringToBigInt 2 fm = Ok cur ->
  numberAt StringToBigInt 3 fm = Ok total ->
  0 < maxP * tpp - cur * tpp ->
  exists ws tr',
    discoverAdminWithdrawals StringToBigInt (Ok n) readContract (JString u) tr
    = (Ok ws, tr')
    /\ In {| marketId := m; amount := maxP * tpp - cur * tpp;
             type := prizePool;
             description :=
               describe "Unused prize pool for free market " (questionOf mi) |}
          ws.
Proof.
  intros Hm Hmi Hc Hr Hfm Ht Hw H0 H1 H2 H3 Hpos.
  eexists _, _. split; [apply discoverAdminWithdrawals_run|].
  apply found_In. split; [exact Hm|]. cbn [marketId].
  destruct (checkMarket_readable u m mi Hmi) as [-> _].
  apply in_or_app. left. unfold forCreatorOf. rewrite Hc, Hr.
  apply in_or_app. right.
  rewrite (checkPrizePool_finds m _ fm maxP tpp cur total); auto. now left.
Qed.

(** X6: what the check of one market reads.  The info of the market
    comes first; if it cannot be read nothing else is read; otherwise
    the creator's checks read the financials and the free-market
    configuration, the latter a second time for a resolved free
    market, and the LP position of the caller is read last: five
    reads at most, two for a caller who is not the creator. *)
Theorem reads_of_one_market u m :
  (forall mi, infoReadable StringToBigInt readContract m mi ->
     marketReads StringToBigInt readContract (JString u) m
     = GetMarketInfo m
       :: (if createdBy u mi then
             GetMarketFinancials m
             :: GetFreeMarketInfo m
             :: (if freeMarket readContract m && resolvedOf mi
                 then [GetFreeMarketInfo m] else [])
           else [])
          ++ [GetLPInfo m u])
  /\ ((forall mi, ~ infoReadable StringToBigInt readContract m mi) ->
      marketReads StringToBigInt readContract (JString u) m = [GetMarketInfo m])
  /\ (List.length (marketReads StringToBigInt readContract (JString u) m)
      <= 5)%nat.
Proof.
  split; [|split].
  - intros mi Hmi. destruct (checkMarket_readable u m mi Hmi) as [_ E].
    exact E.
  - intros Hno.
    destruct (checkMarket_skipped (JString u) m (or_introl Hno)) as [_ E].
    exact E.
  - destruct (info_cases m) as [[mi Hmi]|Hno].
    + destruct (checkMarket_readable u m mi Hmi) as [_ E].
      unfold readsOf in E. rewrite E. unfold creatorReads.
      destruct (createdBy u mi); [|cbn [app List.length]; lia].
      destruct (_ && _); cbn [app List.length]; lia.
    + destruct (checkMarket_skipped (JString u) m (or_introl Hno)) as [_ E].
      unfold readsOf in E. rewrite E. cbn [List.length]. lia.
Qed.

(** *** The answer of the route *)





Lemma flat_map_single {X Y} (f : X -> Y) l :
  flat_map (fun x => [f x]) l = map f l.
Proof. induction l as [|x l IH]; simpl; congruence. Qed.

Lemma flat_map_nothing {X Y} (f : X -> list Y) l :
  (forall x, f x = []) -> flat_map f l = [].
Proof.
  intros H. induction l as [|x l IH]; simpl; [reflexivity|].
  now rewrite H, IH.
Qed.

(** X8: a user address that is not a string (a number, an object)
    passes the check of the route, and then every market is skipped
    once its info was read, when the address is to be lowercased: the
    answer is 200 with no withdrawal, after one read per market. *)
Theorem scan_for_an_address_that_is_not_a_string req parsed userAddress n tr :
  json req = Ok parsed ->
  prop parsed "userAddress" = Ok userAddress ->
  truthy userAddress = true ->
  (forall u, userAddress <> JString u) ->
  POST StringToBigInt (Ok n) readContract req tr
  = (Ok {| status := 200; body := noWithdrawals |},
     tr ++ MarketCount :: map GetMarketInfo (zrange 0 n)).
Proof.
  intros Hjson Hprop Htruthy Hnot.
  unfold POST, try_catch. unfold bind at 1, lift at 1. rewrite Hjson.
  unfold bind at 1, lift at 1. rewrite Hprop, Htruthy. cbn [negb].
  unfold bind at 1. rewrite discoverAdminWithdrawals_run.
  rewrite (flat_map_nothing (found userAddress)).
  - rewrite (flat_map_ext (readsOf userAddress) (fun m => [GetMarketInfo m])).
    + now rewrite flat_map_single.
    + intros m. now destruct (checkMarket_skipped userAddress m (or_intror Hnot)).
  - intros m. now destruct (checkMarket_skipped userAddress m (or_intror Hnot)).
Qed.

End Scan.

(** The sample scan of two markets: on market 0, which the caller
    created, liquidity, unused prize pool and LP rewards; on market 1
    rewards that are claimed. *)
Example scan_of_two_markets :
  let scan :=
    discoverAdminWithdrawals noStringToBigInt (Ok 2) twoMarkets
      (JString creatorAddress) [] in
  match scan with
  | (Ok ws, tr) =>
      map (fun w => (marketId w, type w, amount w)) ws
      = [(0, adminLiquidity, 1000); (0, prizePool, 300); (0, lpRewards, 7)]
      /\ tr = [MarketCount; GetMarketInfo 0; GetMarketFinancials 0;
               GetFreeMarketInfo 0; GetFreeMarketInfo 0;
               GetLPInfo 0 creatorAddress;
               GetMarketInfo 1; GetLPInfo 1 creatorAddress]
  | (Throw _, _) => False
  end.
Proof. vm_compute. split; reflexivity. Qed.

Lemma unused_prize_pool_is_found_sample :
  exists ws tr',
    discoverAdminWithdrawals noStringToBigInt (Ok 2) twoMarkets
      (JString creatorAddress) []
    = (Ok ws, tr')
    /\ In {| marketId := 0; amount := 300; type := prizePool;
             description :=
               describe "Unused prize pool for free market "
                 "Will it rain tomorrow?" |} ws.
Proof.
  apply (unused_prize_pool_is_found noStringToBigInt twoMarkets creatorAddress
           2 [] 0 rainInfo rainPool 100 5 40 500); try reflexivity.
  - lia.
  - unfold infoReadable. split; [reflexivity|]. split; [reflexivity|].
    repeat split; eexists; reflexivity.
Defined.


(** The totals of the sample answer. *)
Example totals_of_two_markets :
  match body twoMarketsAnswer with
  | Discovered _ totals count =>
      totals = {| t_adminLiquidity := "1000"; t_prizePool := "300";
                  t_lpRewards := "7"; t_total := "1307" |}
      /\ count = 3%nat
  | ErrorBody _ => False
  end.
Proof. vm_compute. split; reflexivity. Qed.

Lemma scan_for_a_number_sample :
  POST noStringToBigInt (Ok 2) twoMarkets
    {| json := Ok (JObject [("userAddress", JNumber 5)]) |} []
  = (Ok {| status := 200; body := noWithdrawals |},
     [MarketCount; GetMarketInfo 0; GetMarketInfo 1]).
Proof.
  apply (scan_for_an_address_that_is_not_a_string noStringToBigInt twoMarkets
           _ (JObject [("userAddress", JNumber 5)]) (JNumber 5) 2 []).
  - reflexivity.
  - reflexivity.
  - reflexivity.
  - discriminate.
Defined.

End ScanFacts.

(* ================================================================= *)
(** ** The reads of the preview *)

Module PreviewReads.
Import JS Eff Rpc PreviewBatchDistribution EffFacts Samples PreviewSamples
  PreviewReading.

Section Route.

Variable parseInt : string -> option Z.
Variable shortest_digits : float -> string.
Variable getMarketInfo : Z -> res MarketInfo.
Variable tradeExecutedLogs : Z -> res (list TradeExecuted).
Variable freeTokensClaimedLogs : Z -> res (list FreeTokensClaimed).
Variable getEligibleWinners : Z -> list string -> res (list string * list Z).

Let route : request -> M trace response :=
  POST parseInt shortest_digits getMarketInfo tradeExecutedLogs
    freeTokensClaimedLogs getEligibleWinners.


(** X10: events without a participant.  When the market has events but
    none of them carries an address that counts (every address is
    missing, empty or the zero address), the preview answers 200 "No
    participants found", without an eligible count, and does not ask
    the contract for the eligible winners. *)
Theorem preview_without_participants req n mi tradeEvents freeTokenEvents tr :
  asksFor parseInt req n -> getMarketInfo n = Ok mi ->
  resolved mi = true -> disputed mi = false ->
  tradeExecutedLogs n = Ok tradeEvents ->
  freeTokensClaimedLogs n = Ok freeTokenEvents ->
  tradeEvents <> [] \/ freeTokenEvents <> [] ->
  (forall addr, In addr (addressesOf tradeEvents freeTokenEvents) ->
                ~ counted addr) ->
  route req tr
  = (Ok {| status := 200;
           body := Preview [] [] 0 None
                     (Some "No participants found for this market") |},
     tr ++ [GetMarketInfo n; GetLogsTradeExecuted n;
            GetLogsFreeTokensClaimed n]).
Proof.
  intros (parsed & marketId & Hjson & Hprop & Htruthy & Hparse & Hpos)
         Hmi Hr Hd Ht Hf Hsome Hnone.
  apply Z.ltb_ge in Hpos.
  assert (Hps : collectParticipants tradeEvents freeTokenEvents = []).
  { destruct (collectParticipants tradeEvents freeTokenEvents) as [|p ps] eqn:E;
      [reflexivity|].
    assert (Hin : In p (collectParticipants tradeEvents freeTokenEvents))
      by (rewrite E; now left).
    apply PreviewFacts.collectParticipants_In in Hin.
    destruct Hin as (addr & Hin & Hc & _). now elim (Hnone addr Hin). }
  unfold route, POST, try_catch, bind, lift, ret, Rpc.request.
  rewrite Hjson, Hprop, Htruthy, Hparse, Hpos. cbn [negb].
  rewrite Hmi, Hr, Hd. cbn [negb]. rewrite Ht, Hf.
  assert (Hempty : ((List.length tradeEvents =? 0)%nat
                    && (List.length freeTokenEvents =? 0)%nat) = false).
  { destruct Hsome as [H|H]; [destruct tradeEvents|destruct freeTokenEvents];
      try (now elim H); cbn [List.length Nat.eqb andb]; try reflexivity.
    apply andb_false_r. }
  rewrite Hempty, Hps. cbn [List.length Nat.eqb].
  unfold empty_result. now rewrite <- !app_assoc.
Qed.

(** X11: the preview always answers, with status 200, 400 or 500, and
    what it reads is a beginning of: the info of the market, its
    trades, its free-token claims, the eligible winners among its
    participants, who are distinct.  Without a market id that parses
    it reads nothing. *)
Theorem preview_reads_in_order req tr :
  exists r added,
    route req tr = (Ok r, tr ++ added)
    /\ (status r = 200 \/ status r = 400 \/ status r = 500)
    /\ (added = []
        \/ exists n participants k,
             asksFor parseInt req n /\ NoDup participants
             /\ (1 <= k <= 4)%nat
             /\ added = firstn k (readsOfPreview n participants)).
Proof.
  unfold route, POST, try_catch.
  unfold bind at 1, lift at 1.
  destruct (json req) as [parsed|e] eqn:Hjson;
    [|eexists _, []; rewrite app_nil_r; split; [reflexivity|]; cbn; auto].
  unfold bind at 1, lift at 1.
  destruct (prop parsed "marketId") as [marketId|e] eqn:Hprop;
    [|eexists _, []; rewrite app_nil_r; split; [reflexivity|]; cbn; auto].
  destruct (truthy marketId) eqn:Htruthy; cbn [negb];
    [|eexists _, []; rewrite app_nil_r; split; [reflexivity|]; cbn; auto].
  destruct (parseInt (toString marketId)) as [n|] eqn:Hparse;
    [|eexists _, []; rewrite app_nil_r; split; [reflexivity|]; cbn; auto].
  destruct (n <? 0) eqn:Hneg;
    [eexists _, []; rewrite app_nil_r; split; [reflexivity|]; cbn; auto|].
  assert (Hasks : asksFor parseInt req n).
  { exists parsed, marketId. apply Z.ltb_ge in Hneg. auto. }
  assert (Hshape : forall participants k r,
            NoDup participants -> (1 <= k <= 4)%nat ->
            (status r = 200 \/ status r = 400 \/ status r = 500) ->
            exists r0 added,
              (Ok r, tr ++ firstn k (readsOfPreview n participants))
              = (Ok r0, tr ++ added)
              /\ (status r0 = 200 \/ status r0 = 400 \/ status r0 = 500)
              /\ (added = []
                  \/ exists n0 participants0 k0,
                       asksFor parseInt req n0 /\ NoDup participants0
                       /\ (1 <= k0 <= 4)%nat
                       /\ added = firstn k0 (readsOfPreview n0 participants0))).
  { intros participants k r Hnd Hk Hr. exists r, (firstn k (readsOfPreview n participants)).
    split; [reflexivity|]. split; [exact Hr|]. right.
    exists n, participants, k. auto. }
  unfold bind at 1, Rpc.request at 1.
  destruct (getMarketInfo n) as [mi|e].
  2:{ apply (Hshape [] 1%nat); [constructor|lia|cbn; auto]. }
  destruct (resolved mi); cbn [negb].
  2:{ apply (Hshape [] 1%nat); [constructor|lia|cbn; auto]. }
  destruct (disputed mi).
  { apply (Hshape [] 1%nat); [constructor|lia|cbn; auto]. }
  unfold bind at 1, Rpc.request at 1. rewrite <- app_assoc.
  destruct (tradeExecutedLogs n) as [tradeEvents|e].
  2:{ apply (Hshape [] 2%nat); [constructor|lia|cbn; auto]. }
  unfold bind at 1, Rpc.request at 1. rewrite <- app_assoc.
  destruct (freeTokensClaimedLogs n) as [freeTokenEvents|e].
  2:{ apply (Hshape [] 3%nat); [constructor|lia|cbn; auto]. }
  destruct (_ && _).
  { apply (Hshape [] 3%nat); [constructor|lia|cbn; auto]. }
  destruct (List.length (collectParticipants tradeEvents freeTokenEvents) =? 0)%nat.
  { apply (Hshape [] 3%nat); [constructor|lia|cbn; auto]. }
  unfold bind at 1, Rpc.request at 1. rewrite <- app_assoc.
  pose proof (PreviewFacts.collectParticipants_NoDup tradeEvents freeTokenEvents)
    as Hnd.
  destruct (getEligibleWinners n _) as [[recipients amounts]|e].
  - apply (Hshape (collectParticipants tradeEvents freeTokenEvents) 4%nat);
      [exact Hnd|lia|cbn; auto].
  - apply (Hshape (collectParticipants tradeEvents freeTokenEvents) 4%nat);
      [exact Hnd|lia|cbn; auto].
Qed.

End Route.


Lemma preview_without_participants_sample :
  POST sampleParseInt noDigits (fun _ => Ok sampleInfo)
    (fun _ => Ok mintTrades) (fun _ => Ok [])
    (fun _ _ => Throw unavailable) previewRequest []
  = (Ok {| status := 200;
           body := Preview [] [] 0 None
                     (Some "No participants found for this market") |},
     [GetMarketInfo 7; GetLogsTradeExecuted 7; GetLogsFreeTokensClaimed 7]).
Proof.
  apply (preview_without_participants sampleParseInt noDigits
           (fun _ => Ok sampleInfo) (fun _ => Ok mintTrades) (fun _ => Ok [])
           (fun _ _ => Throw unavailable) previewRequest 7 sampleInfo
           mintTrades [] []).
  - exact PreviewFacts.previewRequest_asksFor.
  - reflexivity.
  - reflexivity.
  - reflexivity.
  - reflexivity.
  - reflexivity.
  - left. discriminate.
  - intros addr [<- |[]] [_ H]. now elim H.
Defined.

End PreviewReads.

(* ================================================================= *)
(** ** The cache of the analytics *)

Module CacheFacts.
Import JS Eff Analytics EffFacts Samples Samples64 CacheSamples CacheReading.



Section Route.

Variable StringToBigInt : string -> option Z.
Variable getLogs : Z -> res (list Log).
Variable getBlock : Z -> res Block.
Variable Date_now : nat -> Z.
Variable Math_random : nat -> Q.
Variable toISOString : Z -> string.
Variable Date_daysAgo : Z -> Z -> Z.

Let get := GET StringToBigInt getLogs getBlock Date_now Math_random toISOString
             Date_daysAgo.


(** X13: a query that is not in the cache is computed, cut to its time
    range and put in the cache as it is answered: every bucket of the
    answer is at or after the cutoff, the totals and the changes are
    those of the whole history, and the same query is then found in
    the cache with the answer. *)
Theorem analytics_GET_caches_its_answer q marketId a w w1 :
  nonEmpty (q_marketId q) = Some marketId ->
  map_get (keyOf q marketId) (analyticsCache w) = None ->
  calculateMarketAnalytics StringToBigInt getLogs getBlock Date_now Math_random
    toISOString Date_daysAgo marketId w = (Ok a, w1) ->
  exists answer w',
    get q w = (Ok {| status := 200; body := AnalyticsBody answer |}, w')
    /\ map_get (keyOf q marketId) (analyticsCache w')
       = Some (answer, Date_now (S (tick w1)))
    /\ (forall k, k <> keyOf q marketId ->
                  map_get k (analyticsCache w') = map_get k (analyticsCache w1))
    /\ (let cutoff := cutoffOf match nonEmpty (q_timeRange q) with
                               | Some r => r
                               | None => "7d"
                               end (Date_now (tick w1)) in
        priceHistory answer
        = filter (fun p => (cutoff <=? p_timestamp p)%Z) (priceHistory a)
        /\ volumeHistory answer
           = filter (fun v => (cutoff <=? v_timestamp v)%Z) (volumeHistory a)
        /\ Forall (fun p => (cutoff <= p_timestamp p)%Z) (priceHistory answer)
        /\ Forall (fun v => (cutoff <= v_timestamp v)%Z) (volumeHistory answer))
    /\ totalVolume answer = totalVolume a
    /\ totalTrades answer = totalTrades a
    /\ priceChange24h answer = priceChange24h a
    /\ volumeChange24h answer = volumeChange24h a.
Proof.
  intros Hid Hmiss Hcalc. unfold get, GET, try_catch. rewrite Hid.
  unfold bind at 1, cache_get. fold (keyOf q marketId). rewrite Hmiss.
  unfold fresh. unfold bind at 1. rewrite Hcalc.
  unfold bind, now, cache_update, ret. cbn [analyticsCache tick].
  eexists _, _. split; [reflexivity|]. cbn [analyticsCache].
  split; [apply AnalyticsFacts.map_get_set_same|].
  split; [intros k Hk; apply AnalyticsFacts.map_get_set_other; congruence|].
  cbn [priceHistory volumeHistory totalVolume totalTrades priceChange24h
       volumeChange24h].
  repeat split.
  - apply Forall_forall. intros p Hp. apply filter_In in Hp.
    now apply Z.leb_le.
  - apply Forall_forall. intros v Hv. apply filter_In in Hv.
    now apply Z.leb_le.
Qed.


End Route.


Lemma analytics_GET_caches_its_answer_sample :
  exists answer w',
    GET sampleStringToBigInt sampleLogs sampleBlock sampleClock sampleRandom
      sampleISO sampleDaysAgo queryOfMarket1 freshWorld
    = (Ok {| status := 200; body := AnalyticsBody answer |}, w')
    /\ map_get "1-7d" (analyticsCache w') = Some (answer, 1767484800000%Z)
    /\ List.length (priceHistory answer) = 3%nat.
Proof.
  destruct (analytics_GET_caches_its_answer sampleStringToBigInt sampleLogs
              sampleBlock sampleClock sampleRandom sampleISO sampleDaysAgo
              queryOfMarket1 "1"
              (match fst (calculateMarketAnalytics sampleStringToBigInt
                            sampleLogs sampleBlock sampleClock sampleRandom
                            sampleISO sampleDaysAgo "1" freshWorld) with
               | Ok a => a
               | Throw _ => cachedAnalytics
               end)
              freshWorld
              (snd (calculateMarketAnalytics sampleStringToBigInt
                      sampleLogs sampleBlock sampleClock sampleRandom
                      sampleISO sampleDaysAgo "1" freshWorld)))
    as (answer & w' & Hget & Hcache & _ & (Hprices & _) & _).
  - reflexivity.
  - reflexivity.
  - vm_compute. reflexivity.
  - exists answer, w'. split; [exact Hget|]. split; [exact Hcache|].
    rewrite Hprices. vm_compute. reflexivity.
Defined.


End CacheFacts.

(* ================================================================= *)
(** ** The events of a market *)

Module EventFacts.
Import JS Eff Binary64 Analytics64 EffFacts Samples Samples64.

Section Route.

Variable StringToBigInt : string -> option Z.
Variable getLogs : Z -> res (list Analytics.Log).
Variable getBlock : Z -> res Analytics.Block.

Lemma eventOfLog_one log w :
  exists r,
    eventOfLog getBlock log w = (r, w)
    /\ match r with
       | Ok events => (List.length events <= 1)%nat
       | Throw _ => True
       end.
Proof.
  unfold eventOfLog, bind, lift, ret.
  destruct (getBlock (Analytics.log_blockNumber log));
    [|eexists; split; [reflexivity|exact I]].
  destruct (Analytics.log_args log); eexists; (split; [reflexivity|]);
    simpl; lia.
Qed.

Lemma forEach_eventOfLog logs : forall acc w,
  exists r,
    forEach logs (eventOfLog getBlock) acc w = (r, w)
    /\ match r with
       | Ok events =>
           (List.length events <= List.length acc + List.length logs)%nat
       | Throw _ => True
       end.
Proof.
  induction logs as [|log logs IH]; intros acc w; simpl.
  - eexists. split; [reflexivity|]. simpl. lia.
  - unfold bind. destruct (eventOfLog_one log w) as (r & Er & Hr). rewrite Er.
    destruct r as [events|e]; [|eexists; split; [reflexivity|exact I]].
    destruct (IH (acc ++ events) w) as (r' & Er' & Hr'). rewrite Er'.
    exists r'. split; [reflexivity|].
    destruct r'; [|exact I]. rewrite length_app in Hr'. lia.
Qed.

(** X15: the events of a market are read without a trace: whatever the
    log query and the block reads do, [getMarketEvents] returns a
    list, leaves the cache and the clock alone, and the list is in the
    order of time, made of purchases only, one for a log at most;
    when the market id is not a number or the log query fails the list
    is empty. *)
Theorem events_are_read_in_time_order marketId w :
  exists events,
    getMarketEvents StringToBigInt getLogs getBlock marketId w = (Ok events, w)
    /\ StronglySorted Z.le (map timestamp events)
    /\ Forall (fun e => eventType e = Analytics.SharesPurchased) events
    /\ match parsed StringToBigInt marketId with
       | Ok id =>
           match getLogs id with
           | Ok logs => (List.length events <= List.length logs)%nat
           | Throw _ => events = []
           end
       | Throw _ => events = []
       end.
Proof.
  assert (Hrun : exists events,
            getMarketEvents StringToBigInt getLogs getBlock marketId w
            = (Ok events, w)
            /\ StronglySorted Z.le (map timestamp events)
            /\ match parsed StringToBigInt marketId with
               | Ok id =>
                   match getLogs id with
                   | Ok logs => (List.length events <= List.length logs)%nat
                   | Throw _ => events = []
                   end
               | Throw _ => events = []
               end).
  { unfold getMarketEvents, try_catch, bind, lift, ret.
    destruct (parsed StringToBigInt marketId) as [id|e].
    2:{ exists []. repeat split; constructor. }
    destruct (getLogs id) as [logs|e].
    2:{ exists []. repeat split; constructor. }
    destruct (forEach_eventOfLog logs [] w) as (r & Er & Hr). rewrite Er.
    destruct r as [events|e].
    - exists (Analytics.sort_by timestamp events).
      split; [reflexivity|]. split.
      + apply (Analytics64Facts.sorted_map timestamp),
          Analytics64Facts.sort_by_sorted.
      + rewrite AnalyticsFacts.sort_by_length. simpl in Hr. exact Hr.
    - exists []. repeat split; try constructor. simpl. lia. }
  destruct Hrun as (events & Hrun & Hsorted & Hcount).
  exists events. split; [exact Hrun|]. split; [exact Hsorted|].
  split; [|exact Hcount].
  pose proof (Analytics64Facts.getMarketEvents_purchases StringToBigInt getLogs
                getBlock marketId w) as Hp.
  unfold wp in Hp. rewrite Hrun in Hp.
  eapply Forall_impl; [|exact Hp]. now intros e [He _].
Qed.

End Route.

End EventFacts.

(* ================================================================= *)
(** ** The cache of the prices *)

Module PriceCacheFacts.
Import JS Eff Binary64 CurrentPrice EffFacts Samples Samples64 PriceSamples.

Section Route.

Variable StringToBigInt : string -> option Z.
Variable StringToNumber : string -> float.
Variable getMarketInfo : Z -> res jsval.
Variable latestLogs : Z -> res (list Analytics.Log).
Variable getBlock : Z -> res Analytics.Block.
Variable Date_now : nat -> Z.
Variable Math_random : nat -> float.

Let get := GET StringToBigInt StringToNumber getMarketInfo latestLogs getBlock
             Date_now Math_random.

(** Fetching a price leaves the cache alone. *)
Lemma getCurrentMarketPrice_cache marketId w :
  wp (getCurrentMarketPrice StringToBigInt StringToNumber getMarketInfo
        latestLogs getBlock Date_now Math_random marketId)
     (fun _ w1 => priceCache w1 = priceCache w) (fun _ _ => False) w.
Proof.
  unfold wp, getCurrentMarketPrice, try_catch, bind, lift, mockData, random,
    now, ret.
  destruct (parsed StringToBigInt marketId) as [id|]; [|reflexivity].
  destruct (getMarketInfo id) as [marketData|]; [|reflexivity].
  destruct (destructure2 marketData) as [[a b]|]; [|reflexivity].
  destruct (latestLogs id) as [recentLogs|]; [|reflexivity].
  unfold lastTradeOf, bind, lift, ret.
  destruct (rev recentLogs) as [|latestLog rest]; [reflexivity|].
  destruct (Analytics.log_args latestLog) as [args|]; [|reflexivity].
  destruct (getBlock (Analytics.log_blockNumber latestLog)); reflexivity.
Qed.


(** X17: a price that is not in the cache is fetched and cached as it
    is answered, under the market id, and the other entries of the
    cache stay. *)
Theorem price_GET_caches_its_answer marketId id w :
  Analytics.nonEmpty marketId = Some id ->
  Analytics.map_get id (priceCache w) = None ->
  exists data t w',
    get marketId w = (Ok {| status := 200; body := PriceBody data |}, w')
    /\ Analytics.map_get id (priceCache w') = Some (data, t)
    /\ (forall k, k <> id ->
                  Analytics.map_get k (priceCache w')
                  = Analytics.map_get k (priceCache w)).
Proof.
  intros Hid Hmiss. unfold get, GET, try_catch. rewrite Hid.
  unfold bind at 1, cache_get. rewrite Hmiss.
  unfold fresh. unfold bind at 1.
  pose proof (CurrentPriceFacts.getCurrentMarketPrice_returns StringToBigInt
                StringToNumber getMarketInfo latestLogs getBlock Date_now
                Math_random id w) as Hp.
  unfold wp in Hp.
  pose proof (getCurrentMarketPrice_cache id w) as Hcache.
  unfold wp in Hcache.
  destruct (getCurrentMarketPrice _ _ _ _ _ _ _ id w) as [[data|e] w1] eqn:E;
    [|contradiction].
  unfold bind, now, cache_set, ret. cbn [priceCache tick].
  eexists _, _, _. split; [reflexivity|]. cbn [priceCache].
  split; [apply AnalyticsFacts.map_get_set_same|].
  intros k Hk. rewrite AnalyticsFacts.map_get_set_other by congruence.
  now rewrite Hcache.
Qed.

End Route.


(** With nothing cached, the answer for market 1 is cached. *)
Lemma price_GET_caches_its_answer_sample :
  exists data t w',
    CurrentPrice.GET sampleStringToBigInt noNumber
      (fun _ => Throw unavailable) (fun _ => Throw unavailable)
      (fun _ => Throw unavailable) sampleClock quarter (Some "1") freshPrices
    = (Ok {| status := 200; body := PriceBody data |}, w')
    /\ Analytics.map_get "1" (priceCache w') = Some (data, t)
    /\ (forall k, k <> "1" ->
                  Analytics.map_get k (priceCache w')
                  = Analytics.map_get k (priceCache freshPrices)).
Proof.
  apply (price_GET_caches_its_answer sampleStringToBigInt noNumber
           (fun _ => Throw unavailable) (fun _ => Throw unavailable)
           (fun _ => Throw unavailable) sampleClock quarter (Some "1") "1"
           freshPrices).
  - reflexivity.
  - reflexivity.
Defined.

End PriceCacheFacts.

(* ================================================================= *)
(** ** The rows of the store *)

Module MapperRows.
Import Mapper Samples MapperSamples.

(** *** Identifiers *)

Lemma byte_of_value z : Z.of_N (Byte.to_N (byte_of z)) = z mod 256.
Proof.
  unfold byte_of.
  assert (Hland : Z.land z 255 = z mod 256)
    by (change 255 with (Z.ones 8); now rewrite Z.land_ones).
  pose proof (Z.mod_pos_bound z 256 ltac:(lia)) as Hb.
  destruct (Byte.of_N (Z.to_N (Z.land z 255))) as [b|] eqn:E.
  - apply Byte.to_of_N in E. rewrite E, Hland. lia.
  - apply Byte.of_N_None_iff in E. rewrite Hland in E. lia.
Qed.

Lemma shiftr_bytes z :
  Z.shiftr z 8 = z / 256 /\ Z.shiftr z 16 = z / 256 / 256
  /\ Z.shiftr z 24 = z / 256 / 256 / 256.
Proof.
  rewrite !Z.shiftr_div_pow2, !Z.div_div by lia. repeat split.
Qed.

Lemma fromI32_inj x y :
  - 2 ^ 31 <= x < 2 ^ 31 -> - 2 ^ 31 <= y < 2 ^ 31 ->
  fromI32 x = fromI32 y -> x = y.
Proof.
  intros Hx Hy H. unfold fromI32 in H.
  destruct (shiftr_bytes x) as (Ex1 & Ex2 & Ex3).
  destruct (shiftr_bytes y) as (Ey1 & Ey2 & Ey3).
  rewrite Ex1, Ex2, Ex3, Ey1, Ey2, Ey3 in H. clear Ex1 Ex2 Ex3 Ey1 Ey2 Ey3.
  injection H as H0 H1 H2 H3.
  apply (f_equal (fun b => Z.of_N (Byte.to_N b))) in H0, H1, H2, H3.
  rewrite !byte_of_value in H0, H1, H2, H3.
  change (2 ^ 31) with 2147483648 in *.
  pose proof (Z.div_mod x 256 ltac:(lia)).
  pose proof (Z.div_mod (x / 256) 256 ltac:(lia)).
  pose proof (Z.div_mod (x / 256 / 256) 256 ltac:(lia)).
  pose proof (Z.div_mod (x / 256 / 256 / 256) 256 ltac:(lia)).
  pose proof (Z.div_mod y 256 ltac:(lia)).
  pose proof (Z.div_mod (y / 256) 256 ltac:(lia)).
  pose proof (Z.div_mod (y / 256 / 256) 256 ltac:(lia)).
  pose proof (Z.div_mod (y / 256 / 256 / 256) 256 ltac:(lia)).
  pose proof (Z.mod_pos_bound x 256 ltac:(lia)).
  pose proof (Z.mod_pos_bound (x / 256) 256 ltac:(lia)).
  pose proof (Z.mod_pos_bound (x / 256 / 256) 256 ltac:(lia)).
  pose proof (Z.mod_pos_bound (x / 256 / 256 / 256) 256 ltac:(lia)).
  pose proof (Z.mod_pos_bound y 256 ltac:(lia)).
  pose proof (Z.mod_pos_bound (y / 256) 256 ltac:(lia)).
  pose proof (Z.mod_pos_bound (y / 256 / 256) 256 ltac:(lia)).
  pose proof (Z.mod_pos_bound (y / 256 / 256 / 256) 256 ltac:(lia)).
  lia.
Qed.

Lemma app_inj_suffix {A} (l1 l2 s1 s2 : list A) :
  List.length s1 = List.length s2 -> l1 ++ s1 = l2 ++ s2 ->
  l1 = l2 /\ s1 = s2.
Proof.
  intros Hlen. revert l2.
  induction l1 as [|a l1 IH]; intros [|b l2] H; simpl in H.
  - auto.
  - apply (f_equal (@List.length A)) in H. simpl in H.
    rewrite length_app in H. lia.
  - apply (f_equal (@List.length A)) in H. simpl in H.
    rewrite length_app in H. lia.
  - injection H as -> H. destruct (IH _ H) as [-> ->]. auto.
Qed.

Lemma concatI32_inj h1 h2 x y :
  - 2 ^ 31 <= x < 2 ^ 31 -> - 2 ^ 31 <= y < 2 ^ 31 ->
  concatI32 h1 x = concatI32 h2 y -> h1 = h2 /\ x = y.
Proof.
  intros Hx Hy H. unfold concatI32 in H.
  apply app_inj_suffix in H; [|reflexivity].
  destruct H as [-> H]. split; [reflexivity|]. now apply fromI32_inj.
Qed.

(** *** Rows *)

Lemma kind_eqb_eq a b : kind_eqb a b = true -> a = b.
Proof.
  destruct a, b; intros H; try reflexivity; vm_compute in H; discriminate H.
Qed.

Lemma kind_eqb_refl a : kind_eqb a a = true.
Proof. unfold kind_eqb. apply String.eqb_refl. Qed.

Lemma bytes_eqb_eq a b : bytes_eqb a b = true <-> a = b.
Proof.
  unfold bytes_eqb. destruct (list_eq_dec Byte.byte_eq_dec a b); split;
    auto; discriminate.
Qed.

Lemma same_row_iff k i row :
  same_row k i row = true <-> k = fst row /\ i = id (snd row).
Proof.
  unfold same_row. rewrite andb_true_iff, bytes_eqb_eq. split.
  - intros [Hk Hi]. split; [now apply kind_eqb_eq|exact Hi].
  - intros [-> ->]. split; [apply kind_eqb_refl|reflexivity].
Qed.

Lemma store_get_set_other k row k' i' store :
  k' <> k \/ i' <> id row ->
  store_get k' i' (store_set k row store) = store_get k' i' store.
Proof.
  intros Hother.
  assert (Hnew : same_row k' i' (k, row) = false).
  { destruct (same_row k' i' (k, row)) eqn:E; [|reflexivity].
    apply same_row_iff in E. simpl in E. destruct E. tauto. }
  induction store as [|r store IH]; simpl.
  - now rewrite Hnew.
  - destruct (same_row k (id row) r) eqn:E; simpl.
    + apply same_row_iff in E. destruct E as [Ek Ei].
      rewrite Hnew.
      destruct (same_row k' i' r) eqn:E'; [|reflexivity].
      apply same_row_iff in E'. destruct E' as [Ek' Ei']. subst.
      destruct Hother as [H|H]; now elim H.
    + destruct (same_row k' i' r); [reflexivity|exact IH].
Qed.

Lemma store_set_length k row store :
  (List.length store <= List.length (store_set k row store)
   <= S (List.length store))%nat.
Proof.
  induction store as [|r store IH]; simpl; [lia|].
  destruct (same_row k (id row) r); simpl; lia.
Qed.


Lemma toI32_fits z : - 2 ^ 31 <= z < 2 ^ 31 -> toI32 z = Some z.
Proof.
  intros [Hlo Hhi]. unfold toI32.
  apply Z.leb_le in Hlo. apply Z.ltb_lt in Hhi. now rewrite Hlo, Hhi.
Qed.



(** X19: a handler touches one row: a row of another type or of another
    identifier reads after the handler as before, and the store has
    one row more or as many rows as before. *)
Theorem handler_leaves_the_other_rows (k : kind) (event : Event)
  (store store' : Store) :
  handle k event store = Some store' ->
  (forall k' i',
      k' <> k \/ i' <> concatI32 (transaction_hash event) (logIndex event) ->
      store_get k' i' store' = store_get k' i' store)
  /\ (List.length store <= List.length store' <= S (List.length store))%nat.
Proof.
  unfold handle.
  destruct (toI32 (logIndex event)) as [i|] eqn:Hi; [|discriminate].
  assert (Ei : i = logIndex event).
  { unfold toI32 in Hi. destruct (_ && _); congruence. }
  subst i.
  destruct (copyParams (declared k) (parameters event)) as [copied|];
    [|discriminate].
  intros H. injection H as <-. split.
  - intros k' i' Hother. now apply store_get_set_other.
  - apply store_set_length.
Qed.

(** X20: the rows of two logs do not overwrite each other: after the
    handlers of two events that differ in type, transaction hash or
    log index, both rows are in the store, whichever came first. *)
Theorem rows_of_two_logs_are_kept (k1 k2 : kind) (e1 e2 : Event)
  (store s1 s2 : Store) :
  - 2 ^ 31 <= logIndex e1 < 2 ^ 31 -> - 2 ^ 31 <= logIndex e2 < 2 ^ 31 ->
  k1 <> k2 \/ transaction_hash e1 <> transaction_hash e2
  \/ logIndex e1 <> logIndex e2 ->
  handle k1 e1 store = Some s1 -> handle k2 e2 s1 = Some s2 ->
  exists r1 r2,
    id r1 = concatI32 (transaction_hash e1) (logIndex e1)
    /\ id r2 = concatI32 (transaction_hash e2) (logIndex e2)
    /\ store_get k1 (id r1) s1 = Some r1
    /\ store_get k1 (id r1) s2 = Some r1
    /\ store_get k2 (id r2) s2 = Some r2.
Proof.
  intros H1 H2 Hdiff Hs1 Hs2.
  unfold handle in Hs1, Hs2.
  rewrite (toI32_fits _ H1) in Hs1. rewrite (toI32_fits _ H2) in Hs2.
  destruct (copyParams (declared k1) (parameters e1)) as [c1|]; [|discriminate].
  destruct (copyParams (declared k2) (parameters e2)) as [c2|]; [|discriminate].
  injection Hs1 as <-. injection Hs2 as <-.
  set (r1 := {| id := concatI32 (transaction_hash e1) (logIndex e1);
                data := c1;
                blockNumber := block_number e1;
                blockTimestamp := block_timestamp e1;
                transactionHash := transaction_hash e1 |}).
  set (r2 := {| id := concatI32 (transaction_hash e2) (logIndex e2);
                data := c2;
                blockNumber := block_number e2;
                blockTimestamp := block_timestamp e2;
                transactionHash := transaction_hash e2 |}).
  exists r1, r2. split; [reflexivity|]. split; [reflexivity|].
  split; [apply MapperFacts.store_get_set|].
  split; [|apply MapperFacts.store_get_set].
  rewrite store_get_set_other; [apply MapperFacts.store_get_set|].
  cbn [id r1 r2].
  destruct Hdiff as [Hk|Hid]; [now left|right].
  intros E. apply concatI32_inj in E; [|assumption|assumption].
  destruct E as [Eh Ei]. destruct Hid as [H|H]; now elim H.
Qed.

Lemma handler_leaves_the_other_rows_sample :
  exists store',
    handleClaimed nextEvent [(Claimed, sampleRow)] = Some store'
    /\ store_get Claimed (id sampleRow) store' = Some sampleRow
    /\ List.length store' = 2%nat.
Proof.
  destruct (handleClaimed nextEvent [(Claimed, sampleRow)]) as [store'|] eqn:E;
    [|vm_compute in E; discriminate E].
  destruct (handler_leaves_the_other_rows Claimed nextEvent
              [(Claimed, sampleRow)] store' E) as [Hother _].
  exists store'. split; [reflexivity|]. split.
  - rewrite Hother; [reflexivity|]. right. vm_compute. discriminate.
  - vm_compute in E. injection E as <-. reflexivity.
Defined.

Lemma rows_of_two_logs_are_kept_sample :
  exists s1 s2 r1 r2,
    handleClaimed sampleEvent [] = Some s1
    /\ handleClaimed nextEvent s1 = Some s2
    /\ store_get Claimed (id r1) s2 = Some r1
    /\ store_get Claimed (id r2) s2 = Some r2
    /\ id r1 <> id r2.
Proof.
  destruct (handleClaimed sampleEvent []) as [s1|] eqn:E1;
    [|vm_compute in E1; discriminate E1].
  destruct (handleClaimed nextEvent s1) as [s2|] eqn:E2;
    [|vm_compute in E1; injection E1 as <-; vm_compute in E2; discriminate E2].
  destruct (rows_of_two_logs_are_kept Claimed Claimed sampleEvent nextEvent
              [] s1 s2) as (r1 & r2 & Hi1 & Hi2 & _ & Hg1 & Hg2).
  - unfold sampleEvent. cbn [logIndex]. lia.
  - unfold nextEvent. cbn [logIndex]. lia.
  - right. right. unfold sampleEvent, nextEvent. cbn [logIndex]. lia.
  - exact E1.
  - exact E2.
  - exists s1, s2, r1, r2. repeat split; auto.
    rewrite Hi1, Hi2. vm_compute. discriminate.
Defined.

Example handler_aborts_sample :
  handleClaimed shortEvent [] = None.
Proof. reflexivity. Qed.

End MapperRows.
